(** * F.I.N.T.R.O — Forecast agent and Liquidity/Collision agent

    A shallow embedding of
      - [CFO_AGENTS/Forecast_Agent/agent.py]  (class [ForecastingAgent])
      - [CFO_AGENTS/Liquidity_and_Collision_Detection_Agent/agent.py]
        (class [CollisionAgent])
    together with the properties of the 91-day forecast and of the
    collision pipeline.

    Conventions of the embedding.
      - A Python [float] (and an [int] that is mixed with floats) is an exact
        rational [Q]; [nan] and [inf] are outside the model.
      - A [datetime.date] is its proleptic Gregorian ordinal, a [Z] in
        [1 .. 3652059]; [date + timedelta(days=n)] raises outside that range.
      - A JSON object coming from the backend is a record with one field of
        type [option pyval] for every key the agents read: [None] is an
        absent key, [Some PNone] is [null].
      - A computation that may raise lives in the [exn] monad, [Raise msg]
        carrying [str(e)]; a [try/except] is a [match] on it.
      - The functions of the Python runtime the agents call (date parsing and
        printing, [float(str)], [str(number)], [numpy.std], number
        formatting) are the fields of the class [PyRuntime]. *)

From Stdlib Require Import QArith Qround Qabs Qminmax Lqa ZArith Lia.
From Stdlib Require Import String Ascii List.
From stdpp Require Import base option gmap strings list sorting.
Import ListNotations.

Open Scope string_scope.
Open Scope Z_scope.

(** ** Python values and built-ins *)

Module Py.

Inductive pyval : Type :=
| PNone
| PBool (b : bool)
| PNum (q : Q)
| PStr (s : string).

(** [bool(v)] *)
Definition truthy (v : pyval) : bool :=
  match v with
  | PNone => false
  | PBool b => b
  | PNum q => negb (Qeq_bool q 0)
  | PStr s => negb (String.eqb s "")
  end.

(** [a or b] *)
Definition py_or (a b : pyval) : pyval := if truthy a then a else b.

(** [d.get(k)] *)
Definition get (field : option pyval) : pyval :=
  match field with Some v => v | None => PNone end.

(** [d.get(k, default)] *)
Definition get_default (field : option pyval) (default : pyval) : pyval :=
  match field with Some v => v | None => default end.

(** *** Strings *)

Definition lower_ascii (c : ascii) : ascii :=
  let n := nat_of_ascii c in
  if (Nat.leb 65 n && Nat.leb n 90)%bool then ascii_of_nat (n + 32) else c.

(** [s.lower()], on ASCII letters *)
Fixpoint lower (s : string) : string :=
  match s with
  | EmptyString => EmptyString
  | String c s' => String (lower_ascii c) (lower s')
  end.

(** [needle in hay] *)
Fixpoint contains (needle hay : string) : bool :=
  if String.prefix needle hay then true
  else match hay with
       | EmptyString => false
       | String _ hay' => contains needle hay'
       end.

Fixpoint skip (n : nat) (s : string) : string :=
  match n, s with
  | O, _ => s
  | S n', String _ s' => skip n' s'
  | S _, EmptyString => EmptyString
  end.

(** [s[:n]] *)
Definition upto (n : nat) (s : string) : string := String.substring 0 n s.

(** [s.replace(pat, by)] for a non-empty [pat]; [fuel] bounds the scan by
    the length of [s] *)
Fixpoint replace_fuel (fuel : nat) (pat by_ s : string) : string :=
  match fuel with
  | O => s
  | S fuel' =>
      match s with
      | EmptyString => EmptyString
      | String c s' =>
          if String.prefix pat s
          then by_ ++ replace_fuel fuel' pat by_ (skip (String.length pat) s)
          else String c (replace_fuel fuel' pat by_ s')
      end
  end.

Definition replace (pat by_ s : string) : string :=
  replace_fuel (String.length s) pat by_ s.

Definition is_space (c : ascii) : bool :=
  let n := nat_of_ascii c in
  ((Nat.leb 9 n && Nat.leb n 13) || Nat.eqb n 32 || (Nat.leb 28 n && Nat.leb n 31))%bool.

Fixpoint lstrip (s : string) : string :=
  match s with
  | String c s' => if is_space c then lstrip s' else s
  | EmptyString => EmptyString
  end.

(** [s.rstrip(chars)] for the characters accepted by [p] *)
Fixpoint rstrip_by (p : ascii -> bool) (s : string) : string :=
  match s with
  | EmptyString => EmptyString
  | String c s' =>
      match rstrip_by p s' with
      | EmptyString => if p c then EmptyString else String c EmptyString
      | r => String c r
      end
  end.

(** [s.strip()] *)
Definition strip (s : string) : string := rstrip_by is_space (lstrip s).

(** [s.split(c)[0]] *)
Fixpoint before (c : ascii) (s : string) : string :=
  match s with
  | EmptyString => EmptyString
  | String a s' => if Ascii.eqb a c then EmptyString else String a (before c s')
  end.

Fixpoint has_char (c : ascii) (s : string) : bool :=
  match s with
  | EmptyString => false
  | String a s' => (Ascii.eqb a c || has_char c s')%bool
  end.

Definition startswith (p s : string) : bool := String.prefix p s.

Fixpoint last_char (s : string) : option ascii :=
  match s with
  | EmptyString => None
  | String c EmptyString => Some c
  | String _ s' => last_char s'
  end.

Definition endswith_char (c : ascii) (s : string) : bool :=
  match last_char s with Some a => Ascii.eqb a c | None => false end.

(** [s[1:-1]] *)
Definition strip_ends (s : string) : string :=
  String.substring 1 (String.length s - 2) s.

(** [str(n)] for an integer [n >= 0] *)
Definition digit_char (d : Z) : ascii := ascii_of_nat (48 + Z.to_nat (d mod 10)).

Fixpoint digits_fuel (fuel : nat) (n : Z) (acc : string) : string :=
  match fuel with
  | O => acc
  | S fuel' =>
      let acc' := String (digit_char n) acc in
      if n / 10 =? 0 then acc' else digits_fuel fuel' (n / 10) acc'
  end.

Definition digits (n : Z) : string :=
  digits_fuel (S (Z.to_nat (Z.log2 n))) n "".

(** *** Numbers *)

(** [a < b] *)
Definition Qlt_bool (a b : Q) : bool := negb (Qle_bool b a).

(** [min(a, b)] and [max(a, b)]: the first argument wins a tie *)
Definition py_min (a b : Q) : Q := if Qlt_bool b a then b else a.
Definition py_max (a b : Q) : Q := if Qlt_bool a b then b else a.

(** *** Exceptions *)

(** A computation that may raise; [Raise msg] carries [str(e)]. *)
Inductive exn (A : Type) : Type :=
| Ok (a : A)
| Raise (msg : string).
Arguments Ok {A} a.
Arguments Raise {A} msg.

Definition bind {A B} (m : exn A) (k : A -> exn B) : exn B :=
  match m with Ok a => k a | Raise msg => Raise msg end.

Notation "'let*' x ':=' m 'in' k" := (bind m (fun x => k))
  (at level 10, x name, m at level 100, k at level 200).

(** [o] when it is there, else an exception with text [msg] *)
Definition or_raise {A} (msg : string) (o : option A) : exn A :=
  match o with Some a => Ok a | None => Raise msg end.

(** *** Dates *)

Definition pydate : Type := Z.
Definition MAXORDINAL : Z := 3652059.

(** [d + timedelta(days=n)]; [OverflowError] outside [1 .. MAXORDINAL] *)
Definition date_add (d : pydate) (n : Z) : exn pydate :=
  if ((1 <=? d + n) && (d + n <=? MAXORDINAL))%bool then Ok (d + n)
  else Raise "date value out of range".

(** [(a - b).days] *)
Definition days_between (a b : pydate) : Z := a - b.

(** [d.weekday()], Monday is 0 *)
Definition weekday (d : pydate) : Z := (d + 6) mod 7.

Definition is_leap (y : Z) : bool :=
  ((y mod 4 =? 0) && (negb (y mod 100 =? 0) || (y mod 400 =? 0)))%bool.

Definition days_in_month (y m : Z) : Z :=
  if m =? 2 then (if is_leap y then 29 else 28)
  else if (m =? 4) || (m =? 6) || (m =? 9) || (m =? 11) then 30 else 31.

Definition days_before_year (y : Z) : Z :=
  let p := y - 1 in p * 365 + p / 4 - p / 100 + p / 400.

Fixpoint days_before_month_aux (y : Z) (k : nat) : Z :=
  match k with
  | O => 0
  | S k' => days_before_month_aux y k' + days_in_month y (Z.of_nat k)
  end.

Definition days_before_month (y m : Z) : Z :=
  days_before_month_aux y (Z.to_nat (m - 1)).

(** [date(y, m, d).toordinal()] *)
Definition ymd2ord (y m d : Z) : Z :=
  days_before_year y + days_before_month y m + d.

(** [date.fromordinal(n)] as (year, month, day), the algorithm of
    [datetime._ord2ymd] *)
Definition ord2ymd (n0 : Z) : Z * Z * Z :=
  let n := n0 - 1 in
  let n400 := n / 146097 in
  let n := n mod 146097 in
  let n100 := n / 36524 in
  let n := n mod 36524 in
  let n4 := n / 1461 in
  let n := n mod 1461 in
  let n1 := n / 365 in
  let n := n mod 365 in
  let year := n400 * 400 + 1 + n100 * 100 + n4 * 4 + n1 in
  if (n1 =? 4) || (n100 =? 4) then (year - 1, 12, 31)
  else
    let month := Z.shiftr (n + 50) 5 in
    let preceding := days_before_month year month in
    if n <? preceding
    then (year, month - 1, n - (preceding - days_in_month year (month - 1)) + 1)
    else (year, month, n - preceding + 1).

Definition year_of (d : pydate) : Z := fst (fst (ord2ymd d)).
Definition month_of (d : pydate) : Z := snd (fst (ord2ymd d)).
Definition day_of (d : pydate) : Z := snd (ord2ymd d).

(** *** The runtime *)

Class PyRuntime : Type := {
  (** [datetime.strptime(s, '%Y-%m-%d').date()], [None] when it raises *)
  strptime_ymd : string -> option pydate;
  (** [datetime.fromisoformat(s).date()], [None] when it raises *)
  fromisoformat : string -> option pydate;
  (** [d.strftime('%Y-%m-%d')] (also [d.isoformat()]) *)
  strftime_ymd : pydate -> string;
  (** [float(s)] on a string, [None] when it raises [ValueError] *)
  float_of_str : string -> option Q;
  (** [str(e)] of the exception [float(v)] raises *)
  float_error : pyval -> string;
  (** [str(e)] of the [AttributeError] [v.lower()] raises *)
  lower_error : pyval -> string;
  (** [str(x)] on a number *)
  str_of_num : Q -> string;
  (** [numpy.std] *)
  np_std : list Q -> Q;
  (** [f"{x:,.0f}"] *)
  format_money : Q -> string
}.

Section WithRuntime.
Context {RT : PyRuntime}.

(** [str(v)] *)
Definition py_str (v : pyval) : string :=
  match v with
  | PNone => "None"
  | PBool true => "True"
  | PBool false => "False"
  | PNum q => str_of_num q
  | PStr s => s
  end.

(** [float(v)]: [TypeError] on [None], [ValueError] on a malformed string *)
Definition py_float (v : pyval) : exn Q :=
  match v with
  | PNone => Raise (float_error v)
  | PBool b => Ok (if b then 1%Q else 0%Q)
  | PNum q => Ok q
  | PStr s => or_raise (float_error v) (float_of_str s)
  end.

(** [v.lower()]: [AttributeError] unless [v] is a string *)
Definition py_lower (v : pyval) : exn string :=
  match v with
  | PStr s => Ok (lower s)
  | _ => Raise (lower_error v)
  end.

End WithRuntime.

(** *** [list.sort(key=..., reverse=True)]

    Python's sort is stable, also with [reverse=True]: elements with equal
    keys keep their relative order. *)

Fixpoint insert_desc {A} (key : A -> Q) (x : A) (l : list A) : list A :=
  match l with
  | [] => [x]
  | y :: l' =>
      if Qle_bool (key y) (key x) then x :: y :: l'
      else y :: insert_desc key x l'
  end.

Fixpoint sort_desc {A} (key : A -> Q) (l : list A) : list A :=
  match l with
  | [] => []
  | x :: l' => insert_desc key x (sort_desc key l')
  end.

(** the order in which such a sort leaves a list *)
Definition descending {A} (key : A -> Q) : relation A :=
  fun a b => (key b <= key a)%Q.

(** [sum(l)] of floats, accumulated from the left starting at [0] *)
Definition py_sum (l : list Q) : Q := fold_left Qplus l 0%Q.

(** [round(x)] to the nearest integer, ties to even *)
Definition round_half_even (x : Q) : Z :=
  let f := Qfloor x in
  let r := (x - inject_Z f)%Q in
  match (r ?= 1 # 2)%Q with
  | Lt => f
  | Gt => f + 1
  | Eq => if Z.even f then f else f + 1
  end.

(** [round(x, 2)] *)
Definition round2 (x : Q) : Q := Qmake (round_half_even (x * 100)) 100.

End Py.

(** ** A reference runtime

    One concrete [PyRuntime], on which the agents can be run: dates are
    printed and read in the strict form [YYYY-MM-DD], numbers in plain
    decimal notation. *)

Module RefRuntime.
Import Py.

Fixpoint zeros (k : nat) : string :=
  match k with O => "" | S k' => String "0" (zeros k') end.

Definition pad (width : nat) (n : Z) : string :=
  let s := digits n in zeros (width - String.length s) ++ s.

Definition strftime (d : pydate) : string :=
  let '(y, m, dd) := ord2ymd d in
  pad 4 y ++ "-" ++ pad 2 m ++ "-" ++ pad 2 dd.

Definition digit_val (c : ascii) : option Z :=
  let n := nat_of_ascii c in
  if (Nat.leb 48 n && Nat.leb n 57)%bool then Some (Z.of_nat (n - 48)) else None.

Fixpoint number_of (s : string) (acc : Z) : option Z :=
  match s with
  | EmptyString => Some acc
  | String c s' =>
      match digit_val c with
      | Some d => number_of s' (acc * 10 + d)
      | None => None
      end
  end.

Definition nonempty_number (s : string) : option Z :=
  match s with EmptyString => None | _ => number_of s 0 end.

(** reads exactly [YYYY-MM-DD] and checks that the date exists *)
Definition parse_ymd (s : string) : option pydate :=
  if negb (Nat.eqb (String.length s) 10) then None
  else
    match String.get 4 s, String.get 7 s with
    | Some "-"%char, Some "-"%char =>
        match number_of (String.substring 0 4 s) 0,
              number_of (String.substring 5 2 s) 0,
              number_of (String.substring 8 2 s) 0 with
        | Some y, Some m, Some d =>
            if ((1 <=? y) && (1 <=? m) && (m <=? 12) && (1 <=? d)
                && (d <=? days_in_month y m))%bool
            then Some (ymd2ord y m d) else None
        | _, _, _ => None
        end
    | _, _ => None
    end.

(** reads [[-]digits[.digits]] *)
Definition parse_decimal (s : string) : option Q :=
  let '(neg, body) :=
    match s with
    | String "-"%char r => (true, r)
    | _ => (false, s)
    end in
  let ip := before "."%char body in
  let fp := if has_char "."%char body
            then skip (S (String.length ip)) body else "" in
  match nonempty_number ip, number_of fp 0 with
  | Some i, Some f =>
      let q := (inject_Z i + Qmake f (Pos.pow 10 (Pos.of_nat (String.length fp)))
                  * (if has_char "."%char body then 1 else 0))%Q in
      Some (Qred (if neg then - q else q))
  | _, _ => None
  end.

Fixpoint group3 (s : string) (k : nat) : string :=
  match s with
  | EmptyString => EmptyString
  | String c s' =>
      let n := String.length s' in
      if (negb (Nat.eqb n 0) && Nat.eqb (n mod 3) 0)%bool
      then String c (String ","%char (group3 s' k))
      else String c (group3 s' k)
  end.

Definition money (q : Q) : string :=
  let n := round_half_even q in
  (if n <? 0 then "-" else "") ++ group3 (digits (Z.abs n)) 0.

Definition show_num (q : Q) : string :=
  let r := Qred q in
  if (Zpos (Qden r) =? 1)
  then (if Qnum r <? 0 then "-" else "") ++ digits (Z.abs (Qnum r))
  else (if Qnum r <? 0 then "-" else "") ++ digits (Z.abs (Qnum r))
       ++ "/" ++ digits (Zpos (Qden r)).

Definition mean (l : list Q) : Q := (py_sum l / inject_Z (Z.of_nat (length l)))%Q.

(** population standard deviation, truncated to six decimals *)
Definition std (l : list Q) : Q :=
  let m := mean l in
  let var := mean (map (fun x => (x - m) * (x - m))%Q l) in
  Qmake (Z.sqrt (Qfloor (var * 1000000000000))) 1000000.

#[export] Instance runtime : PyRuntime := {|
  strptime_ymd := parse_ymd;
  fromisoformat := parse_ymd;
  strftime_ymd := strftime;
  float_of_str := parse_decimal;
  float_error := fun v =>
    match v with
    | PStr s => "could not convert string to float: '" ++ s ++ "'"
    | _ => "float() argument must be a string or a real number"
    end;
  lower_error := fun _ => "object has no attribute 'lower'";
  str_of_num := show_num;
  np_std := std;
  format_money := money
|}.

End RefRuntime.

(** ** Forecast agent ([Forecast_Agent/agent.py]) *)

Module Forecast.
Import Py.

(** [numpy.mean] *)
Definition np_mean (l : list Q) : Q :=
  (fold_right Qplus 0 l / inject_Z (Z.of_nat (length l)))%Q.

(** A payment record of the backend, with every key the agent reads. *)
Record Payment : Type := {
  payment_date : option pyval;
  date_ : option pyval;
  paymentDate : option pyval;
  payment_amount : option pyval;
  amount : option pyval;
  paymentAmount : option pyval;
  payment_type : option pyval;
  type_ : option pyval;
  sign : option pyval
}.

Record HistoricalData : Type := {
  dates : list pydate;
  net_changes : list Q;
  record_count : nat;
  start_date : option pydate;
  end_date : option pydate;
  avg_daily_net : Q;
  std_daily_net : Q
}.

(** One element of [forecast_results]. *)
Record ForecastDay : Type := {
  date : string;
  predicted_balance : Q;
  daily_change : Q;
  confidence_95 : Q;
  confidence_5 : Q;
  confidence_level : Q
}.

(** The keys of the state dictionary the modelled stages read or write. *)
Record State : Type := {
  org_id : pyval;
  error : option string;
  current_step : string;
  partial_history : option bool;
  opening_balance : pyval;
  historical_data : option HistoricalData;
  X_val : option (list (list Q));
  y_val : option (list Q);
  forecast_results : option (list ForecastDay);
  predicted_daily_changes : option (list Q)
}.

Definition set_error (msg : string) (st : State) : State :=
  {| org_id := org_id st; error := Some msg; current_step := "error";
     partial_history := partial_history st;
     opening_balance := opening_balance st;
     historical_data := historical_data st;
     X_val := X_val st; y_val := y_val st;
     forecast_results := forecast_results st;
     predicted_daily_changes := predicted_daily_changes st |}.

(** [MIN_HISTORICAL_DAYS] and [ALLOW_PARTIAL_HISTORY] of the environment *)
Record Config : Type := {
  MIN_DAYS : Z;
  ALLOW_PARTIAL : bool
}.

Definition default_config : Config := {| MIN_DAYS := 90; ALLOW_PARTIAL := false |}.

(** the state [run_forecasting_agent] starts from, line 740 *)
Definition initial (org : pyval) : State :=
  {| org_id := org; error := None; current_step := "initialized";
     partial_history := None; opening_balance := PNone;
     historical_data := None; X_val := None; y_val := None;
     forecast_results := None; predicted_daily_changes := None |}.

Section WithRuntime.
Context {RT : PyRuntime}.

(** [_safe_date_parse]; a JSON value is never a [datetime] *)
Definition _safe_date_parse (s : pyval) : option pydate :=
  match s with
  | PNone => None
  | _ =>
      match fromisoformat (py_str s) with
      | Some d => Some d
      | None => strptime_ymd (py_str s)
      end
  end.

(** The date of a payment, lines 147-163: [None] is a skipped record. *)
Definition payment_day (p : Payment) : option pydate :=
  let pd_raw := py_or (py_or (get (payment_date p)) (get (date_ p))) (get (paymentDate p)) in
  match pd_raw with
  | PNone => None
  | _ =>
      match fromisoformat (py_str pd_raw) with
      | Some d => Some d
      | None => strptime_ymd (py_str pd_raw)
      end
  end.

(** line 165 *)
Definition raw_amt (p : Payment) : pyval :=
  py_or (py_or (py_or (get (payment_amount p)) (get (amount p)))
               (get (paymentAmount p))) (PNum 0).

(** The amount of a payment, lines 165-172: [float(amt)], then
    [float(str(amt).replace(",", ""))], then [0.0]. *)
Definition payment_amt (p : Payment) : Q :=
  let amt := raw_amt p in
  match py_float amt with
  | Ok q => q
  | Raise _ =>
      match float_of_str (replace "," "" (py_str amt)) with
      | Some q => q
      | None => 0%Q
      end
  end.

(** neither [float(amt)] nor [float(str(amt).replace(",", ""))] returns *)
Definition amt_unparsable (p : Payment) : Prop :=
  (forall q, py_float (raw_amt p) <> Ok q)
  /\ float_of_str (replace "," "" (py_str (raw_amt p))) = None.

(** [(p.get("payment_type") or p.get("type") or "").lower()] *)
Definition payment_ptype (p : Payment) : exn string :=
  py_lower (py_or (py_or (get (payment_type p)) (get (type_ p))) (PStr "")).

(** [sign in ("+", 1, "1", True)] *)
Definition sign_plus (v : pyval) : bool :=
  match v with
  | PStr s => (String.eqb s "+" || String.eqb s "1")%bool
  | PNum q => Qeq_bool q 1
  | PBool b => b
  | PNone => false
  end.

(** [sign in ("-", -1, "-1", False)]; [0 == False] in Python *)
Definition sign_minus (v : pyval) : bool :=
  match v with
  | PStr s => (String.eqb s "-" || String.eqb s "-1")%bool
  | PNum q => (Qeq_bool q (-1) || Qeq_bool q 0)%bool
  | PBool b => negb b
  | PNone => false
  end.

(** [date_map[d] += a] on a [defaultdict(float)] *)
Definition add_to (date_map : gmap Z Q) (d : Z) (a : Q) : gmap Z Q :=
  <[d := (default 0%Q (date_map !! d) + a)%Q]> date_map.

(** [date_map[d] -= a] *)
Definition sub_from (date_map : gmap Z Q) (d : Z) (a : Q) : gmap Z Q :=
  <[d := (default 0%Q (date_map !! d) - a)%Q]> date_map.

(** The body of the loop of lines 146-186. *)
Definition aggregate_one (date_map : gmap Z Q) (p : Payment) : exn (gmap Z Q) :=
  match payment_day p with
  | None => Ok date_map
  | Some parsed =>
      let amt := payment_amt p in
      bind (payment_ptype p) (fun ptype =>
        if String.eqb ptype "inflow" then Ok (add_to date_map parsed amt)
        else if String.eqb ptype "outflow" then Ok (sub_from date_map parsed amt)
        else if sign_plus (get (sign p)) then Ok (add_to date_map parsed amt)
        else if sign_minus (get (sign p)) then Ok (sub_from date_map parsed amt)
        else Ok (add_to date_map parsed amt))
  end.

Fixpoint aggregate (date_map : gmap Z Q) (payments : list Payment)
  : exn (gmap Z Q) :=
  match payments with
  | [] => Ok date_map
  | p :: rest => bind (aggregate_one date_map p) (fun m => aggregate m rest)
  end.

(** [m1] is [m2] with the day [d] entered, at the net change [m2] has for it
    (0 when [m2] does not have the day). *)
Definition entered (d : Z) (m1 m2 : gmap Z Q) : Prop :=
  m1 !! d = Some (default 0%Q (m2 !! d))
  /\ forall k, k <> d -> m1 !! k = m2 !! k.

(** [sorted(date_map.keys())] *)
Definition sorted_dates (date_map : gmap Z Q) : list pydate :=
  merge_sort Z.le (map fst (map_to_list date_map)).

(** [load_historical_data], lines 88-223. [payments] is the answer of the
    payments endpoint: [inl msg] when the request raised, with the text of
    the exception. *)
Definition load_historical_data (cfg : Config)
    (payments : string + list Payment) (state : State) : exn State :=
  if negb (truthy (org_id state)) then Ok (set_error "missing org_id" state)
  else
    match payments with
    | inl exc => Ok (set_error ("failed to fetch payments: " ++ exc) state)
    | inr [] => Ok (set_error "no_payments" state)
    | inr payments =>
        bind (aggregate ∅ payments) (fun date_map =>
          let sorted := sorted_dates date_map in
          let count := length sorted in
          let short := Z.of_nat count <? MIN_DAYS cfg in
          if (short && negb (ALLOW_PARTIAL cfg))%bool
          then Ok (set_error "Insufficient historical data" state)
          else
            let net := map (fun d => default 0%Q (date_map !! d)) sorted in
            Ok {| org_id := org_id state; error := error state;
                   current_step := "data_loaded";
                   partial_history :=
                     if short then Some true else partial_history state;
                   opening_balance := opening_balance state;
                   historical_data := Some
                     {| dates := sorted; net_changes := net;
                        record_count := count;
                        start_date := head sorted;
                        end_date := last sorted;
                        avg_daily_net :=
                          match net with [] => 0%Q | _ => np_mean net end;
                        std_daily_net :=
                          match net with [] => 0%Q | _ => np_std net end |};
                   X_val := X_val state; y_val := y_val state;
                   forecast_results := forecast_results state;
                   predicted_daily_changes := predicted_daily_changes state |})
    end.

(** *** Step 5: [generate_forecast], lines 430-536 *)

(** The body of the loop of lines 457-478, which brings the opening balance
    to [last_date]. *)
Definition balance_one (last_date : pydate) (current_balance : Q) (p : Payment)
  : exn Q :=
  let pd_raw := py_or (py_or (get (payment_date p)) (get (date_ p))) (get (paymentDate p)) in
  match _safe_date_parse pd_raw with
  | None => Ok current_balance
  | Some parsed =>
      if parsed <=? last_date then
        let amt := payment_amt p in
        bind (payment_ptype p) (fun ptype =>
          if String.eqb ptype "inflow" then Ok (current_balance + amt)%Q
          else if String.eqb ptype "outflow" then Ok (current_balance - amt)%Q
          else Ok (current_balance + amt)%Q)
      else Ok current_balance
  end.

Fixpoint balance_at (last_date : pydate) (current_balance : Q)
    (payments_all : list Payment) : exn Q :=
  match payments_all with
  | [] => Ok current_balance
  | p :: rest =>
      bind (balance_one last_date current_balance p)
           (fun b => balance_at last_date b rest)
  end.

(** [l[-k]] for [1 <= k <= len(l)] *)
Definition from_end (k : nat) (l : list Q) : Q := nth (length l - k) l 0%Q.

(** [l[-k:]] *)
Definition last_n (k : nat) (l : list Q) : list Q := skipn (length l - k) l.

(** [state['y_val'] - self.model.predict(state['X_val'])], two arrays of one
    length *)
Definition residuals (model : list Q -> Q) (y_val : option (list Q))
    (X : list (list Q)) : exn (list Q) :=
  match y_val with
  | None => Raise "'y_val'"
  | Some y =>
      if Nat.eqb (length y) (length X)
      then Ok (zip_with Qminus y (map model X))
      else Raise "operands could not be broadcast together"
  end.

(** the residuals of line 513 can be computed: there is no validation set,
    or [y_val] has as many entries as [X_val] *)
Definition residuals_defined (state : State) : Prop :=
  match X_val state with
  | Some (x :: xs) =>
      match y_val state with
      | Some y => length y = length (x :: xs)
      | None => False
      end
  | _ => True
  end.

(** The variables of the loop of lines 481-528. *)
Record Loop : Type := {
  current_balance : Q;
  changes : list Q;
  results : list ForecastDay
}.

(** One iteration of the loop, [model] being [self.model.predict] on one
    feature vector. *)
Definition forecast_day (model : list Q -> Q) (state : State)
    (net_changes : list Q) (last_date : pydate) (acc : Loop) (day_offset : Z)
  : exn Loop :=
  bind (date_add last_date (day_offset + 1)) (fun forecast_date =>
    let dow := weekday forecast_date in
    let dom := day_of forecast_date in
    let month := month_of forecast_date in
    let is_start := if dom <=? 5 then 1 else 0 in
    let is_end := if 25 <=? dom then 1 else 0 in
    let predicted := changes acc in
    let hist := np_mean net_changes in
    let lag_1 := match predicted with [] => hist | _ => from_end 1 predicted end in
    let lag_7 := if Nat.leb 7 (length predicted) then from_end 7 predicted else hist in
    let lag_30 := if Nat.leb 30 (length predicted) then from_end 30 predicted else hist in
    let rolling_7 :=
      match predicted with [] => hist | _ => np_mean (last_n 7 predicted) end in
    let rolling_30 :=
      match predicted with [] => hist | _ => np_mean (last_n 30 predicted) end in
    let X_forecast :=
      [inject_Z dow; inject_Z dom; inject_Z month; inject_Z is_start;
       inject_Z is_end; lag_1; lag_7; lag_30; rolling_7; rolling_30] in
    let predicted_change := model X_forecast in
    let balance := (current_balance acc + predicted_change)%Q in
    bind (match X_val state with
          | Some (x :: xs) =>
              bind (residuals model (y_val state) (x :: xs))
                   (fun r => Ok (np_std r))
          | _ => Ok (match net_changes with [] => 0%Q | _ => np_std net_changes end)
          end) (fun residual_std =>
      let confidence_95 := (balance + (196 # 100) * residual_std)%Q in
      let confidence_5 := (balance - (196 # 100) * residual_std)%Q in
      Ok {| current_balance := balance;
             changes := predicted ++ [predicted_change];
             results := results acc ++
               [{| date := strftime_ymd forecast_date;
                   predicted_balance := round2 balance;
                   daily_change := round2 predicted_change;
                   confidence_95 := round2 confidence_95;
                   confidence_5 := round2 confidence_5;
                   confidence_level := 95 # 100 |}] |})).

Fixpoint forecast_loop (model : list Q -> Q) (state : State)
    (net_changes : list Q) (last_date : pydate) (acc : Loop)
    (offsets : list Z) : exn Loop :=
  match offsets with
  | [] => Ok acc
  | day_offset :: rest =>
      bind (forecast_day model state net_changes last_date acc day_offset)
           (fun acc' => forecast_loop model state net_changes last_date acc' rest)
  end.

(** [range(n)] *)
Definition range (n : nat) : list Z := map Z.of_nat (seq 0 n).

(** [state.get('error')] as a condition *)
Definition has_error (state : State) : bool :=
  match error state with
  | Some msg => negb (String.eqb msg "")
  | None => false
  end.

(** [generate_forecast]. [payments_all] is the answer of the payments
    endpoint, [None] when the request raised (line 454). *)
Definition generate_forecast (model : list Q -> Q)
    (payments_all : option (list Payment)) (state : State) : exn State :=
  if has_error state then Ok state
  else
    bind (or_raise "'historical_data'" (historical_data state)) (fun hd =>
    bind (or_raise "list index out of range" (last (dates hd))) (fun last_date =>
    bind (py_float (py_or (opening_balance state) (PNum 0))) (fun opening =>
    bind (balance_at last_date opening (default [] payments_all)) (fun balance =>
    bind (forecast_loop model state (net_changes hd) last_date
            {| current_balance := balance; changes := []; results := [] |}
            (range 91)) (fun out =>
      Ok {| org_id := org_id state; error := error state;
             current_step := "forecast_generated";
             partial_history := partial_history state;
             opening_balance := opening_balance state;
             historical_data := historical_data state;
             X_val := X_val state; y_val := y_val state;
             forecast_results := Some (results out);
             predicted_daily_changes := Some (changes out) |}))))).

End WithRuntime.
End Forecast.

(** ** Forecast agent: the features and the output

    Steps 3 and 7 of the graph. The keys of the state that [Forecast.State]
    does not carry are arguments and results of the stages. *)

Module ForecastStages.
Import Py Forecast.

(** [state['seasonality']], lines 282-289 *)
Record Seasonality : Type := {
  day_of_week_avg : list Q;
  day_of_month_avg : list (option Q);
  trend_slope : Q;
  volatility : Q;
  mean_net_daily : Q;
  seasonality_strength : string
}.

(** The keys [X_train], [y_train] and [feature_names] of the state. *)
Record Training : Type := {
  X_train : list (list Q);
  y_train : list Q;
  feature_names : list string
}.

(** [state['model_info']], lines 408-419 *)
Record ModelInfo : Type := {
  model_type : string;
  model_version : string;
  n_estimators : Z;
  max_depth : Z;
  training_samples : nat;
  validation_samples : nat;
  mape : Q;
  rmse : Q;
  training_date : string;
  feature_importance : list (string * Q)
}.

(** [output['summary']], lines 714-723 *)
Module Summary.
Record t : Type := {
  forecast_days : Z;
  forecast_start : option string;
  forecast_end : option string;
  current_balance : option Q;
  ending_balance : option Q;
  min_balance : option Q;
  max_balance : option Q;
  model_accuracy_mape : option Q
}.
End Summary.

(** *** Step 3: [prepare_features], lines 300-373 *)

(** [l[i - k] if i >= k else 0], for a position [i] of [l] *)
Definition lag (k i : nat) (l : list Q) : Q :=
  if Nat.leb k i then nth (i - k) l 0%Q else 0%Q.

(** [np.mean(l[max(0, i - k):i]) if i > 0 else 0] *)
Definition rolling (k i : nat) (l : list Q) : Q :=
  if Nat.ltb 0 i then np_mean (drop (i - k) (take i l)) else 0%Q.

(** The feature vector of lines 316-343 for the [i]-th day. *)
Definition features (net_changes : list Q) (i : nat) (date : pydate) : list Q :=
  let dow := weekday date in
  let dom := day_of date in
  let month := month_of date in
  let is_start_month := if dom <=? 5 then 1 else 0 in
  let is_end_month := if 25 <=? dom then 1 else 0 in
  let lag_1 := lag 1 i net_changes in
  let lag_7 := lag 7 i net_changes in
  let lag_30 := lag 30 i net_changes in
  let rolling_7 := rolling 7 i net_changes in
  let rolling_30 := rolling 30 i net_changes in
  [inject_Z dow; inject_Z dom; inject_Z month; inject_Z is_start_month;
   inject_Z is_end_month; lag_1; lag_7; lag_30; rolling_7; rolling_30].

(** The loop of lines 314-346 over [enumerate(zip(dates, net_changes))],
    from position [i] on: the rows of [X] and the entries of [y]. *)
Fixpoint rows (net_changes : list Q) (i : nat) (days : list (pydate * Q))
  : list (list Q) * list Q :=
  match days with
  | [] => ([], [])
  | (date, change) :: rest =>
      let '(X, y) := rows net_changes (S i) rest in
      (features net_changes i date :: X, change :: y)
  end.

(** [int(n * 0.8)] *)
Definition split_index (n : nat) : nat :=
  Z.to_nat (Qfloor (inject_Z (Z.of_nat n) * (8 # 10))).

(** [prepare_features]. [seasonality] is [state['seasonality']] when the
    key is there; the second component of the result holds the keys
    [X_train], [y_train] and [feature_names] when the stage sets them. *)
Definition prepare_features (seasonality : option Seasonality) (state : State)
  : exn (State * option Training) :=
  if has_error state then Ok (state, None)
  else
    let* hd := or_raise "'historical_data'" (historical_data state) in
    let* seasonality := or_raise "'seasonality'" seasonality in
    let '(X, y) := rows (net_changes hd) 0 (zip (dates hd) (net_changes hd)) in
    let split_idx := split_index (length X) in
    Ok ({| org_id := org_id state; error := error state;
           current_step := "features_prepared";
           partial_history := partial_history state;
           opening_balance := opening_balance state;
           historical_data := historical_data state;
           X_val := Some (drop split_idx X);
           y_val := Some (drop split_idx y);
           forecast_results := forecast_results state;
           predicted_daily_changes := predicted_daily_changes state |},
        Some {| X_train := take split_idx X;
                y_train := take split_idx y;
                feature_names :=
                  ["day_of_week"; "day_of_month"; "month";
                   "is_start_month"; "is_end_month";
                   "lag_1"; "lag_7"; "lag_30"; "rolling_7"; "rolling_30"] |}).

(** *** Step 7: [prepare_output], lines 687-730 *)

Definition agent_id : string := "agent_2_forecasting".

(** [min(l, default=None)] and [max(l, default=None)] *)
Definition min_of (l : list Q) : option Q :=
  match l with
  | [] => None
  | x :: rest => Some (fold_left py_min rest x)
  end.

Definition max_of (l : list Q) : option Q :=
  match l with
  | [] => None
  | x :: rest => Some (fold_left py_max rest x)
  end.

Section Output.
(** [state['drivers']], which [prepare_output] hands on as it is *)
Variable Drivers : Type.

(** [state['output']]; an empty dictionary of drivers or of model
    information is [None] *)
Record Output : Type := {
  status : string;
  output_agent_id : string;
  timestamp : string;
  forecast : list ForecastDay;
  drivers : option Drivers;
  model_info : option ModelInfo;
  summary : Summary.t
}.

(** [prepare_output]. [now] is [datetime.now().isoformat()], [drivers] and
    [model_info] are the keys of that name in the state; the second
    component of the result is [state['output']], [None] when the stage
    does not set the key. *)
Definition prepare_output (now : string) (drivers : option Drivers)
    (model_info : option ModelInfo) (state : State) : State * option Output :=
  if has_error state then (state, None)
  else
    let forecast_list := default [] (forecast_results state) in
    let balances := map predicted_balance forecast_list in
    ({| org_id := org_id state; error := error state;
        current_step := "complete";
        partial_history := partial_history state;
        opening_balance := opening_balance state;
        historical_data := historical_data state;
        X_val := X_val state; y_val := y_val state;
        forecast_results := forecast_results state;
        predicted_daily_changes := predicted_daily_changes state |},
     Some {| status := "success";
             output_agent_id := agent_id;
             timestamp := now;
             forecast := forecast_list;
             drivers := drivers;
             model_info := model_info;
             summary :=
               {| Summary.forecast_days := 91;
                  Summary.forecast_start := date <$> head forecast_list;
                  Summary.forecast_end := date <$> last forecast_list;
                  Summary.current_balance := head balances;
                  Summary.ending_balance := last balances;
                  Summary.min_balance := min_of balances;
                  Summary.max_balance := max_of balances;
                  Summary.model_accuracy_mape := mape <$> model_info |} |}).

End Output.

Arguments status {Drivers}.
Arguments output_agent_id {Drivers}.
Arguments timestamp {Drivers}.
Arguments forecast {Drivers}.
Arguments drivers {Drivers}.
Arguments model_info {Drivers}.
Arguments summary {Drivers}.
Arguments prepare_output {Drivers}.

End ForecastStages.

(** ** Collision agent ([Liquidity_and_Collision_Detection_Agent/agent.py]) *)

Module Collision.
Import Py.

(** *** JSON objects of the backend *)

Module Summary.
Record t : Type := {
  opening_balance : option pyval;
  current_balance : option pyval;
  minimum_balance_required : option pyval;
  credit_line_limit : option pyval;
  credit_line_utilized : option pyval
}.
End Summary.

Module Bill.
Record t : Type := {
  bill_id : option pyval;
  expense_category : option pyval;
  category : option pyval;
  amount : option pyval;
  due_date : option pyval
}.
End Bill.

Module Invoice.
Record t : Type := {
  payment_status : option pyval;
  status : option pyval;
  remaining_amount : option pyval;
  outstanding : option pyval;
  amount_due : option pyval;
  customer_id : option pyval;
  customerId : option pyval;
  customer : option pyval;
  due_date : option pyval;
  dueDate : option pyval
}.
End Invoice.

Module Customer.
Record t : Type := {
  customer_id : option pyval;
  id : option pyval;
  payment_reliability_score : option pyval;
  reliability : option pyval
}.
End Customer.

(** What [run_forecasting_agent] returns, as far as [get_forecast] reads
    it; [model_info] is not looked into. *)
Module ForecastOutput.
Record t : Type := {
  forecast : option (list Forecast.ForecastDay);
  forecast_results : option (list Forecast.ForecastDay);
  model_info : option pyval
}.
End ForecastOutput.

(** *** Dictionaries the agent builds *)

(** An element of [mandatory_expenses[due_key]['items']], line 245. *)
Module Item.
Record t : Type := {
  bill_id : pyval;
  category : string;
  amount : Q;
  due_date : string
}.
End Item.

(** A value of [mandatory_expenses], line 239. *)
Module Bucket.
Record t : Type := {
  total : Q;
  items : list Item.t;
  categories : list string
}.
Definition empty : t := {| total := 0; items := []; categories := [] |}.
End Bucket.

(** An element of [target_customers], line 468. *)
Module Target.
Record t : Type := {
  customer_id : pyval;
  amount : Q;
  due_date : pyval;
  reliability_score : Q;
  collection_probability : Q
}.
End Target.

(** A mitigation lever, lines 482, 509, 528 and 550; a key that a variant
    does not carry is [None]. *)
Record Lever : Type := {
  lever : string;
  priority : Z;
  potential_amount : Q;
  implementation_time_days : Z;
  success_probability : Q;
  description : string;
  target_customers : option (list Target.t);
  target_bills : option (list Item.t);
  credit_amount : option Q;
  interest_cost_1day : option Q;
  monthly_savings : option Q;
  additional_cost : option Q;
  actions : list string
}.

(** A collision dictionary. The keys of the second block are added by
    [analyze_severity], those of the third by [generate_mitigation]. *)
Record Collision : Type := {
  collision_date : string;
  predicted_balance : Q;
  mandatory_expenses_ : Q;
  balance_after_mandatory : Q;
  deficit_amount : Q;
  credit_can_cover : bool;
  days_from_now : Z;
  expense_categories : list string;
  bills : list Item.t;

  severity_score : option Q;
  severity : option string;
  days_to_resolve : option Z;

  mitigation_levers : option (list Lever);
  total_mitigation_potential : option Q;
  can_be_mitigated : option bool
}.

(** *** The report *)

Record Action : Type := {
  action_id : Z;
  action : string;
  owner : string;
  deadline : option string;
  expected_recovery : option Q;
  amount : option Q;
  expected_deferral : option Q
}.

Record Plan : Type := {
  action_date : option string;
  priority_actions : list Action
}.

Record Report : Type := {
  timestamp : string;
  position_current_balance : Q;
  position_minimum_balance : Q;
  position_balance_gap : Q;
  position_available_credit : Q;
  position_credit_utilization_pct : Q;
  total_collisions_detected : nat;
  critical_collisions : nat;
  high_collisions : nat;
  report_first_collision : option Collision;
  collisions_91d : list Collision;
  total_amount : Q;
  expense_dates : list string;
  emergency_action_plan : option Plan;
  immediate_action : string;
  recommendation_message : string
}.

(** [state['output']]: [{'status': 'error', 'message': m}] or the report
    with ['status': 'success']. *)
Inductive Output : Type :=
| ErrorOutput (message : string)
| Success (agent_id : string) (org : pyval) (report : Report).

(** [status] of an output *)
Definition status (o : Output) : string :=
  match o with
  | ErrorOutput _ => "error"
  | Success _ _ _ => "success"
  end.

(** *** The state

    The state is one dictionary that every stage receives, updates in place
    and returns. A key that is not set is [None]. The collision dictionaries
    live in the store [objects]; [collisions] and [first_collision] hold
    references (positions in [objects]), so that a collision reached through
    either key is one and the same object. *)

Record State : Type := {
  org_id : pyval;
  error : option string;
  current_step : option string;
  opening_balance : option Q;
  current_balance : option Q;
  minimum_balance : option Q;
  balance_gap : option Q;
  recent_inflows : option Q;
  recent_outflows : option Q;
  forecast : option (list Forecast.ForecastDay);
  forecast_meta : option (option pyval);
  mandatory_expenses : option (gmap string Bucket.t);
  total_mandatory_91d : option Q;
  credit_line_limit : option Q;
  credit_line_utilized : option Q;
  available_credit : option Q;
  credit_utilization_pct : option Q;
  objects : list Collision;
  collisions : option (list nat);
  collision_count : option nat;
  first_collision : option (option nat);
  output : option Output
}.

Definition set_error (v : option string) (st : State) : State :=
  {| org_id := org_id st;
     error := v;
     current_step := current_step st;
     opening_balance := opening_balance st;
     current_balance := current_balance st;
     minimum_balance := minimum_balance st;
     balance_gap := balance_gap st;
     recent_inflows := recent_inflows st;
     recent_outflows := recent_outflows st;
     forecast := forecast st;
     forecast_meta := forecast_meta st;
     mandatory_expenses := mandatory_expenses st;
     total_mandatory_91d := total_mandatory_91d st;
     credit_line_limit := credit_line_limit st;
     credit_line_utilized := credit_line_utilized st;
     available_credit := available_credit st;
     credit_utilization_pct := credit_utilization_pct st;
     objects := objects st;
     collisions := collisions st;
     collision_count := collision_count st;
     first_collision := first_collision st;
     output := output st |}.

Definition set_current_step (v : option string) (st : State) : State :=
  {| org_id := org_id st;
     error := error st;
     current_step := v;
     opening_balance := opening_balance st;
     current_balance := current_balance st;
     minimum_balance := minimum_balance st;
     balance_gap := balance_gap st;
     recent_inflows := recent_inflows st;
     recent_outflows := recent_outflows st;
     forecast := forecast st;
     forecast_meta := forecast_meta st;
     mandatory_expenses := mandatory_expenses st;
     total_mandatory_91d := total_mandatory_91d st;
     credit_line_limit := credit_line_limit st;
     credit_line_utilized := credit_line_utilized st;
     available_credit := available_credit st;
     credit_utilization_pct := credit_utilization_pct st;
     objects := objects st;
     collisions := collisions st;
     collision_count := collision_count st;
     first_collision := first_collision st;
     output := output st |}.

Definition set_opening_balance (v : option Q) (st : State) : State :=
  {| org_id := org_id st;
     error := error st;
     current_step := current_step st;
     opening_balance := v;
     current_balance := current_balance st;
     minimum_balance := minimum_balance st;
     balance_gap := balance_gap st;
     recent_inflows := recent_inflows st;
     recent_outflows := recent_outflows st;
     forecast := forecast st;
     forecast_meta := forecast_meta st;
     mandatory_expenses := mandatory_expenses st;
     total_mandatory_91d := total_mandatory_91d st;
     credit_line_limit := credit_line_limit st;
     credit_line_utilized := credit_line_utilized st;
     available_credit := available_credit st;
     credit_utilization_pct := credit_utilization_pct st;
     objects := objects st;
     collisions := collisions st;
     collision_count := collision_count st;
     first_collision := first_collision st;
     output := output st |}.

Definition set_current_balance (v : option Q) (st : State) : State :=
  {| org_id := org_id st;
     error := error st;
     current_step := current_step st;
     opening_balance := opening_balance st;
     current_balance := v;
     minimum_balance := minimum_balance st;
     balance_gap := balance_gap st;
     recent_inflows := recent_inflows st;
     recent_outflows := recent_outflows st;
     forecast := forecast st;
     forecast_meta := forecast_meta st;
     mandatory_expenses := mandatory_expenses st;
     total_mandatory_91d := total_mandatory_91d st;
     credit_line_limit := credit_line_limit st;
     credit_line_utilized := credit_line_utilized st;
     available_credit := available_credit st;
     credit_utilization_pct := credit_utilization_pct st;
     objects := objects st;
     collisions := collisions st;
     collision_count := collision_count st;
     first_collision := first_collision st;
     output := output st |}.

Definition set_minimum_balance (v : option Q) (st : State) : State :=
  {| org_id := org_id st;
     error := error st;
     current_step := current_step st;
     opening_balance := opening_balance st;
     current_balance := current_balance st;
     minimum_balance := v;
     balance_gap := balance_gap st;
     recent_inflows := recent_inflows st;
     recent_outflows := recent_outflows st;
     forecast := forecast st;
     forecast_meta := forecast_meta st;
     mandatory_expenses := mandatory_expenses st;
     total_mandatory_91d := total_mandatory_91d st;
     credit_line_limit := credit_line_limit st;
     credit_line_utilized := credit_line_utilized st;
     available_credit := available_credit st;
     credit_utilization_pct := credit_utilization_pct st;
     objects := objects st;
     collisions := collisions st;
     collision_count := collision_count st;
     first_collision := first_collision st;
     output := output st |}.

Definition set_balance_gap (v : option Q) (st : State) : State :=
  {| org_id := org_id st;
     error := error st;
     current_step := current_step st;
     opening_balance := opening_balance st;
     current_balance := current_balance st;
     minimum_balance := minimum_balance st;
     balance_gap := v;
     recent_inflows := recent_inflows st;
     recent_outflows := recent_outflows st;
     forecast := forecast st;
     forecast_meta := forecast_meta st;
     mandatory_expenses := mandatory_expenses st;
     total_mandatory_91d := total_mandatory_91d st;
     credit_line_limit := credit_line_limit st;
     credit_line_utilized := credit_line_utilized st;
     available_credit := available_credit st;
     credit_utilization_pct := credit_utilization_pct st;
     objects := objects st;
     collisions := collisions st;
     collision_count := collision_count st;
     first_collision := first_collision st;
     output := output st |}.

Definition set_recent_inflows (v : option Q) (st : State) : State :=
  {| org_id := org_id st;
     error := error st;
     current_step := current_step st;
     opening_balance := opening_balance st;
     current_balance := current_balance st;
     minimum_balance := minimum_balance st;
     balance_gap := balance_gap st;
     recent_inflows := v;
     recent_outflows := recent_outflows st;
     forecast := forecast st;
     forecast_meta := forecast_meta st;
     mandatory_expenses := mandatory_expenses st;
     total_mandatory_91d := total_mandatory_91d st;
     credit_line_limit := credit_line_limit st;
     credit_line_utilized := credit_line_utilized st;
     available_credit := available_credit st;
     credit_utilization_pct := credit_utilization_pct st;
     objects := objects st;
     collisions := collisions st;
     collision_count := collision_count st;
     first_collision := first_collision st;
     output := output st |}.

Definition set_recent_outflows (v : option Q) (st : State) : State :=
  {| org_id := org_id st;
     error := error st;
     current_step := current_step st;
     opening_balance := opening_balance st;
     current_balance := current_balance st;
     minimum_balance := minimum_balance st;
     balance_gap := balance_gap st;
     recent_inflows := recent_inflows st;
     recent_outflows := v;
     forecast := forecast st;
     forecast_meta := forecast_meta st;
     mandatory_expenses := mandatory_expenses st;
     total_mandatory_91d := total_mandatory_91d st;
     credit_line_limit := credit_line_limit st;
     credit_line_utilized := credit_line_utilized st;
     available_credit := available_credit st;
     credit_utilization_pct := credit_utilization_pct st;
     objects := objects st;
     collisions := collisions st;
     collision_count := collision_count st;
     first_collision := first_collision st;
     output := output st |}.

Definition set_forecast (v : option (list Forecast.ForecastDay)) (st : State) : State :=
  {| org_id := org_id st;
     error := error st;
     current_step := current_step st;
     opening_balance := opening_balance st;
     current_balance := current_balance st;
     minimum_balance := minimum_balance st;
     balance_gap := balance_gap st;
     recent_inflows := recent_inflows st;
     recent_outflows := recent_outflows st;
     forecast := v;
     forecast_meta := forecast_meta st;
     mandatory_expenses := mandatory_expenses st;
     total_mandatory_91d := total_mandatory_91d st;
     credit_line_limit := credit_line_limit st;
     credit_line_utilized := credit_line_utilized st;
     available_credit := available_credit st;
     credit_utilization_pct := credit_utilization_pct st;
     objects := objects st;
     collisions := collisions st;
     collision_count := collision_count st;
     first_collision := first_collision st;
     output := output st |}.

Definition set_forecast_meta (v : option (option pyval)) (st : State) : State :=
  {| org_id := org_id st;
     error := error st;
     current_step := current_step st;
     opening_balance := opening_balance st;
     current_balance := current_balance st;
     minimum_balance := minimum_balance st;
     balance_gap := balance_gap st;
     recent_inflows := recent_inflows st;
     recent_outflows := recent_outflows st;
     forecast := forecast st;
     forecast_meta := v;
     mandatory_expenses := mandatory_expenses st;
     total_mandatory_91d := total_mandatory_91d st;
     credit_line_limit := credit_line_limit st;
     credit_line_utilized := credit_line_utilized st;
     available_credit := available_credit st;
     credit_utilization_pct := credit_utilization_pct st;
     objects := objects st;
     collisions := collisions st;
     collision_count := collision_count st;
     first_collision := first_collision st;
     output := output st |}.

Definition set_mandatory_expenses (v : option (gmap string Bucket.t)) (st : State) : State :=
  {| org_id := org_id st;
     error := error st;
     current_step := current_step st;
     opening_balance := opening_balance st;
     current_balance := current_balance st;
     minimum_balance := minimum_balance st;
     balance_gap := balance_gap st;
     recent_inflows := recent_inflows st;
     recent_outflows := recent_outflows st;
     forecast := forecast st;
     forecast_meta := forecast_meta st;
     mandatory_expenses := v;
     total_mandatory_91d := total_mandatory_91d st;
     credit_line_limit := credit_line_limit st;
     credit_line_utilized := credit_line_utilized st;
     available_credit := available_credit st;
     credit_utilization_pct := credit_utilization_pct st;
     objects := objects st;
     collisions := collisions st;
     collision_count := collision_count st;
     first_collision := first_collision st;
     output := output st |}.

Definition set_total_mandatory_91d (v : option Q) (st : State) : State :=
  {| org_id := org_id st;
     error := error st;
     current_step := current_step st;
     opening_balance := opening_balance st;
     current_balance := current_balance st;
     minimum_balance := minimum_balance st;
     balance_gap := balance_gap st;
     recent_inflows := recent_inflows st;
     recent_outflows := recent_outflows st;
     forecast := forecast st;
     forecast_meta := forecast_meta st;
     mandatory_expenses := mandatory_expenses st;
     total_mandatory_91d := v;
     credit_line_limit := credit_line_limit st;
     credit_line_utilized := credit_line_utilized st;
     available_credit := available_credit st;
     credit_utilization_pct := credit_utilization_pct st;
     objects := objects st;
     collisions := collisions st;
     collision_count := collision_count st;
     first_collision := first_collision st;
     output := output st |}.

Definition set_credit_line_limit (v : option Q) (st : State) : State :=
  {| org_id := org_id st;
     error := error st;
     current_step := current_step st;
     opening_balance := opening_balance st;
     current_balance := current_balance st;
     minimum_balance := minimum_balance st;
     balance_gap := balance_gap st;
     recent_inflows := recent_inflows st;
     recent_outflows := recent_outflows st;
     forecast := forecast st;
     forecast_meta := forecast_meta st;
     mandatory_expenses := mandatory_expenses st;
     total_mandatory_91d := total_mandatory_91d st;
     credit_line_limit := v;
     credit_line_utilized := credit_line_utilized st;
     available_credit := available_credit st;
     credit_utilization_pct := credit_utilization_pct st;
     objects := objects st;
     collisions := collisions st;
     collision_count := collision_count st;
     first_collision := first_collision st;
     output := output st |}.

Definition set_credit_line_utilized (v : option Q) (st : State) : State :=
  {| org_id := org_id st;
     error := error st;
     current_step := current_step st;
     opening_balance := opening_balance st;
     current_balance := current_balance st;
     minimum_balance := minimum_balance st;
     balance_gap := balance_gap st;
     recent_inflows := recent_inflows st;
     recent_outflows := recent_outflows st;
     forecast := forecast st;
     forecast_meta := forecast_meta st;
     mandatory_expenses := mandatory_expenses st;
     total_mandatory_91d := total_mandatory_91d st;
     credit_line_limit := credit_line_limit st;
     credit_line_utilized := v;
     available_credit := available_credit st;
     credit_utilization_pct := credit_utilization_pct st;
     objects := objects st;
     collisions := collisions st;
     collision_count := collision_count st;
     first_collision := first_collision st;
     output := output st |}.

Definition set_available_credit (v : option Q) (st : State) : State :=
  {| org_id := org_id st;
     error := error st;
     current_step := current_step st;
     opening_balance := opening_balance st;
     current_balance := current_balance st;
     minimum_balance := minimum_balance st;
     balance_gap := balance_gap st;
     recent_inflows := recent_inflows st;
     recent_outflows := recent_outflows st;
     forecast := forecast st;
     forecast_meta := forecast_meta st;
     mandatory_expenses := mandatory_expenses st;
     total_mandatory_91d := total_mandatory_91d st;
     credit_line_limit := credit_line_limit st;
     credit_line_utilized := credit_line_utilized st;
     available_credit := v;
     credit_utilization_pct := credit_utilization_pct st;
     objects := objects st;
     collisions := collisions st;
     collision_count := collision_count st;
     first_collision := first_collision st;
     output := output st |}.

Definition set_credit_utilization_pct (v : option Q) (st : State) : State :=
  {| org_id := org_id st;
     error := error st;
     current_step := current_step st;
     opening_balance := opening_balance st;
     current_balance := current_balance st;
     minimum_balance := minimum_balance st;
     balance_gap := balance_gap st;
     recent_inflows := recent_inflows st;
     recent_outflows := recent_outflows st;
     forecast := forecast st;
     forecast_meta := forecast_meta st;
     mandatory_expenses := mandatory_expenses st;
     total_mandatory_91d := total_mandatory_91d st;
     credit_line_limit := credit_line_limit st;
     credit_line_utilized := credit_line_utilized st;
     available_credit := available_credit st;
     credit_utilization_pct := v;
     objects := objects st;
     collisions := collisions st;
     collision_count := collision_count st;
     first_collision := first_collision st;
     output := output st |}.

Definition set_objects (v : list Collision) (st : State) : State :=
  {| org_id := org_id st;
     error := error st;
     current_step := current_step st;
     opening_balance := opening_balance st;
     current_balance := current_balance st;
     minimum_balance := minimum_balance st;
     balance_gap := balance_gap st;
     recent_inflows := recent_inflows st;
     recent_outflows := recent_outflows st;
     forecast := forecast st;
     forecast_meta := forecast_meta st;
     mandatory_expenses := mandatory_expenses st;
     total_mandatory_91d := total_mandatory_91d st;
     credit_line_limit := credit_line_limit st;
     credit_line_utilized := credit_line_utilized st;
     available_credit := available_credit st;
     credit_utilization_pct := credit_utilization_pct st;
     objects := v;
     collisions := collisions st;
     collision_count := collision_count st;
     first_collision := first_collision st;
     output := output st |}.

Definition set_collisions (v : option (list nat)) (st : State) : State :=
  {| org_id := org_id st;
     error := error st;
     current_step := current_step st;
     opening_balance := opening_balance st;
     current_balance := current_balance st;
     minimum_balance := minimum_balance st;
     balance_gap := balance_gap st;
     recent_inflows := recent_inflows st;
     recent_outflows := recent_outflows st;
     forecast := forecast st;
     forecast_meta := forecast_meta st;
     mandatory_expenses := mandatory_expenses st;
     total_mandatory_91d := total_mandatory_91d st;
     credit_line_limit := credit_line_limit st;
     credit_line_utilized := credit_line_utilized st;
     available_credit := available_credit st;
     credit_utilization_pct := credit_utilization_pct st;
     objects := objects st;
     collisions := v;
     collision_count := collision_count st;
     first_collision := first_collision st;
     output := output st |}.

Definition set_collision_count (v : option nat) (st : State) : State :=
  {| org_id := org_id st;
     error := error st;
     current_step := current_step st;
     opening_balance := opening_balance st;
     current_balance := current_balance st;
     minimum_balance := minimum_balance st;
     balance_gap := balance_gap st;
     recent_inflows := recent_inflows st;
     recent_outflows := recent_outflows st;
     forecast := forecast st;
     forecast_meta := forecast_meta st;
     mandatory_expenses := mandatory_expenses st;
     total_mandatory_91d := total_mandatory_91d st;
     credit_line_limit := credit_line_limit st;
     credit_line_utilized := credit_line_utilized st;
     available_credit := available_credit st;
     credit_utilization_pct := credit_utilization_pct st;
     objects := objects st;
     collisions := collisions st;
     collision_count := v;
     first_collision := first_collision st;
     output := output st |}.

Definition set_first_collision (v : option (option nat)) (st : State) : State :=
  {| org_id := org_id st;
     error := error st;
     current_step := current_step st;
     opening_balance := opening_balance st;
     current_balance := current_balance st;
     minimum_balance := minimum_balance st;
     balance_gap := balance_gap st;
     recent_inflows := recent_inflows st;
     recent_outflows := recent_outflows st;
     forecast := forecast st;
     forecast_meta := forecast_meta st;
     mandatory_expenses := mandatory_expenses st;
     total_mandatory_91d := total_mandatory_91d st;
     credit_line_limit := credit_line_limit st;
     credit_line_utilized := credit_line_utilized st;
     available_credit := available_credit st;
     credit_utilization_pct := credit_utilization_pct st;
     objects := objects st;
     collisions := collisions st;
     collision_count := collision_count st;
     first_collision := v;
     output := output st |}.

Definition set_output (v : option Output) (st : State) : State :=
  {| org_id := org_id st;
     error := error st;
     current_step := current_step st;
     opening_balance := opening_balance st;
     current_balance := current_balance st;
     minimum_balance := minimum_balance st;
     balance_gap := balance_gap st;
     recent_inflows := recent_inflows st;
     recent_outflows := recent_outflows st;
     forecast := forecast st;
     forecast_meta := forecast_meta st;
     mandatory_expenses := mandatory_expenses st;
     total_mandatory_91d := total_mandatory_91d st;
     credit_line_limit := credit_line_limit st;
     credit_line_utilized := credit_line_utilized st;
     available_credit := available_credit st;
     credit_utilization_pct := credit_utilization_pct st;
     objects := objects st;
     collisions := collisions st;
     collision_count := collision_count st;
     first_collision := first_collision st;
     output := v |}.

(** [state[k]] of a collision reference *)
Definition deref (st : State) (r : nat) : option Collision := objects st !! r.

(** ['error' in state] *)
Definition in_error (st : State) : bool :=
  match error st with Some _ => true | None => false end.

(** *** The outside world of one run

    What the requests of the run answer and what the clock shows. A request
    that raised is [Raise msg]. *)
Record World : Type := {
  (** [GET /organizations/{org_id}/summary] of [get_current_balance] *)
  summary : exn Summary.t;
  (** the list [payments] of [GET /payments/org/{org_id}] *)
  payments : exn (list Forecast.Payment);
  (** [run_forecasting_agent(org_id)] *)
  forecasting_agent : exn ForecastOutput.t;
  (** the list [bills] of [GET /bills/org/{org_id}], after the request of
      the bills summary *)
  bills_detail : exn (list Bill.t);
  (** [GET /organizations/{org_id}/summary] of [get_credit_limits] *)
  credit_summary : exn Summary.t;
  (** the customers and the invoices that [generate_mitigation] extracts
      from the answers; [Raise] when the request itself raised *)
  customer_data : exn (list Customer.t);
  invoice_data : exn (list Invoice.t);
  (** [datetime.now().date()] while the [i]-th forecast day is examined *)
  today : nat -> pydate;
  (** [datetime.now().isoformat()] of [prepare_output] *)
  now_isoformat : string
}.

Definition agent_id : string := "agent_4_collision_detection".

Section WithRuntime.
Context {RT : PyRuntime}.

(** [_parse_date], lines 27-51. When [strptime] raises, [s] has already been
    cut at ['T'] and stripped of its trailing ['Z']. *)
Definition _parse_date (s : pyval) : option pydate :=
  if negb (truthy s) then None
  else
    let s := py_str s in
    let s := if has_char "T" s then before "T" s else s in
    let s := rstrip_by (Ascii.eqb "Z") s in
    match strptime_ymd (upto 10 s) with
    | Some d => Some d
    | None => fromisoformat (replace "Z" "+00:00" s)
    end.

(** [_to_float], lines 53-70 *)
Definition _to_float (v : pyval) (default : Q) : Q :=
  match v with
  | PNone => default
  | PNum q => q
  | PBool b => if b then 1%Q else 0%Q
  | PStr _ =>
      let s := strip (py_str v) in
      if String.eqb s "" then default
      else
        let s := replace "$" "" (replace "₹" "" (replace "," "" s)) in
        let s := if (startswith "(" s && endswith_char ")" s)%bool
                 then "-" ++ strip_ends s else s in
        match float_of_str s with
        | Some q => q
        | None => default
        end
  end.

(** *** [get_current_balance], lines 99-156 *)

(** The amount of a payment, lines 124-130. *)
Definition balance_amt (p : Forecast.Payment) : Q :=
  let v := match Forecast.payment_amount p with
           | Some v => v
           | None => get_default (Forecast.amount p) (PNum 0)
           end in
  match py_float (py_or v (PNum 0)) with
  | Ok q => q
  | Raise _ =>
      match float_of_str
              (replace "," "" (py_str (get_default (Forecast.payment_amount p) (PNum 0))))
      with
      | Some q => q
      | None => 0%Q
      end
  end.

(** The loop of lines 123-138 on [(inflows, outflows)]. *)
Fixpoint flows (acc : Q * Q) (ps : list Forecast.Payment) : exn (Q * Q) :=
  match ps with
  | [] => Ok acc
  | p :: rest =>
      let amt := balance_amt p in
      let* ptype := Forecast.payment_ptype p in
      if String.eqb ptype "inflow" then flows (fst acc + amt, snd acc)%Q rest
      else if String.eqb ptype "outflow" then flows (fst acc, snd acc + amt)%Q rest
      else flows (fst acc + amt, snd acc)%Q rest
  end.

Definition get_current_balance (w : World) (state : State) : State :=
  let attempt :=
    let* org_data := summary w in
    let* opening_balance :=
      py_float (match Summary.opening_balance org_data with
                | Some v => v
                | None => get_default (Summary.current_balance org_data) (PNum 0)
                end) in
    let* minimum_balance :=
      py_float (get_default (Summary.minimum_balance_required org_data)
                            (PNum 500000)) in
    let* payments := payments w in
    let* io := flows (0, 0)%Q payments in
    Ok (opening_balance, minimum_balance, fst io, snd io) in
  match attempt with
  | Ok (opening, minimum, inflows, outflows) =>
      let current := (opening + inflows - outflows)%Q in
      set_current_step (Some "balance_fetched")
        (set_recent_outflows (Some outflows)
        (set_recent_inflows (Some inflows)
        (set_balance_gap (Some (current - minimum)%Q)
        (set_minimum_balance (Some minimum)
        (set_current_balance (Some current)
        (set_opening_balance (Some opening) state))))))
  | Raise e => set_error (Some e) state
  end.

(** *** [get_forecast], lines 158-187 *)

(** [a or b or []] on lists *)
Definition first_nonempty {A} (a b : option (list A)) : list A :=
  match a with
  | Some (x :: l) => x :: l
  | _ => match b with
         | Some (x :: l) => x :: l
         | _ => []
         end
  end.

Definition get_forecast (w : World) (state : State) : State :=
  if in_error state then state
  else
    match forecasting_agent w with
    | Ok forecast_output =>
        let forecast_data :=
          first_nonempty (ForecastOutput.forecast forecast_output)
                         (ForecastOutput.forecast_results forecast_output) in
        set_current_step (Some "forecast_retrieved")
          (set_forecast_meta (Some (ForecastOutput.model_info forecast_output))
          (set_forecast (Some forecast_data) state))
    | Raise e => set_error (Some e) state
    end.

(** *** [get_mandatory_expenses], lines 189-264 *)

Definition mandatory_categories : list string :=
  ["payroll"; "salary"; "rent"; "loan"; "emf"; "gst"; "tax"; "statutory"].

(** [any(cat in category for cat in mandatory_categories)] *)
Definition is_mandatory (category : string) : bool :=
  existsb (fun cat => contains cat category) mandatory_categories.

(** [x in l] on strings *)
Definition mem (x : string) (l : list string) : bool :=
  existsb (String.eqb x) l.

(** The body of the loop of lines 224-252. *)
Definition add_bill (mandatory_expenses : gmap string Bucket.t) (bill : Bill.t)
  : exn (gmap string Bucket.t) :=
  let* category :=
    py_lower (py_or (get_default (Bill.expense_category bill) (PStr ""))
                    (get_default (Bill.category bill) (PStr ""))) in
  match _parse_date (get (Bill.due_date bill)) with
  | None => Ok mandatory_expenses
  | Some due_parsed =>
      let due_key := strftime_ymd due_parsed in
      let amount := _to_float (get_default (Bill.amount bill) (PNum 0)) 0 in
      if is_mandatory category then
        let b := default Bucket.empty (mandatory_expenses !! due_key) in
        Ok (<[due_key :=
               {| Bucket.total := (Bucket.total b + amount)%Q;
                  Bucket.items := Bucket.items b ++
                    [{| Item.bill_id := get (Bill.bill_id bill);
                        Item.category := category;
                        Item.amount := amount;
                        Item.due_date := due_key |}];
                  Bucket.categories :=
                    if mem category (Bucket.categories b)
                    then Bucket.categories b
                    else Bucket.categories b ++ [category] |}]>
              mandatory_expenses)
      else Ok mandatory_expenses
  end.

Fixpoint add_bills (mandatory_expenses : gmap string Bucket.t)
    (bills : list Bill.t) : exn (gmap string Bucket.t) :=
  match bills with
  | [] => Ok mandatory_expenses
  | bill :: rest =>
      let* m := add_bill mandatory_expenses bill in add_bills m rest
  end.

(** [sum(exp['total'] for exp in mandatory_expenses.values())]; the order of
    the terms is that of the map, not the insertion order of the dictionary *)
Definition total_of (mandatory_expenses : gmap string Bucket.t) : Q :=
  py_sum (map (fun kv => Bucket.total (snd kv)) (map_to_list mandatory_expenses)).

Definition get_mandatory_expenses (w : World) (state : State) : State :=
  if in_error state then state
  else
    match (let* bills := bills_detail w in add_bills ∅ bills) with
    | Ok mandatory_expenses =>
        set_current_step (Some "mandatory_expenses_retrieved")
          (set_total_mandatory_91d (Some (total_of mandatory_expenses))
          (set_mandatory_expenses (Some mandatory_expenses) state))
    | Raise _ => set_mandatory_expenses (Some ∅) state
    end.

(** *** [get_credit_limits], lines 266-297 *)

(** a value that takes part in [-], [/] and [>] with numbers *)
Definition number (v : pyval) : exn Q :=
  match v with
  | PNum q => Ok q
  | PBool b => Ok (if b then 1%Q else 0%Q)
  | _ => Raise "unsupported operand type(s)"
  end.

Definition get_credit_limits (w : World) (state : State) : State :=
  if in_error state then state
  else
    let attempt :=
      let* org_data := credit_summary w in
      let* credit_line_limit :=
        number (get_default (Summary.credit_line_limit org_data) (PNum 0)) in
      let* credit_line_utilized :=
        number (get_default (Summary.credit_line_utilized org_data) (PNum 0)) in
      Ok (credit_line_limit, credit_line_utilized) in
    match attempt with
    | Ok (limit, utilized) =>
        set_current_step (Some "credit_limits_retrieved")
          (set_credit_utilization_pct
             (Some (if Qlt_bool 0 limit then (utilized / limit * 100)%Q else 0%Q))
          (set_available_credit (Some (limit - utilized)%Q)
          (set_credit_line_utilized (Some utilized)
          (set_credit_line_limit (Some limit) state))))
    | Raise _ =>
        set_available_credit (Some 0%Q) (set_credit_line_limit (Some 0%Q) state)
    end.

(** *** [detect_collisions], lines 299-352 *)

(** lines 314-316: the key of a forecast day in [mandatory_expenses] *)
Definition fkey_of (forecast_item : Forecast.ForecastDay) : string :=
  let fdate_raw := Forecast.date forecast_item in
  match _parse_date (PStr fdate_raw) with
  | Some fdate_parsed => strftime_ymd fdate_parsed
  | None => upto 10 fdate_raw
  end.

(** line 318: [mandatory.get(fkey, {}).get('total', 0)] *)
Definition mandatory_for (mandatory : gmap string Bucket.t) (fkey : string) : Q :=
  match mandatory !! fkey with
  | Some b => _to_float (PNum (Bucket.total b)) 0
  | None => _to_float (PNum 0) 0
  end.

(** The body of the loop of lines 313-343 for the [i]-th element of the
    forecast: the collision it appends, if any. *)
Definition examine (w : World) (mandatory : gmap string Bucket.t)
    (minimum_balance available_credit : Q) (i : nat)
    (forecast_item : Forecast.ForecastDay) : option Collision :=
  let fkey := fkey_of forecast_item in
  let balance := _to_float (PNum (Forecast.predicted_balance forecast_item)) 0 in
  let mandatory_for_date := mandatory_for mandatory fkey in
  let balance_after_mandatory := (balance - mandatory_for_date)%Q in
  if Qlt_bool balance_after_mandatory minimum_balance then
    let deficit := (minimum_balance - balance_after_mandatory)%Q in
    let credit_can_cover := Qle_bool deficit available_credit in
    let days_from_now :=
      match _parse_date (PStr fkey) with
      | Some _parsed => days_between _parsed (today w i)
      | None => 0
      end in
    Some {| collision_date := fkey;
            predicted_balance := balance;
            mandatory_expenses_ := mandatory_for_date;
            balance_after_mandatory := balance_after_mandatory;
            deficit_amount := Qabs deficit;
            credit_can_cover := credit_can_cover;
            days_from_now := days_from_now;
            expense_categories :=
              match mandatory !! fkey with
              | Some b => Bucket.categories b
              | None => []
              end;
            bills :=
              match mandatory !! fkey with
              | Some b => Bucket.items b
              | None => []
              end;
            severity_score := None; severity := None; days_to_resolve := None;
            mitigation_levers := None; total_mitigation_potential := None;
            can_be_mitigated := None |}
  else None.

(** The loop of lines 313-343, from position [i] on. *)
Fixpoint scan (w : World) (mandatory : gmap string Bucket.t)
    (minimum_balance available_credit : Q) (i : nat)
    (forecast : list Forecast.ForecastDay) (collisions : list Collision)
  : list Collision :=
  match forecast with
  | [] => collisions
  | forecast_item :: rest =>
      scan w mandatory minimum_balance available_credit (S i) rest
        (match examine w mandatory minimum_balance available_credit i
                 forecast_item with
         | Some collision => collisions ++ [collision]
         | None => collisions
         end)
  end.

(** The collisions of the forecast days from position [i] on, day by day. *)
Fixpoint found_from (w : World) (mandatory : gmap string Bucket.t)
    (minimum_balance available_credit : Q) (i : nat)
    (forecast : list Forecast.ForecastDay) : list Collision :=
  match forecast with
  | [] => []
  | forecast_item :: rest =>
      match examine w mandatory minimum_balance available_credit i
              forecast_item with
      | Some collision =>
          collision :: found_from w mandatory minimum_balance available_credit
                         (S i) rest
      | None => found_from w mandatory minimum_balance available_credit (S i) rest
      end
  end.

(** The new collision dictionaries are allocated at the end of the store. *)
Definition detect_collisions (w : World) (state : State) : State :=
  if in_error state then state
  else
    let forecast := default [] (forecast state) in
    let mandatory := default ∅ (mandatory_expenses state) in
    let minimum_balance := default 0%Q (minimum_balance state) in
    let available_credit := default 0%Q (available_credit state) in
    let found := scan w mandatory minimum_balance available_credit 0 forecast [] in
    let collisions := seq (length (objects state)) (length found) in
    set_current_step (Some "collisions_detected")
      (set_first_collision (Some (head collisions))
      (set_collision_count (Some (length collisions))
      (set_collisions (Some collisions)
      (set_objects (objects state ++ found) state)))).

(** *** [analyze_severity], lines 354-396 *)

Definition proximity_score (days_away : Z) : Z := Z.max 0 (100 - days_away * 2).

Definition magnitude_score (deficit : Q) : Q :=
  py_min 100 (deficit / 1000000000 * 100)%Q.

Definition credit_score (credit_can_cover : bool) : Z :=
  if credit_can_cover then 0 else 50.

(** the local [severity_score] of line 375, before it is rounded *)
Definition raw_score (collision : Collision) : Q :=
  (inject_Z (proximity_score (days_from_now collision)) * (4 # 10)
   + magnitude_score (deficit_amount collision) * (35 # 100)
   + inject_Z (credit_score (credit_can_cover collision)) * (25 # 100))%Q.

(** lines 377-384 *)
Definition label (severity_score : Q) : string :=
  if Qle_bool 80 severity_score then "critical"
  else if Qle_bool 60 severity_score then "high"
  else if Qle_bool 40 severity_score then "medium"
  else "low".

(** The body of the loop of lines 364-388 on one collision. *)
Definition assess (collision : Collision) : Collision :=
  let days_away := days_from_now collision in
  let severity_score := raw_score collision in
  {| collision_date := collision_date collision;
     predicted_balance := predicted_balance collision;
     mandatory_expenses_ := mandatory_expenses_ collision;
     balance_after_mandatory := balance_after_mandatory collision;
     deficit_amount := deficit_amount collision;
     credit_can_cover := credit_can_cover collision;
     days_from_now := days_from_now collision;
     expense_categories := expense_categories collision;
     bills := bills collision;
     severity_score := Some (round2 severity_score);
     severity := Some (label severity_score);
     days_to_resolve := Some (Z.max 1 (days_away - 2));
     mitigation_levers := mitigation_levers collision;
     total_mitigation_potential := total_mitigation_potential collision;
     can_be_mitigated := can_be_mitigated collision |}.

(** [for collision in collisions: collision[...] = ...] with body [f]: every
    referenced dictionary is updated in place *)
Definition update_all (f : Collision -> Collision) (collisions : list nat)
    (objects : list Collision) : list Collision :=
  fold_left (fun store r => alter f r store) collisions objects.

(** the key of the sort of line 391 *)
Definition score_of (objects : list Collision) (r : nat) : Q :=
  match objects !! r with
  | Some collision => default 0%Q (severity_score collision)
  | None => 0%Q
  end.

Definition analyze_severity (state : State) : State :=
  if in_error state then state
  else
    let collisions := default [] (collisions state) in
    let store := update_all assess collisions (objects state) in
    set_current_step (Some "severity_analyzed")
      (set_collisions (Some (sort_desc (score_of store) collisions))
      (set_objects store state)).

(** *** [generate_mitigation], lines 398-584 *)

(** The variables of the loop of lines 452-474. *)
Record Accelerate : Type := {
  accelerate_potential : Q;
  top_customers_for_collection : list Target.t
}.

(** line 465: the first customer whose [customer_id] or [id] prints like
    [customer_id] *)
Definition find_customer (customer_data : list Customer.t) (customer_id : pyval)
  : option Customer.t :=
  List.find (fun c =>
     (String.eqb (py_str (get (Customer.customer_id c))) (py_str customer_id)
      || String.eqb (py_str (get (Customer.id c))) (py_str customer_id))%bool)
    customer_data.

(** line 466; the customer is [{}] when none was found *)
Definition reliability_of (customer : option Customer.t) : Q :=
  match customer with
  | Some c =>
      _to_float
        (match Customer.payment_reliability_score c with
         | Some v => v
         | None => get_default (Customer.reliability c) (PNum (5 # 10))
         end) (5 # 10)
  | None => _to_float (PNum (5 # 10)) (5 # 10)
  end.

(** line 453 *)
Definition invoice_status (invoice : Invoice.t) : exn string :=
  py_lower (py_or (py_or (get (Invoice.payment_status invoice))
                         (get (Invoice.status invoice))) (PStr "")).

(** The body of the loop of lines 452-474. *)
Definition collect_one (customer_data : list Customer.t)
    (collision_date : string) (acc : Accelerate) (invoice : Invoice.t)
  : exn Accelerate :=
  let* status := invoice_status invoice in
  if mem status ["open"; "partial"; "unpaid"] then
    let remaining :=
      _to_float (py_or (py_or (py_or (get (Invoice.remaining_amount invoice))
                                     (get (Invoice.outstanding invoice)))
                              (get (Invoice.amount_due invoice))) (PNum 0)) 0 in
    let customer_id :=
      py_or (py_or (get (Invoice.customer_id invoice))
                   (get (Invoice.customerId invoice)))
            (get (Invoice.customer invoice)) in
    let due_date :=
      py_or (get (Invoice.due_date invoice)) (get (Invoice.dueDate invoice)) in
    match _parse_date due_date, _parse_date (PStr collision_date) with
    | Some due_parsed, Some coll_parsed =>
        if due_parsed <? coll_parsed then
          let reliability := reliability_of (find_customer customer_data customer_id) in
          Ok {| accelerate_potential := (accelerate_potential acc + remaining)%Q;
                top_customers_for_collection :=
                  top_customers_for_collection acc ++
                  [{| Target.customer_id := customer_id;
                      Target.amount := remaining;
                      Target.due_date := due_date;
                      Target.reliability_score := reliability;
                      Target.collection_probability := (reliability * (9 # 10))%Q |}] |}
        else Ok acc
    | _, _ => Ok acc
    end
  else Ok acc.

Fixpoint collect (customer_data : list Customer.t) (collision_date : string)
    (acc : Accelerate) (invoice_data : list Invoice.t) : exn Accelerate :=
  match invoice_data with
  | [] => Ok acc
  | invoice :: rest =>
      let* acc' := collect_one customer_data collision_date acc invoice in
      collect customer_data collision_date acc' rest
  end.

(** lines 481-495 *)
Definition accelerate_lever (a : Accelerate) : list Lever :=
  let top := sort_desc (fun x => (Target.amount x * Target.collection_probability x)%Q)
                       (top_customers_for_collection a) in
  if Qlt_bool 0 (accelerate_potential a) then
    [{| lever := "accelerate_collections"; priority := 1;
        potential_amount := accelerate_potential a;
        implementation_time_days := 1;
        success_probability := 75 # 100;
        description := "Accelerate collections from "
                       ++ digits (Z.of_nat (length top)) ++ " overdue customers";
        target_customers := Some (firstn 5 top);
        target_bills := None; credit_amount := None; interest_cost_1day := None;
        monthly_savings := None; additional_cost := None;
        actions := ["Contact top customers for immediate payment";
                    "Offer 2% early payment discount if paid within 48 hours";
                    "Escalate to senior management for key customers"] |}]
  else [].

(** lines 498-506: the bills of the collision whose category is none of the
    five words *)
Definition deferrable (bill : Item.t) : bool :=
  negb (mem (lower (Item.category bill))
            ["payroll"; "salary"; "statutory"; "tax"; "gst"]).

(** lines 497-522 *)
Definition defer_lever (collision : Collision) : list Lever :=
  let deferrable_bills := List.filter deferrable (bills collision) in
  let defer_potential :=
    fold_left (fun acc b => (acc + _to_float (PNum (Item.amount b)) 0)%Q)
              deferrable_bills 0%Q in
  if Qlt_bool 0 defer_potential then
    [{| lever := "defer_payables"; priority := 2;
        potential_amount := defer_potential;
        implementation_time_days := 1;
        success_probability := 6 # 10;
        description := "Defer " ++ digits (Z.of_nat (length deferrable_bills))
                       ++ " non-critical vendor payments";
        target_customers := None;
        target_bills := Some deferrable_bills;
        credit_amount := None; interest_cost_1day := None;
        monthly_savings := None; additional_cost := None;
        actions := ["Contact vendors for 30-day payment extension";
                    "Emphasize long-term partnership and previous good payment history";
                    "Offer to prioritize payment in next cycle"] |}]
  else [].

(** lines 524-542 *)
Definition credit_lever (available_credit deficit : Q) : list Lever :=
  if Qlt_bool (deficit * (5 # 10)) available_credit then
    [{| lever := "draw_credit_line"; priority := 3;
        potential_amount := available_credit;
        implementation_time_days := 0;
        success_probability := 95 # 100;
        description := "Draw ₹" ++ format_money available_credit
                       ++ " from available credit line";
        target_customers := None; target_bills := None;
        credit_amount := Some available_credit;
        interest_cost_1day := Some (available_credit * (8 # 10000))%Q;
        monthly_savings := None; additional_cost := None;
        actions := ["Initiate credit line draw with bank";
                    "Prepare required documentation";
                    "Confirm funds transfer"] |}]
  else [].

(** [' '.join(l)] *)
Definition join_space (l : list string) : string := String.concat " " l.

(** lines 544-565 *)
Definition loan_lever (collision : Collision) : list Lever :=
  if contains "loan" (join_space (map lower (expense_categories collision))) then
    let loan_emi_deferrable :=
      (_to_float (PNum (mandatory_expenses_ collision)) 0 * (3 # 10))%Q in
    if Qlt_bool 0 loan_emi_deferrable then
      [{| lever := "restructure_loan"; priority := 4;
          potential_amount := loan_emi_deferrable;
          implementation_time_days := 3;
          success_probability := 5 # 10;
          description := "Negotiate loan restructuring with lender";
          target_customers := None; target_bills := None;
          credit_amount := None; interest_cost_1day := None;
          monthly_savings := Some loan_emi_deferrable;
          additional_cost := Some (loan_emi_deferrable * (5 # 100))%Q;
          actions := ["Schedule call with loan officer";
                      "Present financial situation and recovery plan";
                      "Negotiate 2-3 month EMI moratorium";
                      "Document agreement"] |}]
    else []
  else [].

(** line 567: [sum(potential_amount * success_probability for lever in ...)] *)
Definition total_potential_of (mitigation_levers : list Lever) : Q :=
  py_sum (map (fun l => (_to_float (PNum (potential_amount l)) 0
                         * _to_float (PNum (success_probability l)) 0)%Q)
              mitigation_levers).

(** The body of the loop of lines 443-572 on one collision. *)
Definition mitigate (customer_data : list Customer.t)
    (invoice_data : list Invoice.t) (available : option Q)
    (collision : Collision) : exn Collision :=
  let deficit := _to_float (PNum (deficit_amount collision)) 0 in
  let* a := collect customer_data (collision_date collision)
              {| accelerate_potential := 0; top_customers_for_collection := [] |}
              invoice_data in
  let available_credit := _to_float (PNum (default 0%Q available)) 0 in
  let mitigation_levers :=
    (accelerate_lever a ++ defer_lever collision
     ++ credit_lever available_credit deficit ++ loan_lever collision)%list in
  let total_potential := total_potential_of mitigation_levers in
  Ok {| collision_date := collision_date collision;
        predicted_balance := predicted_balance collision;
        mandatory_expenses_ := mandatory_expenses_ collision;
        balance_after_mandatory := balance_after_mandatory collision;
        deficit_amount := deficit_amount collision;
        credit_can_cover := credit_can_cover collision;
        days_from_now := days_from_now collision;
        expense_categories := expense_categories collision;
        bills := bills collision;
        severity_score := severity_score collision;
        severity := severity collision;
        days_to_resolve := days_to_resolve collision;
        mitigation_levers := Some mitigation_levers;
        total_mitigation_potential := Some total_potential;
        can_be_mitigated := Some (Qle_bool (deficit * (7 # 10)) total_potential) |}.

(** The keys of a collision that [generate_mitigation] does not write. *)
Definition kept (c : Collision) :=
  (collision_date c, predicted_balance c, mandatory_expenses_ c,
   balance_after_mandatory c, deficit_amount c, credit_can_cover c,
   days_from_now c, severity_score c, severity c, days_to_resolve c).

(** The loop of lines 443-572 over the references of [collisions]. *)
Fixpoint mitigate_all (customer_data : list Customer.t)
    (invoice_data : list Invoice.t) (available : option Q)
    (collisions : list nat) (objects : list Collision) : exn (list Collision) :=
  match collisions with
  | [] => Ok objects
  | r :: rest =>
      match objects !! r with
      | Some collision =>
          let* c := mitigate customer_data invoice_data available collision in
          mitigate_all customer_data invoice_data available rest (<[r := c]> objects)
      | None => mitigate_all customer_data invoice_data available rest objects
      end
  end.

(** lines 575-577 on one collision *)
Definition numeric_fields (c : Collision) : Collision :=
  {| collision_date := collision_date c;
     predicted_balance := predicted_balance c;
     mandatory_expenses_ := mandatory_expenses_ c;
     balance_after_mandatory := _to_float (PNum (balance_after_mandatory c)) 0;
     deficit_amount := _to_float (PNum (deficit_amount c)) 0;
     credit_can_cover := credit_can_cover c;
     days_from_now := days_from_now c;
     expense_categories := expense_categories c;
     bills := bills c;
     severity_score := severity_score c;
     severity := severity c;
     days_to_resolve := days_to_resolve c;
     mitigation_levers := mitigation_levers c;
     total_mitigation_potential := total_mitigation_potential c;
     can_be_mitigated := can_be_mitigated c |}.

(** lines 408-440: the customers and the invoices of the run, both empty
    when a request raised *)
Definition fetched (w : World) : list Customer.t * list Invoice.t :=
  match customer_data w, invoice_data w with
  | Ok cs, Ok invs => (cs, invs)
  | _, _ => ([], [])
  end.

Definition generate_mitigation (w : World) (state : State) : exn State :=
  if in_error state then Ok state
  else
    let collisions := default [] (collisions state) in
    let '(customer_data, invoice_data) := fetched w in
    let* store := mitigate_all customer_data invoice_data (available_credit state)
                    collisions (objects state) in
    Ok (set_current_step (Some "mitigation_generated")
         (set_collisions (Some collisions)
         (set_objects (update_all numeric_fields collisions store) state))).

(** *** [prepare_output], lines 586-670 *)

(** the collision dictionaries a list of references stands for *)
Definition resolve (objects : list Collision) (collisions : list nat)
  : list Collision :=
  omap (fun r => objects !! r) collisions.

(** [(self._parse_date(d) - timedelta(days=n)).strftime('%Y-%m-%d')
     if self._parse_date(d) else None] *)
Definition days_before (n : Z) (d : string) : exn (option string) :=
  match _parse_date (PStr d) with
  | Some parsed =>
      let* earlier := date_add parsed (- n) in Ok (Some (strftime_ymd earlier))
  | None => Ok None
  end.

(** lines 602-605 *)
Definition expected_recovery_of (mitigation_levers : list Lever) : Q :=
  fold_left (fun acc tc => (acc + Target.amount tc)%Q)
    (concat (map (fun l => default [] (target_customers l)) mitigation_levers))
    0%Q.

(** lines 606-610 *)
Definition expected_deferral_of (mitigation_levers : list Lever) : Q :=
  py_sum (map potential_amount
            (List.filter (fun l => String.eqb (lever l) "defer_payables")
                         mitigation_levers)).

(** lines 596-636: the plan for the head of [collisions] *)
Definition emergency_plan (available : option Q) (collisions : list Collision)
  : exn (option Plan) :=
  match collisions with
  | [] => Ok None
  | first_collision :: _ =>
      if match severity first_collision with
         | Some s => mem s ["critical"; "high"]
         | None => false
         end
      then
        let levers := default [] (mitigation_levers first_collision) in
        let recovery := expected_recovery_of levers in
        let deferral := expected_deferral_of levers in
        let* action_date := days_before 2 (collision_date first_collision) in
        let* day_before := days_before 1 (collision_date first_collision) in
        Ok (Some
          {| action_date := action_date;
             priority_actions :=
               [{| action_id := 1;
                   action := "URGENT: Contact top 5 customers for immediate payment";
                   owner := "Sales Manager";
                   deadline := day_before;
                   expected_recovery := Some recovery;
                   amount := None; expected_deferral := None |};
                {| action_id := 2;
                   action := "Draw available credit line if needed";
                   owner := "Finance Manager";
                   deadline := Some (collision_date first_collision);
                   expected_recovery := None;
                   amount := Some (default 0%Q available);
                   expected_deferral := None |};
                {| action_id := 3;
                   action := "Contact non-critical vendors for payment deferral";
                   owner := "Procurement Manager";
                   deadline := day_before;
                   expected_recovery := None; amount := None;
                   expected_deferral := Some deferral |}] |})
      else Ok None
  end.

(** [len([c for c in collisions if c['severity'] == s])] *)
Definition count_severity (s : string) (collisions : list Collision) : nat :=
  length (List.filter (fun c => match severity c with
                                | Some s' => String.eqb s' s
                                | None => false
                                end) collisions).

(** The report shows the collision dictionaries as they are when the stage
    returns. *)
Definition prepare_output (w : World) (state : State) : exn State :=
  match error state with
  | Some message => Ok (set_output (Some (ErrorOutput message)) state)
  | None =>
      let collisions := resolve (objects state) (default [] (collisions state)) in
      let count := default 0%nat (collision_count state) in
      let* plan := emergency_plan (available_credit state) collisions in
      Ok (set_current_step (Some "complete")
         (set_output (Some (Success agent_id (org_id state)
           {| timestamp := now_isoformat w;
              position_current_balance := default 0%Q (current_balance state);
              position_minimum_balance := default 0%Q (minimum_balance state);
              position_balance_gap := default 0%Q (balance_gap state);
              position_available_credit := default 0%Q (available_credit state);
              position_credit_utilization_pct :=
                default 0%Q (credit_utilization_pct state);
              total_collisions_detected := count;
              critical_collisions := count_severity "critical" collisions;
              high_collisions := count_severity "high" collisions;
              report_first_collision :=
                match first_collision state with
                | Some (Some r) => objects state !! r
                | _ => None
                end;
              collisions_91d := collisions;
              total_amount := default 0%Q (total_mandatory_91d state);
              expense_dates :=
                merge_sort String.le
                  (map fst (map_to_list (default ∅ (mandatory_expenses state))));
              emergency_action_plan := plan;
              immediate_action :=
                if Nat.ltb 0 count then "URGENT" else "MONITOR";
              recommendation_message :=
                if Nat.ltb 0 count
                then "⚠️ " ++ digits (Z.of_nat count)
                     ++ " collision(s) detected in next 91 days"
                else "✅ No collisions detected in 91-day forecast" |}))
           state))
  end.

(** *** The graph of [create_graph], lines 72-97 *)

(** the four stages that fetch *)
Definition fetch (w : World) (state : State) : State :=
  let state := get_current_balance w state in
  let state := get_forecast w state in
  let state := get_mandatory_expenses w state in
  get_credit_limits w state.

Definition run (w : World) (state : State) : exn State :=
  let state := fetch w state in
  let state := detect_collisions w state in
  let state := analyze_severity state in
  let* state := generate_mitigation w state in
  prepare_output w state.

(** the state a caller starts the graph from *)
Definition initial (org : pyval) : State :=
  {| org_id := org; error := None; current_step := None;
     opening_balance := None; current_balance := None;
     minimum_balance := None; balance_gap := None;
     recent_inflows := None; recent_outflows := None;
     forecast := None; forecast_meta := None;
     mandatory_expenses := None; total_mandatory_91d := None;
     credit_line_limit := None; credit_line_utilized := None;
     available_credit := None; credit_utilization_pct := None;
     objects := []; collisions := None; collision_count := None;
     first_collision := None; output := None |}.

End WithRuntime.
End Collision.

(** ** From the forecast agent to the collision agent

    [run_forecasting_agent] returns [result.get('output', {})] (line 746),
    the dictionary that [get_forecast] of the collision agent reads. *)

Module Handover.
Import Py.

(** the empty dictionary *)
Definition empty : Collision.ForecastOutput.t :=
  {| Collision.ForecastOutput.forecast := None;
     Collision.ForecastOutput.forecast_results := None;
     Collision.ForecastOutput.model_info := None |}.

(** [fo] is what [get_forecast] reads of the returned dictionary when the
    graph of the forecast agent ends with [state['output'] = output] *)
Definition answers {Drivers} (output : option (ForecastStages.Output Drivers))
    (fo : Collision.ForecastOutput.t) : Prop :=
  match output with
  | Some o =>
      Collision.ForecastOutput.forecast fo = Some (ForecastStages.forecast o)
      /\ Collision.ForecastOutput.forecast_results fo = None
      /\ is_Some (Collision.ForecastOutput.model_info fo)
  | None => fo = empty
  end.

End Handover.

(** ** What the loops keep true

    The notions in which the properties of the stages are stated. *)

Module ForecastInvariants.
Import Py Forecast.



(** the forecast day that [forecast_day] appends (lines 520-527) for a
    predicted change [change] that brings the balance to [balance], [sd]
    being the residual standard deviation *)
Definition entry_of (date : string) (balance change sd : Q) : ForecastDay :=
  {| date := date;
     predicted_balance := round2 balance;
     daily_change := round2 change;
     confidence_95 := round2 (balance + (196 # 100) * sd);
     confidence_5 := round2 (balance - (196 # 100) * sd);
     confidence_level := 95 # 100 |}.

(** what the loop of [generate_forecast] keeps true of its variables: one
    entry for every predicted change, each made by [entry_of]; the last
    entry within half a cent of the running balance; two entries in a row
    apart by the daily change of the second, up to the rounding *)
Definition coherent (sd : Q) (acc : Loop) : Prop :=
  length (changes acc) = length (results acc)
  /\ (forall i d, results acc !! i = Some d ->
        exists date balance change,
          changes acc !! i = Some change /\ d = entry_of date balance change sd)
  /\ (forall a, last (results acc) = Some a ->
        (Qabs (predicted_balance a - current_balance acc) <= 1 # 200)%Q)
  /\ (forall i a b, results acc !! i = Some a -> results acc !! S i = Some b ->
        (Qabs (predicted_balance b - predicted_balance a - daily_change b)
         <= 3 # 200)%Q).

Section WithRuntime.
Context {RT : PyRuntime}.

(** What a payment record contributes to the history (lines 146-186):
    nothing when its date does not parse, else its day and its signed
    amount. *)
Definition entry (p : Payment) : exn (option (Z * Q)) :=
  match payment_day p with
  | None => Ok None
  | Some parsed =>
      let amt := payment_amt p in
      let* ptype := payment_ptype p in
      if String.eqb ptype "inflow" then Ok (Some (parsed, amt))
      else if String.eqb ptype "outflow" then Ok (Some (parsed, - amt)%Q)
      else if sign_plus (get (sign p)) then Ok (Some (parsed, amt))
      else if sign_minus (get (sign p)) then Ok (Some (parsed, - amt)%Q)
      else Ok (Some (parsed, amt))
  end.

(** [residual_std] of lines 511-516, as [forecast_day] computes it *)
Definition residual_std (model : list Q -> Q) (state : State)
    (net_changes : list Q) : exn Q :=
  match X_val state with
  | Some (x :: xs) =>
      bind (residuals model (y_val state) (x :: xs)) (fun r => Ok (np_std r))
  | _ => Ok (match net_changes with [] => 0%Q | _ => np_std net_changes end)
  end.

End WithRuntime.
End ForecastInvariants.

Module CollisionInvariants.
Import Py Collision.

(** a bucket of [mandatory_expenses] under the key [key]: the total is the
    sum of the amounts of the items, every item is a mandatory bill due on
    [key], and the categories are those of the items, each listed once *)
Definition bucket_ok (key : string) (b : Bucket.t) : Prop :=
  Bucket.total b = fold_left Qplus (map Item.amount (Bucket.items b)) 0%Q
  /\ Forall (fun it => Item.due_date it = key
                       /\ is_mandatory (Item.category it) = true)
            (Bucket.items b)
  /\ NoDup (Bucket.categories b)
  /\ forall cat, cat ∈ Bucket.categories b <->
                 exists it, it ∈ Bucket.items b /\ Item.category it = cat.

(** the four kinds of lever of lines 482, 509, 528 and 550: name, priority
    and success probability *)
Definition lever_kinds : list (string * Z * Q) :=
  [("accelerate_collections", 1, 75 # 100);
   ("defer_payables", 2, 6 # 10);
   ("draw_credit_line", 3, 95 # 100);
   ("restructure_loan", 4, 5 # 10)].

Definition kind_of (l : Lever) : string * Z * Q :=
  (lever l, priority l, success_probability l).

(** the key of the sort of line 477 *)
Definition expected (t : Target.t) : Q :=
  (Target.amount t * Target.collection_probability t)%Q.

Section WithRuntime.
Context {RT : PyRuntime}.


(** the type tag of a payment when it is text, line 131 *)
Definition tag_of (p : Forecast.Payment) : string :=
  match Forecast.payment_ptype p with
  | Ok tag => tag
  | Raise _ => ""
  end.

(** line 135: the payments that count as outflows; every other payment
    counts as an inflow *)
Definition is_outflow (p : Forecast.Payment) : bool :=
  String.eqb (tag_of p) "outflow".

End WithRuntime.
End CollisionInvariants.

(** ** Concrete inputs

    Small inputs on which the agents are run with the reference runtime. *)

Module Examples.
Import Py Collision.

(** a forecast day as [generate_forecast] writes it *)
Definition day (d : string) (balance : Q) : Forecast.ForecastDay :=
  {| Forecast.date := d;
     Forecast.predicted_balance := balance;
     Forecast.daily_change := 0;
     Forecast.confidence_95 := balance;
     Forecast.confidence_5 := balance;
     Forecast.confidence_level := 95 # 100 |}.

(** a collision as [detect_collisions] writes it, on a date without
    mandatory expenses *)
Definition collision_on (d : string) (days : Z) (deficit : Q) (cover : bool)
  : Collision :=
  {| collision_date := d;
     predicted_balance := - deficit;
     mandatory_expenses_ := 0;
     balance_after_mandatory := - deficit;
     deficit_amount := deficit;
     credit_can_cover := cover;
     days_from_now := days;
     expense_categories := [];
     bills := [];
     severity_score := None; severity := None; days_to_resolve := None;
     mitigation_levers := None; total_mitigation_potential := None;
     can_be_mitigated := None |}.



(** the clock shows 2025-02-21 and no request answers *)
Definition late_world : World :=
  {| summary := Raise "unreachable";
     payments := Raise "unreachable";
     forecasting_agent := Raise "unreachable";
     bills_detail := Raise "unreachable";
     credit_summary := Raise "unreachable";
     customer_data := Raise "unreachable";
     invoice_data := Raise "unreachable";
     today := fun _ => 739303;
     now_isoformat := "2025-02-21T09:00:00" |}.

(** a forecast that starts on 2025-01-02 with an empty account, and a
    minimum balance of one billion *)
Definition stale_forecast : State :=
  set_minimum_balance (Some 1000000000%Q)
    (set_forecast (Some [day "2025-01-02" 0]) (initial (PNum 1))).

(** A run on 2025-01-01. The forecast falls from two billion to one hundred
    million in three days, the minimum balance is one billion, a loan
    instalment of 50 is due on 2025-01-03, 400 of credit are free, and one
    invoice of 300 is open since 2025-01-01. *)
Definition busy_world : World :=
  {| summary := Ok
       {| Summary.opening_balance := Some (PNum 100);
          Summary.current_balance := None;
          Summary.minimum_balance_required := Some (PNum 1000000000);
          Summary.credit_line_limit := Some (PNum 500);
          Summary.credit_line_utilized := Some (PNum 100) |};
     payments := Ok [];
     forecasting_agent := Ok
       {| ForecastOutput.forecast := Some
            [day "2025-01-02" 2000000000;
             day "2025-01-03" 900000000;
             day "2025-01-04" 100000000];
          ForecastOutput.forecast_results := None;
          ForecastOutput.model_info := None |};
     bills_detail := Ok
       [{| Bill.bill_id := Some (PNum 1);
           Bill.expense_category := None;
           Bill.category := Some (PStr "Loan");
           Bill.amount := Some (PStr "50");
           Bill.due_date := Some (PStr "2025-01-03T00:00:00Z") |}];
     credit_summary := Ok
       {| Summary.opening_balance := Some (PNum 100);
          Summary.current_balance := None;
          Summary.minimum_balance_required := Some (PNum 1000000000);
          Summary.credit_line_limit := Some (PNum 500);
          Summary.credit_line_utilized := Some (PNum 100) |};
     customer_data := Ok
       [{| Customer.customer_id := Some (PNum 7);
           Customer.id := None;
           Customer.payment_reliability_score := Some (PNum (8 # 10));
           Customer.reliability := None |}];
     invoice_data := Ok
       [{| Invoice.payment_status := None;
           Invoice.status := Some (PStr "Open");
           Invoice.remaining_amount := None;
           Invoice.outstanding := None;
           Invoice.amount_due := Some (PNum 300);
           Invoice.customer_id := Some (PNum 7);
           Invoice.customerId := None;
           Invoice.customer := None;
           Invoice.due_date := Some (PStr "2025-01-01");
           Invoice.dueDate := None |}];
     today := fun _ => 739252;
     now_isoformat := "2025-01-01T09:00:00" |}.

(** the state of that run when the four fetching stages are through *)
Definition busy_fetched : State :=
  fetch (RT := RefRuntime.runtime) busy_world (initial (PNum 1)).


(** ... and when the run is over *)
Definition busy_final : State :=
  match run (RT := RefRuntime.runtime) busy_world (initial (PNum 1)) with
  | Ok state => state
  | Raise _ => initial PNone
  end.

Definition busy_report : option Report :=
  match output busy_final with
  | Some (Success _ _ report) => Some report
  | _ => None
  end.

(** a bill of category EMI due on 2025-03-05 *)
Definition emi_world : World :=
  {| summary := Raise "unreachable";
     payments := Raise "unreachable";
     forecasting_agent := Raise "unreachable";
     bills_detail := Ok
       [{| Bill.bill_id := Some (PNum 1);
           Bill.expense_category := None;
           Bill.category := Some (PStr "EMI");
           Bill.amount := Some (PNum 25000);
           Bill.due_date := Some (PStr "2025-03-05") |}];
     credit_summary := Raise "unreachable";
     customer_data := Raise "unreachable";
     invoice_data := Raise "unreachable";
     today := fun _ => 739252;
     now_isoformat := "2025-01-01T09:00:00" |}.

(** the state in which the run of [late_world] ends *)
Definition late_final : State :=
  match run (RT := RefRuntime.runtime) late_world (initial (PNum 1)) with
  | Ok state => state
  | Raise _ => initial PNone
  end.

(** the loan instalment of [busy_world] and a bill whose category is
    [null] *)
Definition loan_bill : Bill.t :=
  {| Bill.bill_id := Some (PNum 1);
     Bill.expense_category := None;
     Bill.category := Some (PStr "Loan");
     Bill.amount := Some (PStr "50");
     Bill.due_date := Some (PStr "2025-01-03T00:00:00Z") |}.

Definition null_bill : Bill.t :=
  {| Bill.bill_id := Some (PNum 2);
     Bill.expense_category := None;
     Bill.category := Some PNone;
     Bill.amount := Some (PNum 70);
     Bill.due_date := Some (PStr "2025-01-04") |}.

(** [busy_world] with the second bill added *)
Definition null_bill_world : World :=
  {| summary := summary busy_world;
     payments := payments busy_world;
     forecasting_agent := forecasting_agent busy_world;
     bills_detail := Ok [loan_bill; null_bill];
     credit_summary := credit_summary busy_world;
     customer_data := customer_data busy_world;
     invoice_data := invoice_data busy_world;
     today := today busy_world;
     now_isoformat := now_isoformat busy_world |}.

(** [busy_world] with a forecast agent that returns [{}] *)
Definition silent_world : World :=
  {| summary := summary busy_world;
     payments := payments busy_world;
     forecasting_agent := Ok Handover.empty;
     bills_detail := bills_detail busy_world;
     credit_summary := credit_summary busy_world;
     customer_data := customer_data busy_world;
     invoice_data := invoice_data busy_world;
     today := today busy_world;
     now_isoformat := now_isoformat busy_world |}.

(** A run on 2025-01-01 with two payments on the books, an inflow of 700
    and an outflow of 200: the balance is forecast at 900 for 2025-01-02,
    the minimum balance is 1000 and 400 of credit are free. *)
Definition calm_world : World :=
  {| summary := Ok
       {| Summary.opening_balance := Some (PNum 400);
          Summary.current_balance := None;
          Summary.minimum_balance_required := Some (PNum 1000);
          Summary.credit_line_limit := Some (PNum 500);
          Summary.credit_line_utilized := Some (PNum 100) |};
     payments := Ok
       [{| Forecast.payment_date := Some (PStr "2024-12-30");
           Forecast.date_ := None; Forecast.paymentDate := None;
           Forecast.payment_amount := Some (PNum 700);
           Forecast.amount := None; Forecast.paymentAmount := None;
           Forecast.payment_type := Some (PStr "Inflow");
           Forecast.type_ := None; Forecast.sign := None |};
        {| Forecast.payment_date := Some (PStr "2024-12-31");
           Forecast.date_ := None; Forecast.paymentDate := None;
           Forecast.payment_amount := Some (PStr "200");
           Forecast.amount := None; Forecast.paymentAmount := None;
           Forecast.payment_type := Some (PStr "outflow");
           Forecast.type_ := None; Forecast.sign := None |}];
     forecasting_agent := Ok
       {| ForecastOutput.forecast := Some [day "2025-01-02" 900];
          ForecastOutput.forecast_results := None;
          ForecastOutput.model_info := None |};
     bills_detail := Ok [];
     credit_summary := Ok
       {| Summary.opening_balance := Some (PNum 400);
          Summary.current_balance := None;
          Summary.minimum_balance_required := Some (PNum 1000);
          Summary.credit_line_limit := Some (PNum 500);
          Summary.credit_line_utilized := Some (PNum 100) |};
     customer_data := Ok [];
     invoice_data := Ok [];
     today := fun _ => 739252;
     now_isoformat := "2025-01-01T09:00:00" |}.

Definition calm_final : State :=
  match run (RT := RefRuntime.runtime) calm_world (initial (PNum 1)) with
  | Ok state => state
  | Raise _ => initial PNone
  end.

Definition calm_report : option Report :=
  match output calm_final with
  | Some (Success _ _ report) => Some report
  | _ => None
  end.

(** the collisions that the two runs report *)
Definition busy_collisions : list Collision :=
  match busy_report with
  | Some report => collisions_91d report
  | None => []
  end.

Definition calm_collisions : list Collision :=
  match calm_report with
  | Some report => collisions_91d report
  | None => []
  end.

(** the collision of 2025-01-03, the second of the report of [busy_world],
    with its levers *)
Definition busy_second : Collision :=
  default (collision_on "" 0 0 false) (busy_collisions !! 1%nat).

Definition busy_levers : list Lever :=
  default [] (mitigation_levers busy_second).

(** the collision of [calm_world] *)
Definition calm_first : Collision :=
  default (collision_on "" 0 0 false) (head calm_collisions).

End Examples.

Module ForecastExamples.
Import Py Forecast.

(** a payment with a date, an amount and a type tag *)
Definition payment (d amt : pyval) (tag : string) : Payment :=
  {| payment_date := Some d; date_ := None; paymentDate := None;
     payment_amount := Some amt; amount := None; paymentAmount := None;
     payment_type := Some (PStr tag); type_ := None; sign := None |}.

(** an inflow of 500 on 2025-01-01 *)
Definition good : Payment := payment (PStr "2025-01-01") (PNum 500) "inflow".

(** an inflow on 2025-01-02 whose amount reads "abc" *)
Definition bad_amount : Payment := payment (PStr "2025-01-02") (PStr "abc") "inflow".

(** an inflow of 500 whose date reads "yesterday" *)
Definition bad_date : Payment := payment (PStr "yesterday") (PNum 500) "inflow".

(** two days of history are required *)
Definition two_days : Config := {| MIN_DAYS := 2; ALLOW_PARTIAL := false |}.

(** a model that predicts a change of 0.001 for every day *)
Definition drizzle (features : list Q) : Q := 1 # 1000.

(** a loaded history of two days, ending on 2025-01-02 *)
Definition loaded : State :=
  {| org_id := PNum 1; error := None; current_step := "model_trained";
     partial_history := Some true; opening_balance := PNone;
     historical_data := Some
       {| dates := [739252; 739253];
          net_changes := [1 # 1000; 1 # 1000]%Q;
          record_count := 2;
          start_date := Some 739252; end_date := Some 739253;
          avg_daily_net := 1 # 1000; std_daily_net := 0 |};
     X_val := None; y_val := None;
     forecast_results := None; predicted_daily_changes := None |}.

(** the state after [generate_forecast] with that model, the balance being
    brought to 500 by [good] *)
Definition drizzled : State :=
  match generate_forecast (RT := RefRuntime.runtime) drizzle (Some [good]) loaded with
  | Ok state => state
  | Raise _ => loaded
  end.

(** the history of [good] and [bad_amount], as [load_historical_data]
    leaves it when two days are required *)
Definition two_loaded : State :=
  match load_historical_data (RT := RefRuntime.runtime) two_days
          (inr [good; bad_amount]) (initial (PNum 1)) with
  | Ok state => state
  | Raise _ => initial PNone
  end.

(** a history without seasonal pattern *)
Definition flat : ForecastStages.Seasonality :=
  {| ForecastStages.day_of_week_avg := [];
     ForecastStages.day_of_month_avg := [];
     ForecastStages.trend_slope := 0;
     ForecastStages.volatility := 0;
     ForecastStages.mean_net_daily := 0;
     ForecastStages.seasonality_strength := "moderate" |}.

(** the state and the training set after [prepare_features] *)
Definition two_featured : State * option ForecastStages.Training :=
  match ForecastStages.prepare_features (Some flat) two_loaded with
  | Ok result => result
  | Raise _ => (two_loaded, None)
  end.

(** the state of an organisation without payments *)
Definition no_history : State :=
  match load_historical_data (RT := RefRuntime.runtime) default_config
          (inr []) (initial (PNum 1)) with
  | Ok state => state
  | Raise _ => initial PNone
  end.

(** what [prepare_output] makes of [drizzled] *)
Definition drizzled_output : State * option (ForecastStages.Output unit) :=
  ForecastStages.prepare_output "2025-01-02T09:00:00" None None drizzled.

End ForecastExamples.

(** * Properties *)

(** closes a goal that holds by evaluation of its two sides *)
Ltac by_evaluation := vm_compute; reflexivity.

(** case analysis on every condition of the goal *)
Ltac case_conditions :=
  repeat match goal with
         | |- context [if ?b then _ else _] => destruct b
         end.

(** the stages that hand an erroneous state on *)
Create HintDb sentinel.

(** ** The built-ins on sample inputs *)

Module BuiltinProps.
Import Py.

Example ordinal_of_2025_12_20 : ymd2ord 2025 12 20 = 739605.
Proof. reflexivity. Qed.

Example ymd_of_leap_day : ord2ymd 738945 = (2024, 2, 29).
Proof. reflexivity. Qed.

Example ymd_of_last_day : ord2ymd MAXORDINAL = (9999, 12, 31).
Proof. reflexivity. Qed.

Example weekday_of_2025_12_20 : weekday 739605 = 5.
Proof. reflexivity. Qed.

Example round2_ties_to_even :
  round2 (125 # 1000) = 12 # 100 /\ round2 (135 # 1000) = 14 # 100.
Proof. split; reflexivity. Qed.

Example contains_is_substring :
  contains "loan" "home loan emi" = true /\ contains "emf" "loan emi" = false.
Proof. split; reflexivity. Qed.

Example parse_date_with_time :
  Collision._parse_date (RT := RefRuntime.runtime)
    (PStr "2025-12-20T06:06:04.420Z") = Some 739605.
Proof. by_evaluation. Qed.

Example to_float_of_accounting_negative :
  Collision._to_float (RT := RefRuntime.runtime) (PStr " (1,000) ") 0 = (-1000)%Q.
Proof. by_evaluation. Qed.

Example sort_is_stable :
  sort_desc (fun p => inject_Z (fst p)) [(1, "a"); (2, "b"); (1, "c"); (2, "d")]
  = [(2, "b"); (2, "d"); (1, "a"); (1, "c")].
Proof. reflexivity. Qed.

Lemma date_add_in_range (d n : Z) :
  1 <= d + n <= MAXORDINAL -> date_add d n = Ok (d + n).
Proof.
  intros [H1 H2]. unfold date_add.
  apply Z.leb_le in H1, H2. by rewrite H1, H2.
Qed.

End BuiltinProps.

(** ** Collision agent *)

Module CollisionProps.
Import Py Collision.

Lemma Qlt_bool_iff (a b : Q) : Qlt_bool a b = true <-> (a < b)%Q.
Proof.
  unfold Qlt_bool. rewrite negb_true_iff.
  split; intros H.
  - apply Qnot_le_lt. intros Hle. apply Qle_bool_iff in Hle. congruence.
  - destruct (Qle_bool b a) eqn:E; [|reflexivity].
    apply Qle_bool_iff in E. exfalso. apply (Qlt_not_le _ _ H E).
Qed.

Lemma Qlt_bool_false (a b : Q) : Qlt_bool a b = false <-> (b <= a)%Q.
Proof.
  unfold Qlt_bool. rewrite negb_false_iff. apply Qle_bool_iff.
Qed.

(** References allocated at the end of a store resolve to what was
    allocated. *)
Lemma resolve_fresh (old found : list Collision) :
  resolve (old ++ found) (seq (length old) (length found)) = found.
Proof.
  unfold resolve. revert old.
  induction found as [|c found IH]; intros old; simpl; [done|].
  rewrite lookup_app_r by lia. rewrite Nat.sub_diag. simpl.
  f_equal.
  specialize (IH (old ++ [c])%list).
  rewrite length_app in IH. simpl in IH.
  rewrite Nat.add_1_r in IH. rewrite <- app_assoc in IH. exact IH.
Qed.

Section Detection.
Context {RT : PyRuntime}.
Variable w : World.
Variable mandatory : gmap string Bucket.t.
Variables minimum credit : Q.

Lemma scan_found forecast : forall i acc,
  scan w mandatory minimum credit i forecast acc
  = (acc ++ found_from w mandatory minimum credit i forecast)%list.
Proof.
  induction forecast as [|item rest IH]; intros i acc; simpl.
  - by rewrite app_nil_r.
  - rewrite IH. destruct (examine _ _ _ _ i item); [|done].
    by rewrite <- app_assoc.
Qed.

Lemma elem_of_found forecast : forall i c,
  c ∈ found_from w mandatory minimum credit i forecast <->
  exists j item, forecast !! j = Some item
                 /\ examine w mandatory minimum credit (i + j) item = Some c.
Proof.
  induction forecast as [|item rest IH]; intros i c; simpl.
  - split; [intros H; inversion H | intros (j & it & H & _); destruct j; discriminate].
  - split.
    + intros H.
      destruct (examine _ _ _ _ i item) as [c0|] eqn:E.
      * apply elem_of_cons in H as [->|H].
        -- exists 0%nat, item. rewrite Nat.add_0_r. done.
        -- apply IH in H as (j & it & Hj & He). exists (S j), it.
           rewrite <- plus_n_Sm. done.
      * apply IH in H as (j & it & Hj & He). exists (S j), it.
        rewrite <- plus_n_Sm. done.
    + intros (j & it & Hj & He). destruct j as [|j]; simpl in Hj.
      * inversion Hj; subst. rewrite Nat.add_0_r in He. rewrite He. left.
      * rewrite <- plus_n_Sm in He.
        assert (c ∈ found_from w mandatory minimum credit (S i) rest)
          by (apply IH; eauto).
        destruct (examine _ _ _ _ i item); [right|]; done.
Qed.

(** What one forecast day contributes. *)
Lemma examine_hit i item :
  let after := (Forecast.predicted_balance item
                - mandatory_for mandatory (fkey_of item))%Q in
  (after < minimum)%Q ->
  exists c, examine w mandatory minimum credit i item = Some c.
Proof.
  intros after H. unfold examine.
  apply Qlt_bool_iff in H.
  change (Qlt_bool after minimum) with
    (Qlt_bool (_to_float (PNum (Forecast.predicted_balance item)) 0
               - mandatory_for mandatory (fkey_of item)) minimum) in H.
  rewrite H. eauto.
Qed.

Lemma examine_inv i item c :
  examine w mandatory minimum credit i item = Some c ->
  let after := (Forecast.predicted_balance item
                - mandatory_for mandatory (fkey_of item))%Q in
  (after < minimum)%Q
  /\ collision_date c = fkey_of item
  /\ predicted_balance c = Forecast.predicted_balance item
  /\ mandatory_expenses_ c = mandatory_for mandatory (fkey_of item)
  /\ balance_after_mandatory c = after
  /\ deficit_amount c = Qabs (minimum - after)
  /\ credit_can_cover c = Qle_bool (minimum - after) credit.
Proof.
  intros H after. unfold examine in H.
  destruct (Qlt_bool _ minimum) eqn:E in H; [|discriminate].
  apply Qlt_bool_iff in E. inversion H; subst; clear H. simpl.
  repeat split; try done.
Qed.

Lemma length_found forecast : forall i,
  length (found_from w mandatory minimum credit i forecast)
  = length (List.filter
      (fun item => Qlt_bool (Forecast.predicted_balance item
                             - mandatory_for mandatory (fkey_of item)) minimum)
      forecast).
Proof.
  induction forecast as [|item rest IH]; intros i; simpl; [done|].
  unfold examine at 1. simpl.
  destruct (Qlt_bool _ minimum); simpl; by rewrite IH.
Qed.

End Detection.

Lemma detect_collisions_recorded `{RT : PyRuntime} (w : World) (state : State) :
  in_error state = false ->
  let state' := detect_collisions w state in
  resolve (objects state') (default [] (collisions state'))
  = found_from w (default ∅ (mandatory_expenses state))
      (default 0%Q (minimum_balance state))
      (default 0%Q (available_credit state)) 0
      (default [] (forecast state)).
Proof.
  intros Herr. unfold detect_collisions. rewrite Herr. simpl.
  rewrite scan_found. simpl. apply resolve_fresh.
Qed.

(** C2. For a state without error, [detect_collisions] records a collision
    for a forecast day if and only if the predicted balance of the day minus
    the mandatory-expense total of its date is strictly below the minimum
    balance: every such day has its collision, every recorded collision comes
    from such a day, and there are as many collisions as such days. The
    deficit of a recorded collision is the minimum balance minus the balance
    after mandatory expenses, it is not negative, and [credit_can_cover]
    holds exactly when the deficit is at most the available credit. *)
Theorem detect_collisions_records_deficits `{RT : PyRuntime}
    (w : World) (state : State) :
  in_error state = false ->
  let forecast := default [] (forecast state) in
  let mandatory := default ∅ (mandatory_expenses state) in
  let minimum := default 0%Q (minimum_balance state) in
  let credit := default 0%Q (available_credit state) in
  let after item :=
    (Forecast.predicted_balance item - mandatory_for mandatory (fkey_of item))%Q in
  let state' := detect_collisions w state in
  let recorded := resolve (objects state') (default [] (collisions state')) in
  (forall i item, forecast !! i = Some item -> (after item < minimum)%Q ->
     exists c, c ∈ recorded
               /\ collision_date c = fkey_of item
               /\ balance_after_mandatory c = after item)
  /\ (forall c, c ∈ recorded ->
        exists i item, forecast !! i = Some item
          /\ (after item < minimum)%Q
          /\ collision_date c = fkey_of item
          /\ predicted_balance c = Forecast.predicted_balance item
          /\ balance_after_mandatory c = after item
          /\ (deficit_amount c == minimum - balance_after_mandatory c)%Q
          /\ (0 <= deficit_amount c)%Q
          /\ (credit_can_cover c = true <-> (deficit_amount c <= credit)%Q))
  /\ length recorded
     = length (List.filter (fun item => Qlt_bool (after item) minimum) forecast).
Proof.
  intros Herr forecast mandatory minimum credit after state' recorded.
  assert (Hrec : recorded = found_from w mandatory minimum credit 0 forecast)
    by (apply detect_collisions_recorded; exact Herr).
  rewrite Hrec. clear Hrec recorded state'.
  split; [|split].
  - intros i item Hi Hlt.
    destruct (examine_hit w mandatory minimum credit i item Hlt) as [c Hc].
    exists c. split.
    + apply elem_of_found. exists i, item. done.
    + apply examine_inv in Hc as (_ & Hd & _ & _ & Hb & _). done.
  - intros c Hc. apply elem_of_found in Hc as (j & item & Hj & He).
    apply examine_inv in He as (Hlt & Hd & Hp & _ & Hb & Hdef & Hcov).
    exists j, item. fold (after item) in Hlt, Hb, Hdef, Hcov.
    assert (Hpos : (0 <= minimum - after item)%Q) by lra.
    assert (Habs : (Qabs (minimum - after item) == minimum - after item)%Q)
      by (apply Qabs_pos; exact Hpos).
    repeat split; try done.
    + rewrite Hdef, Hb. exact Habs.
    + rewrite Hdef. apply Qabs_nonneg.
    + rewrite Hcov, Hdef. intros H. apply Qle_bool_iff in H. by rewrite Habs.
    + rewrite Hcov, Hdef. intros H. apply Qle_bool_iff. by rewrite <- Habs.
  - apply length_found.
Qed.

(** *** Severity *)

(** A loop that updates the referenced dictionaries in place with an
    idempotent body changes exactly the referenced ones. *)
Lemma update_all_lookup (f : Collision -> Collision) :
  (forall c, f (f c) = f c) ->
  forall (refs : list nat) (store : list Collision) (r : nat),
    update_all f refs store !! r
    = if decide (r ∈ refs) then f <$> store !! r else store !! r.
Proof.
  intros Hidem. unfold update_all.
  induction refs as [|a refs IH]; intros store r; simpl.
  - destruct (decide (r ∈ [])) as [H|H]; [inversion H|done].
  - rewrite IH.
    destruct (decide (r = a)) as [->|Hne].
    + rewrite list_lookup_alter_eq.
      destruct (decide (a ∈ a :: refs)) as [_|Hn];
        [|exfalso; apply Hn; apply elem_of_cons; by left].
      destruct (decide (a ∈ refs)); [|done].
      destruct (store !! a); simpl; [|done]. by rewrite Hidem.
    + rewrite list_lookup_alter_ne by done.
      destruct (decide (r ∈ refs)) as [Hin|Hnin].
      * destruct (decide (r ∈ a :: refs)) as [_|Hn]; [done|].
        exfalso. apply Hn. apply elem_of_cons. by right.
      * destruct (decide (r ∈ a :: refs)) as [Hin|_]; [|done].
        apply elem_of_cons in Hin as [?|?]; done.
Qed.

Lemma length_update_all (f : Collision -> Collision) (refs : list nat) :
  forall store, length (update_all f refs store) = length store.
Proof.
  unfold update_all.
  induction refs as [|a refs IH]; intros store; simpl; [done|].
  rewrite IH. apply length_alter.
Qed.

Lemma assess_idem (c : Collision) : assess (assess c) = assess c.
Proof. reflexivity. Qed.


Lemma py_min_spec (a b : Q) :
  ((b < a)%Q -> py_min a b = b) /\ ((a <= b)%Q -> py_min a b = a).
Proof.
  unfold py_min. split; intros H.
  - apply Qlt_bool_iff in H. by rewrite H.
  - apply Qlt_bool_false in H. by rewrite H.
Qed.

Lemma round_half_even_proper (x y : Q) :
  (x == y)%Q -> round_half_even x = round_half_even y.
Proof.
  intros H. unfold round_half_even.
  rewrite (Qfloor_comp x y H).
  assert (Hc : ((x - inject_Z (Qfloor y)) ?= 1 # 2)%Q
               = ((y - inject_Z (Qfloor y)) ?= 1 # 2)%Q)
    by (apply Qcompare_comp; [rewrite H; reflexivity | reflexivity]).
  by rewrite Hc.
Qed.

Lemma round2_proper (x y : Q) : (x == y)%Q -> round2 x = round2 y.
Proof.
  intros H. unfold round2. f_equal. apply round_half_even_proper.
  by rewrite H.
Qed.







(** C6, the failing input. A forecast whose first day, 2025-01-02, is
    examined on 2025-02-21 gives a collision with days_from_now = -50; with a
    deficit of one billion and no credit its severity_score is 127.5. *)
Lemma severity_score_exceeds_100 :
  let state := analyze_severity
                 (detect_collisions (RT := RefRuntime.runtime)
                    Examples.late_world Examples.stale_forecast) in
  exists c s,
    resolve (objects state) (default [] (collisions state)) = [c]
    /\ days_from_now c = -50
    /\ (deficit_amount c == 1000000000)%Q
    /\ credit_can_cover c = false
    /\ severity_score c = Some s
    /\ (s == 1275 # 10)%Q
    /\ (100 < s)%Q.
Proof.
  do 2 eexists. split; [by_evaluation|].
  simpl. repeat split.
Qed.

(** Guarded against a past date, the unrounded score stays within 0 and
    87.5. *)
Lemma raw_score_bounds (c : Collision) :
  0 <= days_from_now c -> (0 <= deficit_amount c)%Q ->
  (0 <= raw_score c)%Q /\ (raw_score c <= 875 # 10)%Q.
Proof.
  intros Hd Hdef. unfold raw_score, proximity_score, magnitude_score, credit_score.
  set (p := Z.max 0 (100 - days_from_now c * 2)).
  assert (Hp : (0 <= inject_Z p)%Q /\ (inject_Z p <= 100)%Q)
    by (unfold Qle; simpl; lia).
  set (x := (deficit_amount c / 1000000000 * 100)%Q).
  assert (Hx : (0 <= x)%Q).
  { unfold x. apply Qmult_le_0_compat; [|discriminate].
    apply Qle_shift_div_l; [reflexivity|]. lra. }
  assert (Hm : (0 <= py_min 100 x)%Q /\ (py_min 100 x <= 100)%Q).
  { destruct (Qlt_le_dec x 100) as [H|H].
    - rewrite (proj1 (py_min_spec 100 x) H). lra.
    - rewrite (proj2 (py_min_spec 100 x) H). lra. }
  remember (inject_Z p) as ip. remember (py_min 100 x) as m.
  destruct (credit_can_cover c); unfold inject_Z; lra.
Qed.

(** Without the guard, a collision that lies more than 75 days in the past
    scores above 100 whatever its deficit. *)
Lemma raw_score_past (c : Collision) :
  days_from_now c < -75 -> (0 <= deficit_amount c)%Q ->
  (100 < raw_score c)%Q.
Proof.
  intros Hd Hdef. unfold raw_score, proximity_score, magnitude_score, credit_score.
  set (p := Z.max 0 (100 - days_from_now c * 2)).
  assert (Hp : (250 < inject_Z p)%Q) by (unfold Qlt; simpl; lia).
  set (x := (deficit_amount c / 1000000000 * 100)%Q).
  assert (Hx : (0 <= x)%Q).
  { unfold x. apply Qmult_le_0_compat; [|discriminate].
    apply Qle_shift_div_l; [reflexivity|]. lra. }
  assert (Hm : (0 <= py_min 100 x)%Q).
  { destruct (Qlt_le_dec x 100) as [H|H].
    - rewrite (proj1 (py_min_spec 100 x) H). lra.
    - rewrite (proj2 (py_min_spec 100 x) H). lra. }
  remember (inject_Z p) as ip. remember (py_min 100 x) as m.
  destruct (credit_can_cover c); unfold inject_Z; lra.
Qed.

(** *** Mitigation *)

Lemma py_sum_fold_right (l : list Q) :
  (py_sum l == fold_right Qplus 0 l)%Q.
Proof.
  unfold py_sum.
  assert (H : forall a, (fold_left Qplus l a == a + fold_right Qplus 0 l)%Q).
  { induction l as [|x l IH]; intros a; simpl; [ring|]. rewrite IH. ring. }
  rewrite H. ring.
Qed.

Lemma numeric_fields_id `{RT : PyRuntime} (c : Collision) : numeric_fields c = c.
Proof. by destruct c. Qed.

Lemma update_all_id (f : Collision -> Collision) :
  (forall c, f c = c) ->
  forall refs store, update_all f refs store = store.
Proof.
  intros Hid. unfold update_all.
  induction refs as [|r refs IH]; intros store; simpl; [done|].
  rewrite IH. apply list_eq. intros i.
  destruct (decide (r = i)) as [->|Hne].
  - rewrite list_lookup_alter_eq. destruct (store !! i); simpl; [|done].
    by rewrite Hid.
  - by rewrite list_lookup_alter_ne.
Qed.


Section Mitigation.
Context {RT : PyRuntime}.
Variable customers : list Customer.t.
Variable invoices : list Invoice.t.
Variable available : option Q.
Hypothesis statuses : Forall (fun inv => exists s, invoice_status inv = Ok s) invoices.



End Mitigation.

Lemma total_potential_sum `{RT : PyRuntime} (levers : list Lever) :
  (total_potential_of levers ==
   fold_right (fun l acc => potential_amount l * success_probability l + acc)
              0 levers)%Q.
Proof.
  unfold total_potential_of. rewrite py_sum_fold_right.
  induction levers as [|l levers IH]; simpl; [reflexivity|].
  by rewrite IH.
Qed.



(** *** The order of the collisions *)

Section Sorting.
Context {A : Type} (key : A -> Q).

Lemma insert_desc_perm (x : A) (l : list A) : insert_desc key x l ≡ₚ x :: l.
Proof.
  induction l as [|y l IH]; simpl; [done|].
  destruct (Qle_bool (key y) (key x)); [done|].
  rewrite IH. apply perm_swap.
Qed.

Lemma insert_desc_sorted (x : A) (l : list A) :
  StronglySorted (descending key) l ->
  StronglySorted (descending key) (insert_desc key x l).
Proof.
  induction 1 as [|y l Hs IH Hall]; simpl.
  - repeat constructor.
  - destruct (Qle_bool (key y) (key x)) eqn:E.
    + apply Qle_bool_iff in E. constructor; [by constructor|].
      constructor; [exact E|].
      eapply Forall_impl; [exact Hall|]. intros z Hz.
      unfold descending in *. lra.
    + assert (Hlt : (key x < key y)%Q).
      { apply Qnot_le_lt. intros Hle. apply Qle_bool_iff in Hle. congruence. }
      constructor; [exact IH|].
      rewrite insert_desc_perm. constructor; [|exact Hall].
      unfold descending. lra.
Qed.

Lemma sort_desc_perm (l : list A) : sort_desc key l ≡ₚ l.
Proof.
  induction l as [|x l IH]; simpl; [done|].
  by rewrite insert_desc_perm, IH.
Qed.

Lemma sort_desc_sorted (l : list A) :
  StronglySorted (descending key) (sort_desc key l).
Proof.
  induction l as [|x l IH]; simpl; [constructor|].
  by apply insert_desc_sorted.
Qed.

End Sorting.

Lemma StronglySorted_lookup {A} (R : relation A) (l : list A) i j a b :
  StronglySorted R l -> (i < j)%nat ->
  l !! i = Some a -> l !! j = Some b -> R a b.
Proof.
  intros Hs Hij Ha Hb.
  rewrite <- (take_drop j l) in Hs.
  eapply StronglySorted_app_1_elem_of; [exact Hs| |].
  - apply list_elem_of_lookup. exists i. by rewrite lookup_take_lt.
  - apply list_elem_of_lookup. exists 0%nat. rewrite lookup_drop.
    by rewrite Nat.add_0_r.
Qed.

(** Resolving a list of references that is sorted by the score found in the
    store gives a list of collisions sorted by their own score. *)
Lemma resolve_sorted (store : list Collision) (refs : list nat) :
  StronglySorted (descending (score_of store)) refs ->
  StronglySorted (descending (fun c => default 0%Q (severity_score c)))
    (resolve store refs).
Proof.
  unfold resolve.
  induction 1 as [|r refs Hs IH Hall]; simpl; [constructor|].
  destruct (store !! r) as [c|] eqn:Er; [|exact IH].
  constructor; [exact IH|].
  apply Forall_forall. intros c2 Hc2.
  apply list_elem_of_omap in Hc2 as (r2 & Hr2 & Hl2).
  rewrite Forall_forall in Hall.
  specialize (Hall r2 Hr2).
  unfold descending, score_of in *. by rewrite Er, Hl2 in Hall.
Qed.

Lemma StronglySorted_ext {A} (R R' : relation A) (l : list A) :
  (forall a b, R a b -> R' a b) -> StronglySorted R l -> StronglySorted R' l.
Proof.
  intros HR. induction 1 as [|x l Hs IH Hall]; constructor; [exact IH|].
  eapply Forall_impl; [exact Hall|]. intros y. apply HR.
Qed.

Section Preservation.
Context {RT : PyRuntime}.

Lemma mitigate_kept customers invoices available (c c' : Collision) :
  mitigate customers invoices available c = Ok c' -> kept c' = kept c.
Proof.
  unfold mitigate. destruct (collect _ _ _ _); simpl; [|discriminate].
  intros H. inversion H; subst. reflexivity.
Qed.

Lemma mitigate_all_kept customers invoices available (refs : list nat) :
  forall store store',
    mitigate_all customers invoices available refs store = Ok store' ->
    forall r, kept <$> store' !! r = kept <$> store !! r.
Proof.
  induction refs as [|r0 refs IH]; intros store store' H r; simpl in H.
  - by inversion H.
  - destruct (store !! r0) as [c0|] eqn:E0; [|by apply IH].
    destruct (mitigate customers invoices available c0) as [c0'|] eqn:Em;
      simpl in H; [|discriminate].
    rewrite (IH _ _ H r).
    destruct (decide (r = r0)) as [->|Hne].
    + rewrite list_lookup_insert_eq by (by eapply lookup_lt_Some).
      rewrite E0. simpl. f_equal. by eapply mitigate_kept.
    + by rewrite list_lookup_insert_ne.
Qed.

(** What [generate_mitigation] leaves as it is, whenever it returns. *)
Lemma generate_mitigation_kept (w : World) (state state' : State) :
  in_error state = false ->
  generate_mitigation w state = Ok state' ->
  collisions state' = Some (default [] (collisions state))
  /\ error state' = None
  /\ first_collision state' = first_collision state
  /\ collision_count state' = collision_count state
  /\ available_credit state' = available_credit state
  /\ forall r, kept <$> objects state' !! r = kept <$> objects state !! r.
Proof.
  intros Herr. unfold generate_mitigation. rewrite Herr.
  destruct (fetched w) as [cs invs].
  destruct (mitigate_all cs invs _ _ _) as [store'|] eqn:Eall; simpl;
    [|discriminate].
  intros H. inversion H; subst; clear H. simpl.
  rewrite (update_all_id numeric_fields numeric_fields_id).
  unfold in_error in Herr. destruct (error state); [discriminate|].
  repeat split; try done.
  by eapply mitigate_all_kept.
Qed.

(** The state after detection and scoring. *)
Lemma analyzed (w : World) (state : State) :
  in_error state = false ->
  let found := found_from w (default ∅ (mandatory_expenses state))
                 (default 0%Q (minimum_balance state))
                 (default 0%Q (available_credit state)) 0
                 (default [] (forecast state)) in
  let refs := seq (length (objects state)) (length found) in
  let state' := analyze_severity (detect_collisions w state) in
  in_error state' = false
  /\ objects state' = update_all assess refs (objects state ++ found)
  /\ collisions state' = Some (sort_desc (score_of (objects state')) refs)
  /\ first_collision state' = Some (head refs)
  /\ collision_count state' = Some (length found)
  /\ available_credit state' = available_credit state.
Proof.
  intros Herr found refs state'. subst state'.
  unfold analyze_severity, detect_collisions, in_error in *.
  destruct (error state) eqn:E; [discriminate|]. simpl.
  rewrite E. simpl. rewrite scan_found. simpl.
  fold found. fold refs.
  repeat split; try done.
  - by rewrite E.
  - unfold refs. by rewrite length_seq.
Qed.

(** After detection and scoring, every listed reference holds a scored
    collision. *)
Lemma analyzed_lookup (w : World) (state : State) (r : nat) :
  in_error state = false ->
  let found := found_from w (default ∅ (mandatory_expenses state))
                 (default 0%Q (minimum_balance state))
                 (default 0%Q (available_credit state)) 0
                 (default [] (forecast state)) in
  let state' := analyze_severity (detect_collisions w state) in
  r ∈ seq (length (objects state)) (length found) ->
  exists c, found !! (r - length (objects state))%nat = Some c
            /\ objects state' !! r = Some (assess c).
Proof.
  intros Herr found state' Hr.
  destruct (analyzed w state Herr) as (_ & Hobj & _).
  fold found in Hobj. fold state' in Hobj. rewrite Hobj.
  rewrite (update_all_lookup assess assess_idem).
  destruct (decide _) as [_|Hn]; [|done].
  apply elem_of_seq in Hr as [Hlo Hhi].
  rewrite lookup_app_r by lia.
  destruct (found !! (r - length (objects state))%nat) as [c|] eqn:E.
  - exists c. done.
  - apply lookup_ge_None in E. lia.
Qed.

End Preservation.

(** *** The pipeline *)

Section PassThrough.
Context {RT : PyRuntime}.
Variable w : World.
Variable state : State.
Variable msg : string.
Hypothesis sentinel : error state = Some msg.

Lemma in_error_sentinel : in_error state = true.
Proof using sentinel. unfold in_error. by rewrite sentinel. Qed.

Lemma get_forecast_pass : get_forecast w state = state.
Proof using sentinel. unfold get_forecast. by rewrite in_error_sentinel. Qed.

Lemma get_mandatory_expenses_pass : get_mandatory_expenses w state = state.
Proof using sentinel.
  unfold get_mandatory_expenses. by rewrite in_error_sentinel.
Qed.

Lemma get_credit_limits_pass : get_credit_limits w state = state.
Proof using sentinel. unfold get_credit_limits. by rewrite in_error_sentinel. Qed.

Lemma detect_collisions_pass : detect_collisions w state = state.
Proof using sentinel. unfold detect_collisions. by rewrite in_error_sentinel. Qed.

Lemma analyze_severity_pass : analyze_severity state = state.
Proof using sentinel. unfold analyze_severity. by rewrite in_error_sentinel. Qed.

Lemma generate_mitigation_pass : generate_mitigation w state = Ok state.
Proof using sentinel.
  unfold generate_mitigation. by rewrite in_error_sentinel.
Qed.

Lemma prepare_output_error :
  prepare_output w state = Ok (set_output (Some (ErrorOutput msg)) state).
Proof using sentinel. unfold prepare_output. by rewrite sentinel. Qed.

End PassThrough.

#[export] Hint Resolve get_forecast_pass get_mandatory_expenses_pass
  get_credit_limits_pass detect_collisions_pass analyze_severity_pass
  generate_mitigation_pass prepare_output_error : sentinel.

Lemma run_error `{RT : PyRuntime} (w : World) (state0 : State) (msg : string) :
  error (fetch w state0) = Some msg ->
  run w state0 = Ok (set_output (Some (ErrorOutput msg)) (fetch w state0)).
Proof.
  intros H. unfold run.
  rewrite (detect_collisions_pass w _ msg H).
  rewrite (analyze_severity_pass _ msg H).
  rewrite (generate_mitigation_pass w _ msg H). cbn [bind].
  by apply prepare_output_error.
Qed.

(** A run that ends in a report went through detection, scoring and
    mitigation without error. *)
Lemma run_success `{RT : PyRuntime} (w : World) (state0 state : State)
    agent org report :
  run w state0 = Ok state ->
  output state = Some (Success agent org report) ->
  let s := analyze_severity (detect_collisions w (fetch w state0)) in
  in_error (fetch w state0) = false
  /\ exists s', generate_mitigation w s = Ok s'
       /\ error s' = None
       /\ prepare_output w s' = Ok state
       /\ collisions_91d report
          = resolve (objects s') (default [] (collisions s'))
       /\ report_first_collision report
          = match first_collision s' with
            | Some (Some r) => objects s' !! r
            | _ => None
            end
       /\ emergency_plan (available_credit s')
            (resolve (objects s') (default [] (collisions s')))
          = Ok (emergency_action_plan report).
Proof.
  intros Hrun Hout s.
  destruct (in_error (fetch w state0)) eqn:Herr.
  { unfold in_error in Herr.
    destruct (error (fetch w state0)) as [msg|] eqn:E; [|discriminate].
    rewrite (run_error w state0 msg E) in Hrun.
    inversion Hrun; subst. simpl in Hout. discriminate. }
  split; [reflexivity|].
  unfold run in Hrun. fold s in Hrun.
  destruct (generate_mitigation w s) as [s'|] eqn:Egen; simpl in Hrun;
    [|discriminate].
  exists s'. split; [reflexivity|].
  destruct (analyzed w (fetch w state0) Herr) as (Herr' & _).
  destruct (generate_mitigation_kept w s s' Herr' Egen) as (_ & Hnone & _).
  split; [exact Hnone|]. split; [exact Hrun|].
  unfold prepare_output in Hrun. rewrite Hnone in Hrun.
  destruct (emergency_plan _ _) as [plan|] eqn:Eplan; simpl in Hrun;
    [|discriminate].
  inversion Hrun; subst; clear Hrun. simpl in Hout.
  inversion Hout; subst; clear Hout. simpl.
  repeat split.
Qed.

(** C4. In every report that a run generates, [collisions_91d] is sorted by
    [severity_score], descending: every entry carries a score, and no entry
    comes before one with a higher score. The list of the report is the list
    that [analyze_severity] sorted, as [generate_mitigation] left it. *)
Theorem report_sorted_by_severity `{RT : PyRuntime}
    (w : World) (state0 state : State) agent org report :
  run w state0 = Ok state ->
  output state = Some (Success agent org report) ->
  forall i j a b, (i < j)%nat ->
    collisions_91d report !! i = Some a ->
    collisions_91d report !! j = Some b ->
    exists sa sb, severity_score a = Some sa
                  /\ severity_score b = Some sb
                  /\ (sb <= sa)%Q.
Proof.
  intros Hrun Hout.
  destruct (run_success w state0 state agent org report Hrun Hout)
    as (Herr & s' & Hgen & _ & _ & Hlist & _).
  set (s := analyze_severity (detect_collisions w (fetch w state0))) in *.
  destruct (analyzed w (fetch w state0) Herr) as (Herr' & _ & Hcol & _).
  fold s in Herr', Hcol.
  destruct (generate_mitigation_kept w s s' Herr' Hgen)
    as (Hcol' & _ & _ & _ & _ & Hkept).
  rewrite Hcol' in Hlist. rewrite Hcol in Hlist. simpl in Hlist.
  set (refs := seq _ _) in *.
  assert (Hscore : forall r, score_of (objects s') r = score_of (objects s) r).
  { intros r. unfold score_of. specialize (Hkept r).
    destruct (objects s' !! r) as [c'|], (objects s !! r) as [c|];
      simpl in Hkept; try done.
    inversion Hkept. congruence. }
  assert (Hsorted : StronglySorted
            (descending (fun c => default 0%Q (severity_score c)))
            (collisions_91d report)).
  { rewrite Hlist. apply resolve_sorted.
    eapply StronglySorted_ext; [|apply (sort_desc_sorted (score_of (objects s)))].
    intros x y Hxy. unfold descending in *. by rewrite !Hscore. }
  assert (Hsome : forall c, c ∈ collisions_91d report ->
                            is_Some (severity_score c)).
  { intros c Hc. rewrite Hlist in Hc.
    apply list_elem_of_omap in Hc as (r & Hr & Hl).
    rewrite sort_desc_perm in Hr.
    destruct (analyzed_lookup w (fetch w state0) r Herr Hr) as (c0 & _ & Hl0).
    fold s in Hl0. specialize (Hkept r). rewrite Hl, Hl0 in Hkept.
    simpl in Hkept. inversion Hkept as [Hk].
    match goal with H : severity_score c = _ |- _ => rewrite H end. eauto. }
  intros i j a b Hij Ha Hb.
  destruct (Hsome a) as [sa Hsa]; [by eapply list_elem_of_lookup_2|].
  destruct (Hsome b) as [sb Hsb]; [by eapply list_elem_of_lookup_2|].
  exists sa, sb. split; [done|]. split; [done|].
  pose proof (StronglySorted_lookup _ _ i j a b Hsorted Hij Ha Hb) as H.
  unfold descending in H. by rewrite Hsa, Hsb in H.
Qed.

(** The two stages that set the sentinel. *)
Lemma get_current_balance_raises `{RT : PyRuntime} (w : World) (state : State) e :
  summary w = Raise e -> error (get_current_balance w state) = Some e.
Proof. intros H. unfold get_current_balance. by rewrite H. Qed.

Lemma get_forecast_raises `{RT : PyRuntime} (w : World) (state : State) e :
  in_error state = false -> forecasting_agent w = Raise e ->
  error (get_forecast w state) = Some e.
Proof. intros Herr H. unfold get_forecast. by rewrite Herr, H. Qed.

(** C9. Once the error sentinel is set, [get_forecast],
    [get_mandatory_expenses], [get_credit_limits], [detect_collisions],
    [analyze_severity] and [generate_mitigation] return the state as it is,
    and [prepare_output] returns it with the output
    [{'status': 'error', 'message': msg}], [msg] being the sentinel; a run in
    which [get_current_balance] or [get_forecast] set the sentinel ends with
    that output, not with a report. *)
Theorem error_sentinel_short_circuits `{RT : PyRuntime}
    (w : World) (state : State) (msg : string) :
  error state = Some msg ->
  get_forecast w state = state
  /\ get_mandatory_expenses w state = state
  /\ get_credit_limits w state = state
  /\ detect_collisions w state = state
  /\ analyze_severity state = state
  /\ generate_mitigation w state = Ok state
  /\ prepare_output w state = Ok (set_output (Some (ErrorOutput msg)) state)
  /\ status (ErrorOutput msg) = "error"
  /\ forall state0,
       get_forecast w (get_current_balance w state0) = state ->
       exists final, run w state0 = Ok final
                     /\ output final = Some (ErrorOutput msg)
                     /\ error final = Some msg.
Proof.
  intros H.
  do 7 (split; [eauto with sentinel|]).
  split; [reflexivity|].
  intros state0 Hs.
  assert (Hf : fetch w state0 = state).
  { unfold fetch. rewrite Hs.
    rewrite (get_mandatory_expenses_pass w state msg H).
    by apply (get_credit_limits_pass w state msg). }
  exists (set_output (Some (ErrorOutput msg)) state).
  split; [|split; [reflexivity | exact H]].
  rewrite <- Hf. apply run_error. by rewrite Hf.
Qed.

(** The witness: no request answers, so that [get_current_balance] sets the
    sentinel. *)
Lemma error_sentinel_short_circuits_witness :
  let state := get_current_balance (RT := RefRuntime.runtime)
                 Examples.late_world (initial (PNum 1)) in
  error state = Some "unreachable"
  /\ detect_collisions (RT := RefRuntime.runtime) Examples.late_world state = state
  /\ exists final,
       run (RT := RefRuntime.runtime) Examples.late_world (initial (PNum 1))
       = Ok final
       /\ output final = Some (ErrorOutput "unreachable").
Proof.
  intros state.
  assert (H : error state = Some "unreachable") by reflexivity.
  destruct (error_sentinel_short_circuits (RT := RefRuntime.runtime)
              Examples.late_world state "unreachable" H)
    as (_ & _ & _ & Hd & _ & _ & _ & _ & Hrun).
  split; [exact H|]. split; [exact Hd|].
  destruct (Hrun (initial (PNum 1))) as (final & Hf & Ho & _); [reflexivity|].
  exists final. by split.
Defined.

(** The witness of C2: the run of [Examples.busy_world]. The second and the
    third forecast day are below the minimum balance. *)
Lemma detect_collisions_records_deficits_witness :
  in_error Examples.busy_fetched = false
  /\ exists c, c ∈ resolve
                 (objects (detect_collisions (RT := RefRuntime.runtime)
                             Examples.busy_world Examples.busy_fetched))
                 (default [] (collisions
                    (detect_collisions (RT := RefRuntime.runtime)
                       Examples.busy_world Examples.busy_fetched)))
               /\ collision_date c = "2025-01-03"
               /\ (balance_after_mandatory c == 899999950)%Q.
Proof.
  split; [by_evaluation|].
  assert (Herr : in_error Examples.busy_fetched = false)
    by by_evaluation.
  destruct (detect_collisions_records_deficits (RT := RefRuntime.runtime)
              Examples.busy_world Examples.busy_fetched Herr)
    as (Hall & _ & _).
  destruct (Hall 1%nat (Examples.day "2025-01-03" 900000000))
    as (c & Hin & Hd & Hb);
    [vm_compute; reflexivity | vm_compute; reflexivity |].
  exists c. split; [exact Hin|]. split.
  - rewrite Hd. vm_compute. reflexivity.
  - rewrite Hb. vm_compute. reflexivity.
Defined.

(** The witness of C4: the report of the run of [Examples.busy_world] lists
    the collision of 2025-01-04 before that of 2025-01-03. *)
Lemma report_sorted_by_severity_witness :
  exists report a b sa sb,
    run (RT := RefRuntime.runtime) Examples.busy_world (initial (PNum 1))
    = Ok Examples.busy_final
    /\ output Examples.busy_final = Some (Success agent_id (PNum 1) report)
    /\ collisions_91d report !! 0%nat = Some a
    /\ collisions_91d report !! 1%nat = Some b
    /\ severity_score a = Some sa
    /\ severity_score b = Some sb
    /\ (sb <= sa)%Q.
Proof.
  destruct Examples.busy_report as [report|] eqn:Hrep;
    [|vm_compute in Hrep; discriminate Hrep].
  destruct (collisions_91d report !! 0%nat) as [a|] eqn:Ha;
    [|vm_compute in Hrep; inversion Hrep; subst; discriminate Ha].
  destruct (collisions_91d report !! 1%nat) as [b|] eqn:Hb;
    [|vm_compute in Hrep; inversion Hrep; subst; discriminate Hb].
  assert (Hout : output Examples.busy_final
                 = Some (Success agent_id (PNum 1) report)).
  { vm_compute in Hrep. inversion Hrep as [Hr]. vm_compute. reflexivity. }
  assert (Hrun : run (RT := RefRuntime.runtime) Examples.busy_world
                   (initial (PNum 1)) = Ok Examples.busy_final)
    by by_evaluation.
  destruct (report_sorted_by_severity (RT := RefRuntime.runtime)
              Examples.busy_world (initial (PNum 1)) Examples.busy_final
              agent_id (PNum 1) report Hrun Hout 0%nat 1%nat a b)
    as (sa & sb & Hsa & Hsb & Hle);
    [lia | exact Ha | exact Hb |].
  exists report, a, b, sa, sb.
  exact (conj Hrun (conj Hout (conj Ha (conj Hb
           (conj Hsa (conj Hsb Hle)))))).
Defined.


(** C7, the failing input. The list of mandatory words has "emf" where the
    specification has "emi": a bill of category "EMI" is not mandatory, with
    any runtime it leaves the buckets as they are, and the run that receives
    only that bill has no mandatory expense at all. *)
Lemma emi_bill_is_not_mandatory :
  let state := get_mandatory_expenses (RT := RefRuntime.runtime)
                 Examples.emi_world (initial (PNum 1)) in
  contains "emi" (lower "EMI") = true
  /\ is_mandatory (lower "EMI") = false
  /\ is_mandatory "emf" = true
  /\ (forall (RT : PyRuntime) buckets bill,
        Bill.expense_category bill = None ->
        Bill.category bill = Some (PStr "EMI") ->
        add_bill buckets bill = Ok buckets)
  /\ mandatory_expenses state = Some ∅
  /\ total_mandatory_91d state = Some 0%Q.
Proof.
  intros state.
  split; [reflexivity|]. split; [reflexivity|]. split; [reflexivity|].
  split.
  - intros RT buckets bill He Hc. unfold add_bill. rewrite He, Hc.
    cbn [get_default py_or truthy String.eqb negb py_lower bind].
    by destruct (_parse_date _).
  - split; by_evaluation.
Qed.

(** *** The first collision and the head of the list *)

Section FirstFound.
Context {RT : PyRuntime}.
Variable w : World.
Variable mandatory : gmap string Bucket.t.
Variables minimum credit : Q.

(** The first collision found comes from the first forecast day below the
    minimum balance. *)
Lemma found_from_head forecast : forall i c0 rest,
  found_from w mandatory minimum credit i forecast = c0 :: rest ->
  exists pre item post,
    forecast = (pre ++ item :: post)%list
    /\ Forall (fun x => examine w mandatory minimum credit
                          (i + length pre) x = None
                        /\ forall k, examine w mandatory minimum credit k x = None)
              pre
    /\ examine w mandatory minimum credit (i + length pre) item = Some c0.
Proof.
  induction forecast as [|x forecast IH]; intros i c0 rest H; simpl in H;
    [discriminate|].
  destruct (examine w mandatory minimum credit i x) as [c|] eqn:E.
  - inversion H; subst. exists [], x, forecast. simpl.
    rewrite Nat.add_0_r. by repeat split.
  - destruct (IH _ _ _ H) as (pre & item & post & -> & Hpre & Hitem).
    exists (x :: pre), item, post. simpl.
    rewrite <- plus_n_Sm. split; [done|]. split; [|done].
    assert (Hnone : forall k, examine w mandatory minimum credit k x = None).
    { intros k. revert E. unfold examine.
      by destruct (Qlt_bool _ minimum). }
    constructor; [by split|].
    eapply Forall_impl; [exact Hpre|]. intros y [_ Hy]. by split.
Qed.


End FirstFound.




(** The report of a run, in terms of the collisions that detection found. *)
Lemma run_report_shape `{RT : PyRuntime} (w : World) (state0 state : State)
    agent org report :
  run w state0 = Ok state ->
  output state = Some (Success agent org report) ->
  let s4 := fetch w state0 in
  let found := found_from w (default ∅ (mandatory_expenses s4))
                 (default 0%Q (minimum_balance s4))
                 (default 0%Q (available_credit s4)) 0
                 (default [] (forecast s4)) in
  (forall c, c ∈ collisions_91d report ->
     exists cm, cm ∈ found /\ kept c = kept (assess cm))
  /\ match found with
     | [] => report_first_collision report = None
     | c0 :: _ =>
         exists c, report_first_collision report = Some c
                   /\ c ∈ collisions_91d report
                   /\ kept c = kept (assess c0)
     end
  /\ (exists available,
        emergency_plan available (collisions_91d report)
        = Ok (emergency_action_plan report))
  /\ StronglySorted (descending (fun c => default 0%Q (severity_score c)))
       (collisions_91d report).
Proof.
  intros Hrun Hout s4 found.
  destruct (run_success w state0 state agent org report Hrun Hout)
    as (Herr & s' & Hgen & _ & _ & Hlist & Hfirst & Hplan).
  set (s := analyze_severity (detect_collisions w (fetch w state0))) in *.
  destruct (analyzed w (fetch w state0) Herr)
    as (Herr' & _ & Hcol & Hfc & _).
  fold s in Herr', Hcol, Hfc. fold s4 in Hcol, Hfc. fold found in Hcol, Hfc.
  destruct (generate_mitigation_kept w s s' Herr' Hgen)
    as (Hcol' & _ & Hfc' & _ & _ & Hkept).
  rewrite Hcol' in Hlist, Hplan. rewrite Hcol in Hlist, Hplan.
  simpl in Hlist, Hplan.
  rewrite Hfc', Hfc in Hfirst.
  set (refs := seq (length (objects s4)) (length found)) in *.
  assert (Hscore : forall r, score_of (objects s') r = score_of (objects s) r).
  { intros r. unfold score_of. specialize (Hkept r).
    destruct (objects s' !! r) as [c'|], (objects s !! r) as [c|];
      simpl in Hkept; try done.
    inversion Hkept. congruence. }
  assert (Href : forall r, r ∈ refs ->
            exists cm c, found !! (r - length (objects s4))%nat = Some cm
                         /\ objects s' !! r = Some c
                         /\ kept c = kept (assess cm)).
  { intros r Hr.
    destruct (analyzed_lookup w (fetch w state0) r Herr Hr) as (cm & Hcm & Hl).
    fold s in Hl. specialize (Hkept r). rewrite Hl in Hkept.
    destruct (objects s' !! r) as [c|]; simpl in Hkept; [|discriminate].
    exists cm, c. split; [exact Hcm|]. split; [done|]. congruence. }
  split; [|split; [|split]].
  - intros c Hc. rewrite Hlist in Hc.
    apply list_elem_of_omap in Hc as (r & Hr & Hl).
    rewrite sort_desc_perm in Hr.
    destruct (Href r Hr) as (cm & c' & Hcm & Hl' & Hk).
    exists cm. split; [by eapply list_elem_of_lookup_2|]. congruence.
  - destruct found as [|c0 rest] eqn:Ef.
    + subst refs. simpl in Hfirst. exact Hfirst.
    + assert (Hin : length (objects s4) ∈ refs).
      { subst refs. simpl. apply elem_of_cons. by left. }
      destruct (Href _ Hin) as (cm & c & Hcm & Hl & Hk).
      rewrite Nat.sub_diag in Hcm. simpl in Hcm. inversion Hcm; subst cm.
      exists c. subst refs. simpl in Hfirst. rewrite Hfirst.
      split; [exact Hl|]. split; [|exact Hk].
      rewrite Hlist. apply list_elem_of_omap.
      exists (length (objects s4)). split; [|exact Hl].
      rewrite sort_desc_perm. simpl. apply elem_of_cons. by left.
  - exists (available_credit s'). by rewrite Hlist.
  - rewrite Hlist. apply resolve_sorted.
    eapply StronglySorted_ext; [|apply (sort_desc_sorted (score_of (objects s)))].
    intros x y Hxy. unfold descending in *. by rewrite !Hscore.
Qed.




End CollisionProps.

(** ** Forecast agent *)

Module ForecastProps.
Import Py Forecast.

Lemma Qplus_0_r_eq (q : Q) : (q + 0)%Q = q.
Proof. destruct q as [n d]. unfold Qplus. simpl. f_equal; lia. Qed.

Lemma Qminus_0_r_eq (q : Q) : (q - 0)%Q = q.
Proof. destruct q as [n d]. unfold Qminus, Qplus. simpl. f_equal; lia. Qed.

Section Loading.
Context {RT : PyRuntime}.

(** A record whose date does not parse leaves the map as it is. *)
Lemma aggregate_one_no_date (date_map : gmap Z Q) (p : Payment) :
  payment_day p = None -> aggregate_one date_map p = Ok date_map.
Proof. intros H. unfold aggregate_one. by rewrite H. Qed.

Lemma aggregate_app (pre post : list Payment) : forall date_map,
  aggregate date_map (pre ++ post)
  = bind (aggregate date_map pre) (fun m => aggregate m post).
Proof.
  induction pre as [|x pre IH]; intros date_map; simpl; [done|].
  destruct (aggregate_one date_map x); simpl; [apply IH|done].
Qed.

Lemma payment_amt_unparsable (p : Payment) :
  amt_unparsable p -> payment_amt p = 0%Q.
Proof.
  intros [Hf Hs]. unfold payment_amt.
  destruct (py_float (raw_amt p)) as [q|] eqn:E; [by destruct (Hf q)|].
  by rewrite Hs.
Qed.

Lemma entered_default d m1 m2 k :
  entered d m1 m2 -> default 0%Q (m1 !! k) = default 0%Q (m2 !! k).
Proof.
  intros [Hd Hk]. destruct (decide (k = d)) as [->|Hne].
  - by rewrite Hd.
  - by rewrite Hk.
Qed.

Lemma entered_insert d m1 m2 e v :
  entered d m1 m2 -> entered d (<[e := v]> m1) (<[e := v]> m2).
Proof.
  intros [Hd Hk]. split.
  - destruct (decide (e = d)) as [->|Hne].
    + by rewrite !lookup_insert_eq.
    + by rewrite !lookup_insert_ne.
  - intros k Hne. destruct (decide (e = k)) as [->|Hne'].
    + by rewrite !lookup_insert_eq.
    + rewrite !lookup_insert_ne by done. by apply Hk.
Qed.

(** A record with an unreadable amount enters its day with a change of 0. *)
Lemma aggregate_one_no_amount (date_map : gmap Z Q) (p : Payment) d t :
  payment_day p = Some d -> amt_unparsable p -> payment_ptype p = Ok t ->
  exists m, aggregate_one date_map p = Ok m /\ entered d m date_map.
Proof.
  intros Hd Ha Ht. unfold aggregate_one. rewrite Hd, Ht.
  rewrite (payment_amt_unparsable p Ha). simpl.
  assert (Hadd : entered d (add_to date_map d 0) date_map).
  { unfold add_to. rewrite Qplus_0_r_eq. split.
    - by rewrite lookup_insert_eq.
    - intros k Hk. by rewrite lookup_insert_ne. }
  assert (Hsub : entered d (sub_from date_map d 0) date_map).
  { unfold sub_from. rewrite Qminus_0_r_eq. split.
    - by rewrite lookup_insert_eq.
    - intros k Hk. by rewrite lookup_insert_ne. }
  case_conditions; eauto.
Qed.

(** The same record, read into two maps of which one has a day entered. *)
Lemma aggregate_one_entered d (m1 m2 : gmap Z Q) (p : Payment) :
  entered d m1 m2 ->
  match aggregate_one m1 p, aggregate_one m2 p with
  | Ok m1', Ok m2' => entered d m1' m2'
  | Raise e1, Raise e2 => e1 = e2
  | _, _ => False
  end.
Proof.
  intros He. unfold aggregate_one.
  destruct (payment_day p) as [parsed|]; [|done].
  destruct (payment_ptype p) as [t|]; cbn [bind]; [|done].
  unfold add_to, sub_from. rewrite !(entered_default d m1 m2 parsed He).
  case_conditions; by apply entered_insert.
Qed.

Lemma aggregate_entered d (ps : list Payment) : forall m1 m2,
  entered d m1 m2 ->
  match aggregate m1 ps, aggregate m2 ps with
  | Ok m1', Ok m2' => entered d m1' m2'
  | Raise e1, Raise e2 => e1 = e2
  | _, _ => False
  end.
Proof.
  induction ps as [|p ps IH]; intros m1 m2 He; simpl; [done|].
  pose proof (aggregate_one_entered d m1 m2 p He) as H1.
  destruct (aggregate_one m1 p), (aggregate_one m2 p); simpl; try done.
  by apply IH.
Qed.

End Loading.

(** C8, as stated, fails for the amount: a record whose amount does not
    parse is read with the amount 0 and still enters its day. Two days of
    history being required, an inflow of 500 on 2025-01-01 and a record of
    2025-01-02 with the amount "abc" load as two days, with the net changes
    500 and 0; the inflow alone is refused as insufficient history. *)
Lemma unparsable_amount_counts_as_a_day :
  payment_day (RT := RefRuntime.runtime) ForecastExamples.bad_amount = Some 739253
  /\ amt_unparsable (RT := RefRuntime.runtime) ForecastExamples.bad_amount
  /\ (exists st hd,
        load_historical_data (RT := RefRuntime.runtime) ForecastExamples.two_days
          (inr [ForecastExamples.good; ForecastExamples.bad_amount])
          (initial (PNum 1)) = Ok st
        /\ error st = None
        /\ historical_data st = Some hd
        /\ record_count hd = 2%nat
        /\ dates hd = [739252; 739253]
        /\ net_changes hd = [500; 0]%Q)
  /\ (exists st,
        load_historical_data (RT := RefRuntime.runtime) ForecastExamples.two_days
          (inr [ForecastExamples.good]) (initial (PNum 1)) = Ok st
        /\ error st = Some "Insufficient historical data").
Proof.
  split; [by_evaluation|]. split.
  { split; [intros q H; vm_compute in H; discriminate H | vm_compute; reflexivity]. }
  split.
  - do 2 eexists. split; [by_evaluation|]. simpl. repeat split.
  - eexists. split; [by_evaluation|]. reflexivity.
Qed.

(** C8, amended. While the payments are aggregated, a record whose date does
    not parse is skipped: the map of the days is the one obtained without
    the record, so that it adds nothing to any net change nor to the count
    of the days. A record whose date parses and whose amount does not parse
    is not skipped: it is read with the amount 0, adds nothing to the net
    change of any day, and its date is a day of the map (it counts as a day
    even when no other record falls on that date). *)
Theorem unparsable_payments `{RT : PyRuntime}
    (date_map : gmap Z Q) (pre post : list Payment) (p : Payment) :
  (payment_day p = None ->
   aggregate date_map (pre ++ p :: post) = aggregate date_map (pre ++ post))
  /\ (forall (d : Z) t,
        payment_day p = Some d -> amt_unparsable p -> payment_ptype p = Ok t ->
        match aggregate date_map (pre ++ p :: post),
              aggregate date_map (pre ++ post) with
        | Ok m1, Ok m2 =>
            (forall k, default 0%Q (m1 !! k) = default 0%Q (m2 !! k))
            /\ is_Some (m1 !! d)
            /\ (forall k, k <> d -> m1 !! k = m2 !! k)
        | Raise e1, Raise e2 => e1 = e2
        | _, _ => False
        end).
Proof.
  split.
  - intros Hd. rewrite !aggregate_app. simpl.
    destruct (aggregate date_map pre) as [m|]; simpl; [|done].
    by rewrite (aggregate_one_no_date m p Hd).
  - intros d t Hd Ha Ht. rewrite !aggregate_app. simpl.
    destruct (aggregate date_map pre) as [m|]; simpl; [|done].
    destruct (aggregate_one_no_amount m p d t Hd Ha Ht) as (m' & Hm' & He).
    rewrite Hm'. simpl.
    pose proof (aggregate_entered d post m' m He) as H.
    destruct (aggregate m' post) as [m1|], (aggregate m post) as [m2|];
      try done.
    split; [intros k; by eapply entered_default|].
    destruct H as [H1 H2]. split; [by rewrite H1|exact H2].
Qed.

(** The witness: after the inflow of 2025-01-01, a record with the date
    "yesterday" is skipped, one with the amount "abc" enters 2025-01-02. *)
Lemma unparsable_payments_witness :
  aggregate (RT := RefRuntime.runtime) ∅
    [ForecastExamples.good; ForecastExamples.bad_date]
  = aggregate (RT := RefRuntime.runtime) ∅ [ForecastExamples.good]
  /\ exists m1,
       aggregate (RT := RefRuntime.runtime) ∅
         [ForecastExamples.good; ForecastExamples.bad_amount] = Ok m1
       /\ is_Some (m1 !! 739253).
Proof.
  split.
  - apply (proj1 (unparsable_payments (RT := RefRuntime.runtime) ∅
                    [ForecastExamples.good] [] ForecastExamples.bad_date)).
    vm_compute. reflexivity.
  - pose proof (proj2 (unparsable_payments (RT := RefRuntime.runtime) ∅
                         [ForecastExamples.good] [] ForecastExamples.bad_amount)
                  739253 "inflow") as H.
    simpl app in H.
    destruct (aggregate (RT := RefRuntime.runtime) ∅
                [ForecastExamples.good; ForecastExamples.bad_amount])
      as [m1|] eqn:E1.
    + exists m1. split; [reflexivity|].
      destruct (aggregate (RT := RefRuntime.runtime) ∅ [ForecastExamples.good])
        as [m2|] eqn:E2.
      * apply H.
        -- vm_compute. reflexivity.
        -- split; [intros q Hq; vm_compute in Hq; discriminate Hq
                  | vm_compute; reflexivity].
        -- vm_compute. reflexivity.
      * vm_compute in E2. discriminate E2.
    + vm_compute in E1. discriminate E1.
Defined.

Section Forecasting.
Context {RT : PyRuntime}.
Variable model : list Q -> Q.
Variable state : State.
Variable net_changes : list Q.
Variable last_date : Z.
Hypothesis residuals_ok : residuals_defined state.

(** One day of the forecast. *)
Lemma forecast_day_spec (acc : Loop) (off : Z) :
  1 <= last_date + (off + 1) <= MAXORDINAL ->
  exists c d,
    forecast_day model state net_changes last_date acc off
    = Ok {| current_balance := (current_balance acc + c)%Q;
            changes := changes acc ++ [c];
            results := results acc ++ [d] |}
    /\ date d = strftime_ymd (last_date + (off + 1))
    /\ predicted_balance d = round2 (current_balance acc + c)
    /\ daily_change d = round2 c.
Proof using residuals_ok.
  intros Hrange. unfold forecast_day.
  rewrite (BuiltinProps.date_add_in_range _ _ Hrange). cbn [bind].
  unfold residuals_defined in residuals_ok.
  destruct (X_val state) as [[|x xs]|]; cbn [bind];
    try (do 2 eexists; split; [reflexivity|]; by repeat split).
  destruct (y_val state) as [y|]; [|done].
  unfold residuals. apply Nat.eqb_eq in residuals_ok.
  rewrite residuals_ok. cbn [bind].
  do 2 eexists. split; [reflexivity|]. by repeat split.
Qed.

(** The days of the forecast, one after the other. *)
Lemma forecast_loop_spec (offsets : list Z) : forall acc,
  Forall (fun off => 1 <= last_date + (off + 1) <= MAXORDINAL) offsets ->
  exists out cs ds,
    forecast_loop model state net_changes last_date acc offsets = Ok out
    /\ changes out = (changes acc ++ cs)%list
    /\ results out = (results acc ++ ds)%list
    /\ length cs = length offsets
    /\ length ds = length offsets
    /\ forall i off, offsets !! i = Some off ->
         exists day change,
           ds !! i = Some day /\ cs !! i = Some change
           /\ date day = strftime_ymd (last_date + (off + 1))
           /\ predicted_balance day
              = round2 (fold_left Qplus (take (S i) cs) (current_balance acc))
           /\ daily_change day = round2 change.
Proof using residuals_ok.
  induction offsets as [|off offsets IH]; intros acc Hall; simpl.
  - exists acc, [], []. rewrite !app_nil_r. repeat split; done.
  - inversion Hall as [|? ? Hoff Hrest]; subst.
    destruct (forecast_day_spec acc off Hoff) as (c & d & Hday & Hd & Hp & Hc).
    rewrite Hday. cbn [bind].
    destruct (IH {| current_balance := (current_balance acc + c)%Q;
                    changes := changes acc ++ [c];
                    results := results acc ++ [d] |} Hrest)
      as (out & cs & ds & Hloop & Hcs & Hds & Hlc & Hld & Hi).
    simpl in Hcs, Hds, Hi.
    exists out, (c :: cs), (d :: ds).
    split; [exact Hloop|].
    split; [by rewrite Hcs, <- app_assoc|].
    split; [by rewrite Hds, <- app_assoc|].
    split; [simpl; by rewrite Hlc|]. split; [simpl; by rewrite Hld|].
    intros [|i] o Ho; simpl in Ho.
    + inversion Ho; subst. exists d, c. simpl. by repeat split.
    + destruct (Hi i o Ho) as (day & change & H1 & H2 & H3 & H4 & H5).
      exists day, change. simpl. by repeat split.
Qed.

End Forecasting.

Lemma range_lookup (n i : nat) :
  (i < n)%nat -> range n !! i = Some (Z.of_nat i).
Proof.
  intros H. unfold range. rewrite list_lookup_fmap.
  by rewrite lookup_seq_lt.
Qed.

(** C1, as stated, fails for the balance: an entry carries the running
    balance rounded to two decimals. With a balance of 500 on the last
    historical day, 2025-01-02, and a model that predicts a change of 0.001,
    the forecast has 91 entries and the entry of 2025-01-03 carries 500, not
    the running balance 500.001. *)
Lemma predicted_balance_is_rounded :
  generate_forecast (RT := RefRuntime.runtime) ForecastExamples.drizzle
    (Some [ForecastExamples.good]) ForecastExamples.loaded
  = Ok ForecastExamples.drizzled
  /\ balance_at (RT := RefRuntime.runtime) 739253 0 [ForecastExamples.good]
     = Ok 500%Q
  /\ length <$> forecast_results ForecastExamples.drizzled = Some 91%nat
  /\ forecast_results ForecastExamples.drizzled ≫= (fun f => f !! 0%nat)
     = Some {| date := "2025-01-03";
               predicted_balance := 50000 # 100;
               daily_change := 0 # 100;
               confidence_95 := 50000 # 100;
               confidence_5 := 50000 # 100;
               confidence_level := 95 # 100 |}
  /\ predicted_daily_changes ForecastExamples.drizzled ≫= (fun c => c !! 0%nat)
     = Some (1 # 1000)
  /\ ~ (50000 # 100 == 500 + (1 # 1000))%Q.
Proof.
  split; [by_evaluation|].
  split; [by_evaluation|].
  split; [by_evaluation|].
  split; [by_evaluation|].
  split; [by_evaluation|].
  intros H. vm_compute in H. discriminate H.
Qed.

(** C1, amended. For a state without error whose history is not empty and
    ends at least 91 days before the last date of the calendar, with an
    opening balance that is a number, payments whose type is text and
    residuals that can be computed, [generate_forecast] returns a forecast of
    exactly 91 entries. The dates of the entries are consecutive calendar
    days that start the day after the last historical date, and every entry
    carries as predicted balance the running balance after the predicted net
    change of its day was added, rounded to two decimals. *)
Theorem generate_forecast_91_days `{RT : PyRuntime} (model : list Q -> Q)
    (payments_all : option (list Payment)) (state : State)
    (hd : HistoricalData) (last_date : Z) (opening balance : Q) :
  has_error state = false ->
  historical_data state = Some hd ->
  last (dates hd) = Some last_date ->
  1 <= last_date -> last_date + 91 <= MAXORDINAL ->
  py_float (py_or (opening_balance state) (PNum 0)) = Ok opening ->
  balance_at last_date opening (default [] payments_all) = Ok balance ->
  residuals_defined state ->
  exists state' forecast changes,
    generate_forecast model payments_all state = Ok state'
    /\ forecast_results state' = Some forecast
    /\ predicted_daily_changes state' = Some changes
    /\ length forecast = 91%nat
    /\ length changes = 91%nat
    /\ forall i, (i < 91)%nat ->
         exists day change,
           forecast !! i = Some day
           /\ changes !! i = Some change
           /\ date day = strftime_ymd (last_date + (Z.of_nat i + 1))
           /\ predicted_balance day
              = round2 (fold_left Qplus (take (S i) changes) balance)
           /\ daily_change day = round2 change.
Proof.
  intros Herr Hhd Hlast Hlo Hhi Hopen Hbal Hres.
  unfold generate_forecast. rewrite Herr, Hhd. cbn [or_raise bind].
  rewrite Hlast. cbn [or_raise bind]. rewrite Hopen. cbn [bind].
  rewrite Hbal. cbn [bind].
  assert (Hall : Forall (fun off => 1 <= last_date + (off + 1) <= MAXORDINAL)
                   (range 91)).
  { apply Forall_forall. intros off Hoff.
    unfold range in Hoff. apply list_elem_of_fmap in Hoff as (n & -> & Hn).
    apply elem_of_seq in Hn. lia. }
  destruct (forecast_loop_spec model state (net_changes hd) last_date Hres
              (range 91)
              {| current_balance := balance; changes := []; results := [] |}
              Hall)
    as (out & cs & ds & Hloop & Hcs & Hds & Hlc & Hld & Hi).
  rewrite Hloop. cbn [bind]. simpl in Hcs, Hds, Hi.
  exists (
    {| org_id := org_id state; error := error state;
       current_step := "forecast_generated";
       partial_history := partial_history state;
       opening_balance := opening_balance state;
       historical_data := historical_data state;
       X_val := X_val state; y_val := y_val state;
       forecast_results := Some (results out);
       predicted_daily_changes := Some (changes out) |}), ds, cs.
  split; [by rewrite Hhd|]. simpl.
  split; [by rewrite Hds|]. split; [by rewrite Hcs|].
  assert (Hlen : length (range 91) = 91%nat) by reflexivity.
  split; [by rewrite Hld|]. split; [by rewrite Hlc|].
  intros i Hi91. apply (Hi i (Z.of_nat i)). by apply range_lookup.
Qed.

(** The witness: the forecast after the history that ends on 2025-01-02. *)
Lemma generate_forecast_91_days_witness :
  exists state' forecast day,
    generate_forecast (RT := RefRuntime.runtime) ForecastExamples.drizzle
      (Some [ForecastExamples.good]) ForecastExamples.loaded = Ok state'
    /\ forecast_results state' = Some forecast
    /\ length forecast = 91%nat
    /\ forecast !! 90%nat = Some day
    /\ date day = "2025-04-03".
Proof.
  destruct (generate_forecast_91_days (RT := RefRuntime.runtime)
              ForecastExamples.drizzle (Some [ForecastExamples.good])
              ForecastExamples.loaded
              {| dates := [739252; 739253];
                 net_changes := [1 # 1000; 1 # 1000]%Q;
                 record_count := 2;
                 start_date := Some 739252; end_date := Some 739253;
                 avg_daily_net := 1 # 1000; std_daily_net := 0 |}
              739253 0%Q 500%Q)
    as (state' & forecast & changes & Hgen & Hf & Hc & Hlen & _ & Hdays).
  - by_evaluation.
  - by_evaluation.
  - by_evaluation.
  - vm_compute. discriminate.
  - vm_compute. discriminate.
  - by_evaluation.
  - by_evaluation.
  - exact I.
  - destruct (Hdays 90%nat) as (day & change & Hday & _ & Hdate & _); [lia|].
    exists state', forecast, day.
    split; [exact Hgen|]. split; [exact Hf|]. split; [exact Hlen|].
    split; [exact Hday|].
    rewrite Hdate. vm_compute. reflexivity.
Defined.

End ForecastProps.

(** ** Rounding to two decimals *)

Module RoundingProps.
Import Py.

Lemma round_half_even_close (x : Q) :
  (inject_Z (round_half_even x) - x <= 1 # 2)%Q
  /\ (x - inject_Z (round_half_even x) <= 1 # 2)%Q.
Proof.
  unfold round_half_even.
  pose proof (Qfloor_le x) as Hlo.
  pose proof (Qlt_floor x) as Hhi.
  rewrite inject_Z_plus in Hhi.
  set (f := Qfloor x) in *.
  destruct (Qcompare_spec (x - inject_Z f) (1 # 2)) as [He|Hl|Hg];
    [destruct (Z.even f)| |]; rewrite ?inject_Z_plus;
    remember (inject_Z f) as y; unfold inject_Z in *; lra.
Qed.

Lemma round_half_even_mono (x y : Q) :
  (x <= y)%Q -> round_half_even x <= round_half_even y.
Proof.
  intros Hxy. unfold round_half_even.
  pose proof (Qfloor_resp_le x y Hxy) as Hf.
  pose proof (Qfloor_le x) as Hlx. pose proof (Qlt_floor x) as Hhx.
  pose proof (Qfloor_le y) as Hly. pose proof (Qlt_floor y) as Hhy.
  set (fx := Qfloor x) in *. set (fy := Qfloor y) in *.
  destruct (Z.eq_dec fx fy) as [E|E].
  - rewrite <- E in *. clear E Hf fy.
    destruct (Qcompare_spec (x - inject_Z fx) (1 # 2)) as [He|Hl|Hg];
    destruct (Qcompare_spec (y - inject_Z fx) (1 # 2)) as [He'|Hl'|Hg'];
    destruct (Z.even fx); try lia;
    exfalso; remember (inject_Z fx) as z; lra.
  - assert (fx + 1 <= fy) by lia.
    destruct (Qcompare_spec (x - inject_Z fx) (1 # 2));
    destruct (Qcompare_spec (y - inject_Z fy) (1 # 2));
    destruct (Z.even fx); destruct (Z.even fy); lia.
Qed.

Lemma round_half_even_Z (n : Z) : round_half_even (inject_Z n) = n.
Proof.
  unfold round_half_even. rewrite Qfloor_Z.
  destruct (Qcompare_spec (inject_Z n - inject_Z n) (1 # 2)) as [H|H|H];
    [exfalso|reflexivity|exfalso]; remember (inject_Z n) as z; lra.
Qed.

Lemma Qmake_100 (n : Z) : (Qmake n 100 == inject_Z n * (1 # 100))%Q.
Proof. unfold Qeq, Qmult, inject_Z. simpl. lia. Qed.

Lemma round2_close (x : Q) :
  (round2 x - x <= 1 # 200)%Q /\ (x - round2 x <= 1 # 200)%Q.
Proof.
  unfold round2. rewrite Qmake_100.
  destruct (round_half_even_close (x * 100)) as [H1 H2].
  remember (inject_Z (round_half_even (x * 100))) as n.
  split; lra.
Qed.

Lemma round2_mono (x y : Q) : (x <= y)%Q -> (round2 x <= round2 y)%Q.
Proof.
  intros H. unfold round2, Qle. simpl.
  apply Z.mul_le_mono_nonneg_r; [lia|].
  apply round_half_even_mono. lra.
Qed.

Lemma round2_cents (n : Z) : round2 (Qmake n 100) = Qmake n 100.
Proof.
  unfold round2. f_equal.
  rewrite <- (round_half_even_Z n) at 2.
  apply CollisionProps.round_half_even_proper.
  unfold Qeq, Qmult, inject_Z. simpl. lia.
Qed.

End RoundingProps.

(** ** Collision agent: the stages and the report *)

Module CollisionStages.
Import Py Collision CollisionInvariants.
Import CollisionProps RoundingProps.

(** *** Two runs on which the properties are instantiated *)

Lemma busy_run :
  exists report,
    run (RT := RefRuntime.runtime) Examples.busy_world (initial (PNum 1))
    = Ok Examples.busy_final
    /\ output Examples.busy_final = Some (Success agent_id (PNum 1) report)
    /\ collisions_91d report = Examples.busy_collisions.
Proof.
  destruct Examples.busy_report as [report|] eqn:Hrep;
    [|vm_compute in Hrep; discriminate Hrep].
  exists report. split; [by_evaluation|].
  unfold Examples.busy_collisions. rewrite Hrep. split; [|reflexivity].
  vm_compute in Hrep. injection Hrep as <-. by_evaluation.
Qed.

Lemma calm_run :
  exists report,
    run (RT := RefRuntime.runtime) Examples.calm_world (initial (PNum 1))
    = Ok Examples.calm_final
    /\ output Examples.calm_final = Some (Success agent_id (PNum 1) report)
    /\ collisions_91d report = Examples.calm_collisions.
Proof.
  destruct Examples.calm_report as [report|] eqn:Hrep;
    [|vm_compute in Hrep; discriminate Hrep].
  exists report. split; [by_evaluation|].
  unfold Examples.calm_collisions. rewrite Hrep. split; [|reflexivity].
  vm_compute in Hrep. injection Hrep as <-. by_evaluation.
Qed.

Lemma busy_second_reported (report : Report) :
  collisions_91d report = Examples.busy_collisions ->
  Examples.busy_second ∈ collisions_91d report.
Proof.
  intros ->. apply (list_elem_of_lookup_2 _ 1%nat). by_evaluation.
Qed.

Lemma calm_first_reported (report : Report) :
  collisions_91d report = Examples.calm_collisions ->
  Examples.calm_first ∈ collisions_91d report.
Proof.
  intros ->. apply (list_elem_of_lookup_2 _ 0%nat). by_evaluation.
Qed.

Lemma mem_elem_of (x : string) (l : list string) : mem x l = true <-> x ∈ l.
Proof.
  unfold mem. induction l as [|y l IH]; simpl.
  - split; [discriminate|intros H; inversion H].
  - rewrite orb_true_iff, IH, elem_of_cons, String.eqb_eq. tauto.
Qed.

Lemma bucket_ok_empty key : bucket_ok key Bucket.empty.
Proof.
  repeat split; simpl; try constructor.
  - intros H. inversion H.
  - intros (it & H & _). inversion H.
Qed.

Section Buckets.
Context {RT : PyRuntime}.

Lemma add_bill_inv (m m' : gmap string Bucket.t) (bill : Bill.t) :
  (forall key b, m !! key = Some b -> Bucket.items b <> [] /\ bucket_ok key b) ->
  add_bill m bill = Ok m' ->
  forall key b, m' !! key = Some b -> Bucket.items b <> [] /\ bucket_ok key b.
Proof.
  intros Hm. unfold add_bill.
  destruct (py_lower _) as [category|]; cbn [bind]; [|discriminate].
  destruct (_parse_date _) as [due|]; [|intros H; inversion H; subst; exact Hm].
  destruct (is_mandatory category) eqn:Hmand;
    [|intros H; inversion H; subst; exact Hm].
  intros H. inversion H; subst m'; clear H.
  intros key b. set (due_key := strftime_ymd due).
  destruct (decide (key = due_key)) as [->|Hne];
    [|rewrite lookup_insert_ne by done; apply Hm].
  rewrite lookup_insert_eq. intros Hb. inversion Hb; subst b; clear Hb.
  assert (H0 : bucket_ok due_key (default Bucket.empty (m !! due_key))).
  { destruct (m !! due_key) as [b0|] eqn:E; simpl;
      [apply (Hm _ _ E)|apply bucket_ok_empty]. }
  destruct H0 as (Htot & Hitems & Hnodup & Hcats).
  set (b0 := default Bucket.empty (m !! due_key)) in *.
  split; [simpl; by destruct (Bucket.items b0)|].
  unfold bucket_ok. simpl. repeat split.
  - rewrite map_app, fold_left_app. simpl. by rewrite Htot.
  - apply Forall_app. split; [exact Hitems|]. by repeat constructor.
  - destruct (mem category (Bucket.categories b0)) eqn:E; [exact Hnodup|].
    apply NoDup_app. split; [exact Hnodup|]. split; [|apply NoDup_singleton].
    intros x Hx Hx'. apply list_elem_of_singleton in Hx'. subst x.
    apply mem_elem_of in Hx. congruence.
  - intros Hc.
    destruct (mem category (Bucket.categories b0)) eqn:E.
    + apply Hcats in Hc as (it & Hit & Hcat). exists it.
      split; [apply elem_of_app; by left|done].
    + apply elem_of_app in Hc as [Hc|Hc].
      * apply Hcats in Hc as (it & Hit & Hcat). exists it.
        split; [apply elem_of_app; by left|done].
      * apply list_elem_of_singleton in Hc. subst cat.
        eexists. split; [apply elem_of_app; right; apply list_elem_of_singleton; reflexivity|done].
  - intros (it & Hit & Hcat).
    apply elem_of_app in Hit as [Hit|Hit].
    + assert (Hc : cat ∈ Bucket.categories b0) by (apply Hcats; eauto).
      destruct (mem category (Bucket.categories b0)); [done|].
      apply elem_of_app. by left.
    + apply list_elem_of_singleton in Hit. subst it. simpl in Hcat. subst cat.
      destruct (mem category (Bucket.categories b0)) eqn:E.
      * by apply mem_elem_of.
      * apply elem_of_app. right. by apply list_elem_of_singleton.
Qed.

Lemma add_bills_inv (bills : list Bill.t) : forall (m m' : gmap string Bucket.t),
  (forall key b, m !! key = Some b -> Bucket.items b <> [] /\ bucket_ok key b) ->
  add_bills m bills = Ok m' ->
  forall key b, m' !! key = Some b -> Bucket.items b <> [] /\ bucket_ok key b.
Proof.
  induction bills as [|bill bills IH]; intros m m' Hm; simpl.
  - intros H. inversion H; subst. exact Hm.
  - destruct (add_bill m bill) as [m1|] eqn:E; cbn [bind]; [|discriminate].
    apply IH. by eapply add_bill_inv.
Qed.

End Buckets.

Section Fetching.
Context {RT : PyRuntime}.
Variable w : World.

Lemma get_mandatory_expenses_error (state : State) :
  error (get_mandatory_expenses w state) = error state.
Proof.
  unfold get_mandatory_expenses. destruct (in_error state); [done|].
  by destruct (let* bills := bills_detail w in add_bills ∅ bills).
Qed.

Lemma get_credit_limits_error (state : State) :
  error (get_credit_limits w state) = error state.
Proof.
  unfold get_credit_limits. destruct (in_error state); [done|].
  match goal with |- context [match ?a with _ => _ end] => destruct a as [[l u]|] end; done.
Qed.

Lemma get_credit_limits_mandatory (state : State) :
  mandatory_expenses (get_credit_limits w state) = mandatory_expenses state
  /\ forecast (get_credit_limits w state) = forecast state
  /\ minimum_balance (get_credit_limits w state) = minimum_balance state
  /\ org_id (get_credit_limits w state) = org_id state
  /\ objects (get_credit_limits w state) = objects state.
Proof.
  unfold get_credit_limits. destruct (in_error state); [done|].
  match goal with |- context [match ?a with _ => _ end] => destruct a as [[l u]|] end; done.
Qed.

Lemma get_mandatory_expenses_buckets (state : State) (m : gmap string Bucket.t) :
  in_error state = false ->
  mandatory_expenses (get_mandatory_expenses w state) = Some m ->
  forall key b, m !! key = Some b -> Bucket.items b <> [] /\ bucket_ok key b.
Proof.
  intros Herr. unfold get_mandatory_expenses. rewrite Herr.
  destruct (bills_detail w) as [bills|]; cbn [bind].
  - destruct (add_bills ∅ bills) as [m0|] eqn:E; simpl; intros H; inversion H; subst.
    + eapply add_bills_inv; [|exact E]. intros key b Hb.
      rewrite lookup_empty in Hb. discriminate.
    + intros key b Hb. rewrite lookup_empty in Hb. discriminate.
  - simpl. intros H; inversion H; subst.
    intros key b Hb. rewrite lookup_empty in Hb. discriminate.
Qed.

End Fetching.

(** X1. Whatever the backend answers, the buckets that
    [get_mandatory_expenses] leaves in a state without error are consistent:
    a bucket has at least one item, its total is the sum of the amounts of
    its items, every item is a bill of a mandatory category that is due on
    the date of the bucket, and the categories of the bucket are those of
    its items, each listed once. *)
Theorem mandatory_buckets_consistent `{RT : PyRuntime} (w : World)
    (state : State) (m : gmap string Bucket.t) :
  in_error state = false ->
  mandatory_expenses (get_mandatory_expenses w state) = Some m ->
  forall key b, m !! key = Some b ->
    Bucket.items b <> []
    /\ Bucket.total b = fold_left Qplus (map Item.amount (Bucket.items b)) 0%Q
    /\ Forall (fun it => Item.due_date it = key
                         /\ is_mandatory (Item.category it) = true)
              (Bucket.items b)
    /\ NoDup (Bucket.categories b)
    /\ forall cat, cat ∈ Bucket.categories b <->
                   exists it, it ∈ Bucket.items b /\ Item.category it = cat.
Proof.
  intros Herr Hm key b Hb.
  exact (get_mandatory_expenses_buckets w state m Herr Hm key b Hb).
Qed.

Lemma mandatory_buckets_consistent_witness :
  in_error (initial (PNum 1)) = false
  /\ exists b,
       Bucket.items b <> []
       /\ Bucket.total b = fold_left Qplus (map Item.amount (Bucket.items b)) 0%Q
       /\ Bucket.categories b = ["loan"].
Proof.
  split; [reflexivity|].
  set (s := get_mandatory_expenses (RT := RefRuntime.runtime) Examples.busy_world
              (initial (PNum 1))).
  set (m := default ∅ (mandatory_expenses s)).
  set (b := default Bucket.empty (m !! "2025-01-03")).
  destruct (mandatory_buckets_consistent (RT := RefRuntime.runtime)
              Examples.busy_world (initial (PNum 1)) m eq_refl
              ltac:(vm_compute; reflexivity) "2025-01-03" b
              ltac:(vm_compute; reflexivity)) as (H1 & H2 & _).
  exists b. split; [exact H1|]. split; [exact H2|]. vm_compute. reflexivity.
Defined.

Lemma add_bills_raises `{RT : PyRuntime} (pre : list Bill.t) bad post e :
  py_lower (py_or (get_default (Bill.expense_category bad) (PStr ""))
                  (get_default (Bill.category bad) (PStr ""))) = Raise e ->
  forall m, exists e', add_bills m (pre ++ bad :: post)%list = Raise e'.
Proof.
  intros Hbad. induction pre as [|bill pre IH]; intros m; simpl.
  - unfold add_bill. rewrite Hbad. simpl. eauto.
  - destruct (add_bill m bill) as [m1|]; simpl; [apply IH|eauto].
Qed.

(** X2. One bill whose category is not text (a [null] category, say)
    discards the mandatory expenses of the whole run: [v.lower()] raises
    inside the [try] of [get_mandatory_expenses], the stage answers with an
    empty dictionary whatever the other bills are, leaves
    [total_mandatory_91d] and [current_step] as they were, and sets no
    error. *)
Theorem malformed_bill_discards_all_expenses `{RT : PyRuntime} (w : World)
    (state : State) (pre post : list Bill.t) (bad : Bill.t) (e : string) :
  in_error state = false ->
  bills_detail w = Ok (pre ++ bad :: post)%list ->
  py_lower (py_or (get_default (Bill.expense_category bad) (PStr ""))
                  (get_default (Bill.category bad) (PStr ""))) = Raise e ->
  let state' := get_mandatory_expenses w state in
  state' = set_mandatory_expenses (Some ∅) state
  /\ mandatory_expenses state' = Some ∅
  /\ total_mandatory_91d state' = total_mandatory_91d state
  /\ current_step state' = current_step state
  /\ in_error state' = false.
Proof.
  intros Herr Hbills Hbad state'.
  assert (H : state' = set_mandatory_expenses (Some ∅) state).
  { subst state'. unfold get_mandatory_expenses. rewrite Herr, Hbills. cbn [bind].
    destruct (add_bills_raises pre bad post e Hbad ∅) as [e' ->]. reflexivity. }
  rewrite H. repeat split. exact Herr.
Qed.

Lemma malformed_bill_discards_all_expenses_witness :
  let state' := get_mandatory_expenses (RT := RefRuntime.runtime)
                  Examples.null_bill_world (initial (PNum 1)) in
  bills_detail Examples.null_bill_world
  = Ok [Examples.loan_bill; Examples.null_bill]
  /\ mandatory_expenses state' = Some ∅
  /\ in_error state' = false.
Proof.
  destruct (malformed_bill_discards_all_expenses (RT := RefRuntime.runtime)
              Examples.null_bill_world (initial (PNum 1))
              [Examples.loan_bill] [] Examples.null_bill
              "object has no attribute 'lower'" eq_refl eq_refl eq_refl)
    as (_ & H1 & _ & _ & H2).
  exact (conj eq_refl (conj H1 H2)).
Defined.

Lemma examine_bills `{RT : PyRuntime} w (m : gmap string Bucket.t) minimum credit i item c :
  (forall key b, m !! key = Some b -> Bucket.items b <> [] /\ bucket_ok key b) ->
  examine w m minimum credit i item = Some c ->
  mandatory_expenses_ c = fold_left Qplus (map Item.amount (bills c)) 0%Q
  /\ Forall (fun it => Item.due_date it = collision_date c
                       /\ is_mandatory (Item.category it) = true) (bills c)
  /\ NoDup (expense_categories c)
  /\ (forall cat, cat ∈ expense_categories c <->
                  exists it, it ∈ bills c /\ Item.category it = cat)
  /\ balance_after_mandatory c = (predicted_balance c - mandatory_expenses_ c)%Q.
Proof.
  intros Hm H. unfold examine in H.
  destruct (Qlt_bool _ minimum) in H; [|discriminate].
  inversion H; subst; clear H. simpl. unfold mandatory_for.
  destruct (m !! fkey_of item) as [b|] eqn:E.
  - destruct (Hm _ _ E) as (_ & Htot & Hit & Hnd & Hcat). simpl.
    repeat split; try done; by apply Hcat.
  - simpl. repeat split; try constructor.
    + intros H. inversion H.
    + intros (it & H & _). inversion H.
Qed.

(** X3. A collision that [detect_collisions] records after
    [get_mandatory_expenses] and [get_credit_limits] carries the bills of
    its date: [mandatory_expenses] of the collision is the sum of the
    amounts of its [bills], every bill is a mandatory bill due on the
    collision date, [expense_categories] lists the categories of these
    bills once each, and [balance_after_mandatory] is the predicted balance
    minus the mandatory expenses. *)
Theorem collision_carries_its_bills `{RT : PyRuntime} (w : World) (state : State) :
  in_error state = false ->
  let s := detect_collisions w (get_credit_limits w (get_mandatory_expenses w state)) in
  forall c, c ∈ resolve (objects s) (default [] (collisions s)) ->
    mandatory_expenses_ c = fold_left Qplus (map Item.amount (bills c)) 0%Q
    /\ Forall (fun it => Item.due_date it = collision_date c
                         /\ is_mandatory (Item.category it) = true) (bills c)
    /\ NoDup (expense_categories c)
    /\ (forall cat, cat ∈ expense_categories c <->
                    exists it, it ∈ bills c /\ Item.category it = cat)
    /\ balance_after_mandatory c = (predicted_balance c - mandatory_expenses_ c)%Q.
Proof.
  intros Herr s c Hc. subst s.
  set (s2 := get_mandatory_expenses w state) in *.
  set (s3 := get_credit_limits w s2) in *.
  assert (Herr2 : in_error s2 = false).
  { unfold in_error in *. subst s2. by rewrite get_mandatory_expenses_error. }
  assert (Herr3 : in_error s3 = false).
  { unfold in_error in *. subst s3. by rewrite get_credit_limits_error. }
  rewrite (detect_collisions_recorded w s3 Herr3) in Hc.
  apply elem_of_found in Hc as (j & item & _ & Hex).
  eapply examine_bills; [|exact Hex].
  destruct (get_credit_limits_mandatory w s2) as (Hme & _). fold s3 in Hme.
  rewrite Hme.
  destruct (mandatory_expenses s2) as [m|] eqn:E; simpl.
  - by apply (get_mandatory_expenses_buckets w state m Herr).
  - intros key b Hb. rewrite lookup_empty in Hb. discriminate.
Qed.

Lemma collision_carries_its_bills_witness :
  exists c,
    collision_date c = "2025-01-03"
    /\ mandatory_expenses_ c = fold_left Qplus (map Item.amount (bills c)) 0%Q
    /\ Forall (fun it => Item.due_date it = collision_date c
                         /\ is_mandatory (Item.category it) = true) (bills c).
Proof.
  set (state := get_forecast Examples.busy_world
                  (get_current_balance (RT := RefRuntime.runtime)
                     Examples.busy_world (initial (PNum 1)))).
  set (s := detect_collisions (RT := RefRuntime.runtime) Examples.busy_world
              (get_credit_limits Examples.busy_world
                 (get_mandatory_expenses (RT := RefRuntime.runtime)
                    Examples.busy_world state))).
  set (c := default (Examples.collision_on "" 0 0 false)
              (head (resolve (objects s) (default [] (collisions s))))).
  assert (Herr : in_error state = false) by by_evaluation.
  assert (Hin : c ∈ resolve (objects s) (default [] (collisions s)))
    by (apply (list_elem_of_lookup_2 _ 0%nat); by_evaluation).
  destruct (collision_carries_its_bills (RT := RefRuntime.runtime)
              Examples.busy_world state Herr c Hin) as (H1 & H2 & _).
  exists c. split; [by_evaluation|]. split; [exact H1|exact H2].
Defined.

Lemma prepare_output_inv `{RT : PyRuntime} (w : World) (s st : State) :
  error s = None ->
  prepare_output w s = Ok st ->
  exists report,
    output st = Some (Success agent_id (org_id s) report)
    /\ total_collisions_detected report = default 0%nat (collision_count s)
    /\ collisions_91d report = resolve (objects s) (default [] (collisions s))
    /\ critical_collisions report = count_severity "critical" (collisions_91d report)
    /\ high_collisions report = count_severity "high" (collisions_91d report)
    /\ immediate_action report
       = (if Nat.ltb 0 (default 0%nat (collision_count s)) then "URGENT" else "MONITOR")
    /\ emergency_plan (available_credit s) (collisions_91d report)
       = Ok (emergency_action_plan report)
    /\ report_first_collision report
       = match first_collision s with
         | Some (Some r) => objects s !! r
         | _ => None
         end
    /\ position_current_balance report = default 0%Q (current_balance s)
    /\ position_minimum_balance report = default 0%Q (minimum_balance s)
    /\ position_balance_gap report = default 0%Q (balance_gap s)
    /\ position_available_credit report = default 0%Q (available_credit s)
    /\ total_amount report = default 0%Q (total_mandatory_91d s).
Proof.
  intros Hnone. unfold prepare_output. rewrite Hnone.
  destruct (emergency_plan _ _) as [plan|] eqn:Eplan; cbn [bind]; [|discriminate].
  intros H. inversion H; subst; clear H. simpl.
  eexists. split; [reflexivity|]. simpl. by repeat split.
Qed.

Lemma org_id_scored `{RT : PyRuntime} (w : World) (state : State) :
  org_id (analyze_severity (detect_collisions w state)) = org_id state.
Proof.
  unfold analyze_severity, detect_collisions.
  destruct (in_error state) eqn:E; [by rewrite E|].
  simpl. by destruct (in_error _).
Qed.

Lemma generate_mitigation_org `{RT : PyRuntime} (w : World) (s s' : State) :
  generate_mitigation w s = Ok s' -> org_id s' = org_id s.
Proof.
  unfold generate_mitigation. destruct (in_error s).
  - intros H. by injection H as <-.
  - destruct (fetched w) as [cs invs].
    destruct (mitigate_all _ _ _ _ _); cbn [bind]; [|discriminate].
    intros H. by injection H as <-.
Qed.

Lemma run_unfold `{RT : PyRuntime} (w : World) (state0 : State) :
  run w state0
  = let* s := generate_mitigation w
                (analyze_severity (detect_collisions w (fetch w state0))) in
    prepare_output w s.
Proof. reflexivity. Qed.

Lemma run_error_output `{RT : PyRuntime} (w : World) (state0 state : State) :
  run w state0 = Ok state ->
  match error (fetch w state0) with
  | Some msg => output state = Some (ErrorOutput msg)
  | None => exists report,
      output state = Some (Success agent_id (org_id (fetch w state0)) report)
  end.
Proof.
  intros Hrun.
  destruct (error (fetch w state0)) as [msg|] eqn:E.
  - rewrite (run_error w state0 msg E) in Hrun. by injection Hrun as <-.
  - assert (Herr : in_error (fetch w state0) = false)
      by (unfold in_error; by rewrite E).
    rewrite run_unfold in Hrun.
    destruct (generate_mitigation w _) as [s'|] eqn:Egen; cbn [bind] in Hrun;
      [|discriminate Hrun].
    destruct (analyzed w (fetch w state0) Herr) as (Herr' & _).
    destruct (generate_mitigation_kept w _ s' Herr' Egen) as (_ & Hnone & _).
    destruct (prepare_output_inv w s' state Hnone Hrun) as (report & Hout & _).
    exists report. rewrite Hout.
    rewrite (generate_mitigation_org w _ s' Egen).
    by rewrite org_id_scored.
Qed.

(** X4. An error report of a run carries the text of the first two stages
    only: the message is the error that [get_current_balance] left in the
    state (its own exception, or an error already in the initial state), or,
    when that stage left none, the exception of the forecast agent. The
    other stages never set the error. *)
Theorem error_report_origin `{RT : PyRuntime} (w : World) (state0 state : State)
    (msg : string) :
  run w state0 = Ok state ->
  output state = Some (ErrorOutput msg) ->
  error (get_current_balance w state0) = Some msg
  \/ (error (get_current_balance w state0) = None
      /\ forecasting_agent w = Raise msg).
Proof.
  intros Hrun Hout.
  pose proof (run_error_output w state0 state Hrun) as H.
  destruct (error (fetch w state0)) as [m|] eqn:E.
  - rewrite H in Hout. inversion Hout; subst m; clear Hout H.
    unfold fetch in E.
    rewrite get_credit_limits_error, get_mandatory_expenses_error in E.
    unfold get_forecast, in_error in E.
    destruct (error (get_current_balance w state0)) as [m0|] eqn:E0.
    + left. rewrite E0 in E. exact E.
    + right. split; [reflexivity|].
      destruct (forecasting_agent w) as [fo|e]; simpl in E.
      * rewrite E0 in E. discriminate.
      * congruence.
  - destruct H as (report & H). rewrite H in Hout. discriminate.
Qed.

Lemma error_report_origin_witness :
  run (RT := RefRuntime.runtime) Examples.late_world (initial (PNum 1))
  = Ok Examples.late_final
  /\ output Examples.late_final = Some (ErrorOutput "unreachable")
  /\ (error (get_current_balance (RT := RefRuntime.runtime)
               Examples.late_world (initial (PNum 1))) = Some "unreachable"
      \/ (error (get_current_balance (RT := RefRuntime.runtime)
                   Examples.late_world (initial (PNum 1))) = None
          /\ forecasting_agent Examples.late_world = Raise "unreachable")).
Proof.
  assert (Hrun : run (RT := RefRuntime.runtime) Examples.late_world
                   (initial (PNum 1)) = Ok Examples.late_final)
    by by_evaluation.
  assert (Hout : output Examples.late_final = Some (ErrorOutput "unreachable"))
    by by_evaluation.
  exact (conj Hrun (conj Hout
           (error_report_origin (RT := RefRuntime.runtime) Examples.late_world
              (initial (PNum 1)) Examples.late_final "unreachable" Hrun Hout))).
Defined.

Lemma length_resolve (store : list Collision) (refs : list nat) :
  (forall r, r ∈ refs -> is_Some (store !! r)) ->
  length (resolve store refs) = length refs.
Proof.
  unfold resolve. induction refs as [|r refs IH]; intros H; simpl; [done|].
  destruct (H r) as [c Hc]; [apply elem_of_cons; by left|].
  rewrite Hc. simpl. f_equal. apply IH.
  intros r' Hr'. apply H. apply elem_of_cons. by right.
Qed.

Lemma count_severity_le (l : list Collision) :
  (count_severity "critical" l + count_severity "high" l <= length l)%nat.
Proof.
  unfold count_severity. induction l as [|c l IH]; simpl; [lia|].
  destruct (severity c) as [s|]; [|lia].
  destruct (String.eqb s "critical") eqn:E1; destruct (String.eqb s "high") eqn:E2;
    simpl; try lia.
  apply String.eqb_eq in E1. apply String.eqb_eq in E2. congruence.
Qed.

(** X5. In a success report, [total_collisions_detected] is the length of
    [collisions_91d], the critical and the high collisions together are at
    most that many, [immediate_action] is "URGENT" exactly when the list is
    not empty and "MONITOR" exactly when it is empty, and an empty list
    comes without emergency plan and without first collision. *)
Theorem report_counts `{RT : PyRuntime} (w : World) (state0 state : State)
    agent org report :
  run w state0 = Ok state ->
  output state = Some (Success agent org report) ->
  total_collisions_detected report = length (collisions_91d report)
  /\ (critical_collisions report + high_collisions report
      <= total_collisions_detected report)%nat
  /\ (immediate_action report = "URGENT" <-> collisions_91d report <> [])
  /\ (immediate_action report = "MONITOR" <-> collisions_91d report = [])
  /\ (collisions_91d report = [] ->
      emergency_action_plan report = None
      /\ report_first_collision report = None).
Proof.
  intros Hrun Hout.
  destruct (run_success w state0 state agent org report Hrun Hout)
    as (Herr & s' & Hgen & Hnone & Hprep & _).
  destruct (prepare_output_inv w s' state Hnone Hprep)
    as (report' & Hout' & Htot & Hlist & Hcrit & Hhigh & Hact & Hplan & Hfirst & _).
  rewrite Hout in Hout'. injection Hout' as _ _ <-.
  destruct (analyzed w (fetch w state0) Herr)
    as (Herr' & _ & Hcol & Hfc & Hcount & _).
  destruct (generate_mitigation_kept w _ s' Herr' Hgen)
    as (Hcol' & _ & Hfc' & Hcount' & _ & Hkept).
  set (found := found_from w (default ∅ (mandatory_expenses (fetch w state0)))
                  (default 0%Q (minimum_balance (fetch w state0)))
                  (default 0%Q (available_credit (fetch w state0))) 0
                  (default [] (forecast (fetch w state0)))) in *.
  set (refs := seq (length (objects (fetch w state0))) (length found)) in *.
  assert (Hlen : length (collisions_91d report) = length found).
  { rewrite Hlist, Hcol', Hcol. simpl. rewrite length_resolve.
    - rewrite sort_desc_perm. subst refs. by rewrite length_seq.
    - intros r Hr. rewrite sort_desc_perm in Hr.
      destruct (analyzed_lookup w (fetch w state0) r Herr Hr) as (c & _ & Hc).
      specialize (Hkept r). rewrite Hc in Hkept.
      destruct (objects s' !! r); [eauto|discriminate]. }
  assert (Htot' : total_collisions_detected report = length (collisions_91d report)).
  { rewrite Htot, Hcount', Hcount, Hlen. reflexivity. }
  assert (Hcnt : default 0%nat (collision_count s') = length (collisions_91d report)).
  { by rewrite <- Htot. }
  rewrite Hcnt in Hact.
  split; [exact Htot'|]. split; [rewrite Htot', Hcrit, Hhigh; apply count_severity_le|].
  destruct (collisions_91d report) as [|c rest] eqn:El; simpl in Hact.
  - split; [rewrite Hact; split; [discriminate|done]|].
    split; [by rewrite Hact|]. intros _.
    simpl in Hplan. split; [congruence|].
    rewrite Hfirst, Hfc', Hfc.
    simpl in Hlen. destruct found; [|discriminate]. subst refs. reflexivity.
  - split; [rewrite Hact; split; [discriminate|done]|].
    split; [rewrite Hact; split; discriminate|]. discriminate.
Qed.

Lemma report_counts_witness :
  exists report,
    output Examples.busy_final = Some (Success agent_id (PNum 1) report)
    /\ total_collisions_detected report = length (collisions_91d report)
    /\ (immediate_action report = "URGENT" <-> collisions_91d report <> []).
Proof.
  destruct busy_run as (report & Hrun & Hout & _).
  destruct (report_counts (RT := RefRuntime.runtime) Examples.busy_world
              (initial (PNum 1)) Examples.busy_final agent_id (PNum 1) report
              Hrun Hout) as (H1 & _ & H2 & _).
  exists report. exact (conj Hout (conj H1 H2)).
Defined.

Section Quiet.
Context {RT : PyRuntime}.
Variable w : World.

Lemma get_current_balance_org (state : State) :
  org_id (get_current_balance w state) = org_id state.
Proof.
  unfold get_current_balance.
  match goal with |- context [match ?a with _ => _ end] =>
    destruct a as [[[[o m] i] u]|] end; reflexivity.
Qed.

Lemma get_mandatory_expenses_kept (state : State) :
  forecast (get_mandatory_expenses w state) = forecast state
  /\ org_id (get_mandatory_expenses w state) = org_id state.
Proof.
  unfold get_mandatory_expenses. destruct (in_error state); [done|].
  by destruct (let* bills := bills_detail w in add_bills ∅ bills).
Qed.

(** An empty answer of the forecast agent leaves the fetching stages
    without error and with an empty forecast. *)
Lemma fetch_empty_forecast (state0 : State) (fo : ForecastOutput.t) :
  in_error (get_current_balance w state0) = false ->
  forecasting_agent w = Ok fo ->
  first_nonempty (ForecastOutput.forecast fo)
                 (ForecastOutput.forecast_results fo) = [] ->
  in_error (fetch w state0) = false
  /\ forecast (fetch w state0) = Some []
  /\ org_id (fetch w state0) = org_id state0.
Proof.
  intros Herr Hfo Hempty. unfold fetch.
  set (s1 := get_current_balance w state0) in *.
  assert (H2 : in_error (get_forecast w s1) = false
               /\ forecast (get_forecast w s1) = Some []
               /\ org_id (get_forecast w s1) = org_id state0).
  { unfold get_forecast. rewrite Herr, Hfo, Hempty. simpl.
    split; [exact Herr|]. split; [done|]. apply get_current_balance_org. }
  destruct H2 as (E2 & F2 & O2).
  destruct (get_credit_limits_mandatory w
              (get_mandatory_expenses w (get_forecast w s1)))
    as (_ & F4 & _ & O4 & _).
  destruct (get_mandatory_expenses_kept (get_forecast w s1)) as (F3 & O3).
  split.
  - unfold in_error in *.
    by rewrite get_credit_limits_error, get_mandatory_expenses_error.
  - split; congruence.
Qed.

Lemma generate_mitigation_nothing (s : State) :
  in_error s = false -> collisions s = Some [] ->
  exists s', generate_mitigation w s = Ok s'
             /\ error s' = None
             /\ collisions s' = Some []
             /\ collision_count s' = collision_count s
             /\ first_collision s' = first_collision s
             /\ org_id s' = org_id s.
Proof.
  intros Herr Hcol. unfold generate_mitigation. rewrite Herr, Hcol.
  destruct (fetched w) as [cs invs]. simpl.
  eexists. split; [reflexivity|]. simpl.
  unfold in_error in Herr. destruct (error s); [discriminate|]. done.
Qed.

Lemma quiet_run (s4 : State) :
  in_error s4 = false -> forecast s4 = Some [] ->
  exists state report,
    (let* s := generate_mitigation w (analyze_severity (detect_collisions w s4)) in
     prepare_output w s) = Ok state
    /\ output state = Some (Success agent_id (org_id s4) report)
    /\ collisions_91d report = []
    /\ total_collisions_detected report = 0%nat
    /\ critical_collisions report = 0%nat
    /\ high_collisions report = 0%nat
    /\ immediate_action report = "MONITOR"
    /\ emergency_action_plan report = None
    /\ report_first_collision report = None.
Proof.
  intros Herr Hf.
  destruct (analyzed w s4 Herr) as (Herr' & _ & Hcol & Hfc & Hcount & _).
  rewrite Hf in Hcol, Hfc, Hcount. simpl in Hcol, Hfc, Hcount.
  destruct (generate_mitigation_nothing _ Herr' Hcol)
    as (s' & Hgen & Hnone & Hcol' & Hcount' & Hfc' & Horg).
  rewrite Hgen. cbn [bind].
  assert (Hprep : exists state, prepare_output w s' = Ok state).
  { unfold prepare_output. rewrite Hnone, Hcol'. simpl. eauto. }
  destruct Hprep as [state Hprep].
  destruct (prepare_output_inv w s' state Hnone Hprep)
    as (report & Hout & Htot & Hlist & Hcrit & Hhigh & Hact & Hplan & Hfirst & _).
  rewrite Hcol' in Hlist. simpl in Hlist.
  rewrite Hlist in Hcrit, Hhigh, Hplan. simpl in Hplan.
  rewrite Hcount', Hcount in Htot, Hact. simpl in Htot, Hact.
  rewrite Hfc', Hfc in Hfirst.
  exists state, report. rewrite Horg, org_id_scored in Hout.
  repeat split; try done. congruence.
Qed.

End Quiet.

(** X6. An empty answer of the forecast agent is no error for the
    collision agent: when the balance was fetched and the forecast agent
    returns no forecast day, the run returns a success report without
    collisions, with [immediate_action] "MONITOR" and without emergency
    plan. *)
Theorem empty_forecast_reports_monitor `{RT : PyRuntime} (w : World)
    (state0 : State) (fo : ForecastOutput.t) :
  in_error (get_current_balance w state0) = false ->
  forecasting_agent w = Ok fo ->
  first_nonempty (ForecastOutput.forecast fo)
                 (ForecastOutput.forecast_results fo) = [] ->
  exists state report,
    run w state0 = Ok state
    /\ output state = Some (Success agent_id (org_id state0) report)
    /\ collisions_91d report = []
    /\ total_collisions_detected report = 0%nat
    /\ immediate_action report = "MONITOR"
    /\ emergency_action_plan report = None
    /\ report_first_collision report = None.
Proof.
  intros Herr Hfo Hempty.
  destruct (fetch_empty_forecast w state0 fo Herr Hfo Hempty) as (E4 & F4 & O4).
  destruct (quiet_run w (fetch w state0) E4 F4)
    as (state & report & Hrun & Hout & H1 & H2 & _ & _ & H3 & H4 & H5).
  exists state, report. rewrite run_unfold, <- O4. done.
Qed.

Lemma empty_forecast_reports_monitor_witness :
  exists state report,
    run (RT := RefRuntime.runtime) Examples.silent_world (initial (PNum 1))
    = Ok state
    /\ output state = Some (Success agent_id (PNum 1) report)
    /\ collisions_91d report = []
    /\ immediate_action report = "MONITOR".
Proof.
  destruct (empty_forecast_reports_monitor (RT := RefRuntime.runtime)
              Examples.silent_world (initial (PNum 1)) Handover.empty)
    as (state & report & Hrun & Hout & Hlist & _ & Hact & _).
  - by_evaluation.
  - reflexivity.
  - reflexivity.
  - exists state, report. exact (conj Hrun (conj Hout (conj Hlist Hact))).
Defined.

Section Origin.
Context {RT : PyRuntime}.

Lemma mitigate_all_inv cs invs av (refs : list nat) : forall store store',
  NoDup refs ->
  mitigate_all cs invs av refs store = Ok store' ->
  (forall r, r ∉ refs -> store' !! r = store !! r)
  /\ (forall r c, r ∈ refs -> store !! r = Some c ->
        exists c', mitigate cs invs av c = Ok c' /\ store' !! r = Some c').
Proof.
  induction refs as [|r0 refs IH]; intros store store' Hnd Hall; simpl in Hall.
  - injection Hall as <-. split; [done|]. intros r c Hr. inversion Hr.
  - apply NoDup_cons in Hnd as [Hr0 Hnd].
    destruct (store !! r0) as [c0|] eqn:E0.
    + destruct (mitigate cs invs av c0) as [c0'|] eqn:Em; cbn [bind] in Hall;
        [|discriminate Hall].
      destruct (IH _ _ Hnd Hall) as [Hout Hin].
      assert (H0 : store' !! r0 = Some c0').
      { rewrite (Hout r0 Hr0). apply list_lookup_insert_eq.
        by eapply lookup_lt_Some. }
      split.
      * intros r Hr. rewrite Hout.
        -- apply list_lookup_insert_ne. intros ->. apply Hr, elem_of_cons. by left.
        -- intros H. apply Hr, elem_of_cons. by right.
      * intros r c Hr Hc. apply elem_of_cons in Hr as [->|Hr].
        -- exists c0'. split; [congruence|exact H0].
        -- apply Hin; [exact Hr|]. rewrite list_lookup_insert_ne; [exact Hc|].
           intros ->. done.
    + destruct (IH _ _ Hnd Hall) as [Hout Hin]. split.
      * intros r Hr. apply Hout. intros H. apply Hr, elem_of_cons. by right.
      * intros r c Hr Hc. apply elem_of_cons in Hr as [->|Hr]; [congruence|].
        by apply Hin.
Qed.

Lemma generate_mitigation_inv (w : World) (s s' : State) :
  in_error s = false ->
  generate_mitigation w s = Ok s' ->
  NoDup (default [] (collisions s)) ->
  forall r c, r ∈ default [] (collisions s) -> objects s !! r = Some c ->
    exists c', mitigate (fst (fetched w)) (snd (fetched w)) (available_credit s) c
               = Ok c'
               /\ objects s' !! r = Some c'.
Proof.
  intros Herr. unfold generate_mitigation. rewrite Herr.
  destruct (fetched w) as [cs invs].
  destruct (mitigate_all cs invs _ _ _) as [store'|] eqn:Eall; cbn [bind];
    [|discriminate].
  intros H Hnd r c Hr Hc. injection H as <-. simpl.
  rewrite (update_all_id numeric_fields numeric_fields_id).
  destruct (mitigate_all_inv _ _ _ _ _ _ Hnd Eall) as [_ Hin].
  by apply Hin.
Qed.

(** Every collision of a report is a detected collision, scored by
    [analyze_severity] and then completed by [generate_mitigation]. *)
Lemma run_collision_origin (w : World) (state0 state : State)
    agent org report :
  run w state0 = Ok state ->
  output state = Some (Success agent org report) ->
  let s4 := fetch w state0 in
  let found := found_from w (default ∅ (mandatory_expenses s4))
                 (default 0%Q (minimum_balance s4))
                 (default 0%Q (available_credit s4)) 0
                 (default [] (forecast s4)) in
  forall c, c ∈ collisions_91d report ->
    exists cm, cm ∈ found
      /\ mitigate (fst (fetched w)) (snd (fetched w)) (available_credit s4)
                  (assess cm) = Ok c.
Proof.
  intros Hrun Hout s4 found c Hc. subst s4 found.
  destruct (run_success w state0 state agent org report Hrun Hout)
    as (Herr & s' & Hgen & _ & _ & Hlist & _).
  destruct (analyzed w (fetch w state0) Herr) as (Herr' & _ & Hcol & _ & _ & Hav).
  destruct (generate_mitigation_kept w _ s' Herr' Hgen) as (Hcol' & _).
  rewrite Hlist, Hcol', Hcol in Hc. simpl in Hc.
  apply list_elem_of_omap in Hc as (r & Hr & Hl).
  assert (Hnd : NoDup (default [] (collisions
             (analyze_severity (detect_collisions w (fetch w state0)))))).
  { rewrite Hcol. simpl. rewrite sort_desc_perm. apply NoDup_seq. }
  assert (Hr' : r ∈ default [] (collisions
             (analyze_severity (detect_collisions w (fetch w state0)))))
    by (by rewrite Hcol).
  rewrite sort_desc_perm in Hr.
  destruct (analyzed_lookup w (fetch w state0) r Herr Hr) as (cm & Hcm & Hobj).
  destruct (generate_mitigation_inv w _ s' Herr' Hgen Hnd r _ Hr' Hobj)
    as (c' & Hm & Hl').
  exists cm. split; [by eapply list_elem_of_lookup_2|].
  rewrite Hav in Hm. congruence.
Qed.

End Origin.

Section Levers.
Context {RT : PyRuntime}.

Lemma accelerate_lever_cases (a : Accelerate) :
  accelerate_lever a = []
  \/ exists l, accelerate_lever a = [l]
       /\ kind_of l = ("accelerate_collections", 1, 75 # 100)
       /\ (0 < potential_amount l)%Q
       /\ potential_amount l = accelerate_potential a
       /\ target_bills l = None
       /\ target_customers l
          = Some (firstn 5 (sort_desc expected (top_customers_for_collection a))).
Proof.
  unfold accelerate_lever.
  destruct (Qlt_bool 0 (accelerate_potential a)) eqn:E; [|by left].
  apply Qlt_bool_iff in E. right. eexists. split; [reflexivity|]. by repeat split.
Qed.

Lemma defer_lever_cases (c : Collision) :
  defer_lever c = []
  \/ exists l, defer_lever c = [l]
       /\ kind_of l = ("defer_payables", 2, 6 # 10)
       /\ (0 < potential_amount l)%Q
       /\ potential_amount l
          = fold_left Qplus (map Item.amount (List.filter deferrable (bills c))) 0%Q
       /\ target_bills l = Some (List.filter deferrable (bills c))
       /\ target_customers l = None.
Proof.
  unfold defer_lever.
  assert (Hsum : forall l acc,
            fold_left (fun acc b => (acc + _to_float (PNum (Item.amount b)) 0)%Q) l acc
            = fold_left Qplus (map Item.amount l) acc).
  { induction l as [|b l IH]; intros acc; simpl; [done|]. apply IH. }
  rewrite Hsum.
  destruct (Qlt_bool 0 _) eqn:E; [|by left].
  apply Qlt_bool_iff in E. right. eexists. split; [reflexivity|]. by repeat split.
Qed.

Lemma credit_lever_cases (available deficit : Q) :
  (0 <= deficit)%Q ->
  ((available <= deficit * (5 # 10))%Q /\ credit_lever available deficit = [])
  \/ exists l, credit_lever available deficit = [l]
       /\ (deficit * (5 # 10) < available)%Q
       /\ kind_of l = ("draw_credit_line", 3, 95 # 100)
       /\ (0 < potential_amount l)%Q
       /\ potential_amount l = available
       /\ target_bills l = None
       /\ target_customers l = None
       /\ credit_amount l = Some available.
Proof.
  intros Hd. unfold credit_lever.
  destruct (Qlt_bool _ available) eqn:E.
  - apply Qlt_bool_iff in E. right. eexists. split; [reflexivity|].
    repeat split; simpl; try done. lra.
  - apply Qlt_bool_false in E. by left.
Qed.

Lemma loan_lever_cases (c : Collision) :
  loan_lever c = []
  \/ exists l, loan_lever c = [l]
       /\ kind_of l = ("restructure_loan", 4, 5 # 10)
       /\ (0 < potential_amount l)%Q
       /\ potential_amount l = (mandatory_expenses_ c * (3 # 10))%Q
       /\ contains "loan" (join_space (map lower (expense_categories c))) = true
       /\ target_bills l = None
       /\ target_customers l = None.
Proof.
  unfold loan_lever.
  destruct (contains "loan" _) eqn:Ec; [|by left].
  destruct (Qlt_bool 0 _) eqn:E; [|by left].
  apply Qlt_bool_iff in E. right. eexists. split; [reflexivity|]. by repeat split.
Qed.

(** The levers that [mitigate] puts on a collision. *)
Lemma mitigate_levers cs invs available (c c' : Collision) :
  mitigate cs invs available c = Ok c' ->
  exists a,
    collect cs (collision_date c)
      {| accelerate_potential := 0; top_customers_for_collection := [] |} invs = Ok a
    /\ mitigation_levers c'
       = Some (accelerate_lever a ++ defer_lever c
               ++ credit_lever (default 0%Q available) (deficit_amount c)
               ++ loan_lever c)%list
    /\ total_mitigation_potential c'
       = Some (total_potential_of
                 (accelerate_lever a ++ defer_lever c
                  ++ credit_lever (default 0%Q available) (deficit_amount c)
                  ++ loan_lever c)%list)
    /\ can_be_mitigated c'
       = Some (Qle_bool (deficit_amount c * (7 # 10))
                 (total_potential_of
                    (accelerate_lever a ++ defer_lever c
                     ++ credit_lever (default 0%Q available) (deficit_amount c)
                     ++ loan_lever c)%list))
    /\ bills c' = bills c
    /\ credit_can_cover c' = credit_can_cover c
    /\ deficit_amount c' = deficit_amount c
    /\ collision_date c' = collision_date c.
Proof.
  unfold mitigate.
  destruct (collect _ _ _ _) as [a|] eqn:E; cbn [bind]; [|discriminate].
  intros H. injection H as <-. exists a. by repeat split.
Qed.

End Levers.

Ltac lever_cases a c av d Hd :=
  destruct (accelerate_lever_cases a) as [->|(l1 & -> & K1 & P1 & _)];
  destruct (defer_lever_cases c) as [->|(l2 & -> & K2 & P2 & _)];
  destruct (credit_lever_cases av d Hd) as [[_ ->]|(l3 & -> & _ & K3 & P3 & _)];
  destruct (loan_lever_cases c) as [->|(l4 & -> & K4 & P4 & _)].

Ltac kind_fields :=
  repeat match goal with
         | K : kind_of _ = _ |- _ => unfold kind_of in K; injection K as ? ? ?
         end.

Lemma levers_wellformed `{RT : PyRuntime} (a : Accelerate) (c : Collision)
    (available : Q) :
  (0 <= deficit_amount c)%Q ->
  let levers := (accelerate_lever a ++ defer_lever c
                 ++ credit_lever available (deficit_amount c)
                 ++ loan_lever c)%list in
  (length levers <= 4)%nat
  /\ StronglySorted (fun x y => priority x < priority y) levers
  /\ Forall (fun l => (0 < potential_amount l)%Q /\ kind_of l ∈ lever_kinds) levers.
Proof.
  intros Hd levers. subst levers.
  lever_cases a c available (deficit_amount c) Hd; simpl;
    (split; [lia|]);
    (split; [ kind_fields; repeat constructor; lia
            | repeat (apply Forall_cons_2;
                      [split; [assumption|];
                       match goal with
                       | K : kind_of ?l = _ |- kind_of ?l ∈ _ =>
                           rewrite K; unfold lever_kinds;
                           repeat (apply elem_of_cons;
                                   first [left; reflexivity | right])
                       end|]);
              apply Forall_nil_2 ]).
Qed.

Lemma total_potential_nonneg `{RT : PyRuntime} (levers : list Lever) :
  Forall (fun l => (0 < potential_amount l)%Q /\ kind_of l ∈ lever_kinds) levers ->
  (0 <= total_potential_of levers)%Q.
Proof.
  intros H. rewrite total_potential_sum.
  induction H as [|l levers [Hp Hk] _ IH]; simpl; [lra|].
  assert (0 <= potential_amount l * success_probability l)%Q; [|lra].
  unfold lever_kinds, kind_of in Hk.
  repeat (apply elem_of_cons in Hk as [Hk|Hk];
          [injection Hk as _ _ ->; lra|]).
  inversion Hk.
Qed.

(** What [detect_collisions] knows of a collision it records. *)
Lemma found_deficit `{RT : PyRuntime} w mandatory minimum credit forecast i cm :
  cm ∈ found_from w mandatory minimum credit i forecast ->
  exists deficit : Q,
    (0 < deficit)%Q
    /\ deficit_amount cm = Qabs deficit
    /\ credit_can_cover cm = Qle_bool deficit credit.
Proof.
  intros H. apply elem_of_found in H as (j & item & _ & Hex).
  destruct (examine_inv w mandatory minimum credit _ item cm Hex)
    as (Hlt & _ & _ & _ & _ & Hd & Hc).
  eexists. split; [|split; [exact Hd|exact Hc]]. lra.
Qed.

(** X7. In a success report every collision carries at most four levers,
    in strictly increasing priority, each of one of the four kinds with the
    priority and the success probability of its kind and with a positive
    potential amount; the total mitigation potential is not negative. *)
Theorem report_levers_wellformed `{RT : PyRuntime} (w : World)
    (state0 state : State) agent org report :
  run w state0 = Ok state ->
  output state = Some (Success agent org report) ->
  forall c, c ∈ collisions_91d report ->
    exists levers total,
      mitigation_levers c = Some levers
      /\ total_mitigation_potential c = Some total
      /\ (length levers <= 4)%nat
      /\ StronglySorted (fun x y => priority x < priority y) levers
      /\ Forall (fun l => (0 < potential_amount l)%Q /\ kind_of l ∈ lever_kinds)
                levers
      /\ (0 <= total)%Q.
Proof.
  intros Hrun Hout c Hc.
  destruct (run_collision_origin w state0 state agent org report Hrun Hout c Hc)
    as (cm & Hcm & Hmit).
  destruct (found_deficit _ _ _ _ _ _ _ Hcm) as (d & Hd & Hdef & _).
  destruct (mitigate_levers _ _ _ _ _ Hmit) as (a & _ & Hlev & Htot & _).
  assert (Hnn : (0 <= deficit_amount (assess cm))%Q).
  { simpl. rewrite Hdef. apply Qabs_nonneg. }
  destruct (levers_wellformed a (assess cm)
              (default 0%Q (available_credit (fetch w state0))) Hnn)
    as (Hlen & Hsort & Hall).
  do 2 eexists. split; [exact Hlev|]. split; [exact Htot|].
  split; [exact Hlen|]. split; [exact Hsort|]. split; [exact Hall|].
  by apply total_potential_nonneg.
Qed.

Lemma report_levers_wellformed_witness :
  exists total,
    mitigation_levers Examples.busy_second = Some Examples.busy_levers
    /\ total_mitigation_potential Examples.busy_second = Some total
    /\ StronglySorted (fun x y => priority x < priority y) Examples.busy_levers
    /\ (0 <= total)%Q.
Proof.
  destruct busy_run as (report & Hrun & Hout & Hlist).
  destruct (report_levers_wellformed (RT := RefRuntime.runtime)
              Examples.busy_world (initial (PNum 1)) Examples.busy_final
              agent_id (PNum 1) report Hrun Hout Examples.busy_second
              (busy_second_reported report Hlist))
    as (levers & total & Hlev & Htot & _ & Hsort & _ & Hnn).
  assert (H : mitigation_levers Examples.busy_second = Some Examples.busy_levers)
    by by_evaluation.
  assert (Heq : levers = Examples.busy_levers) by congruence.
  rewrite Heq in Hsort.
  exists total. exact (conj H (conj Htot (conj Hsort Hnn))).
Defined.

Lemma credit_cover_mitigable `{RT : PyRuntime} (a : Accelerate) (c : Collision)
    (available : Q) :
  (0 < deficit_amount c)%Q -> (deficit_amount c <= available)%Q ->
  let levers := (accelerate_lever a ++ defer_lever c
                 ++ credit_lever available (deficit_amount c)
                 ++ loan_lever c)%list in
  Qle_bool (deficit_amount c * (7 # 10)) (total_potential_of levers) = true
  /\ exists l, l ∈ levers /\ lever l = "draw_credit_line"
               /\ potential_amount l = available
               /\ credit_amount l = Some available.
Proof.
  intros Hpos Hle levers. subst levers.
  assert (Hd : (0 <= deficit_amount c)%Q) by lra.
  destruct (accelerate_lever_cases a) as [->|(l1 & -> & K1 & P1 & _)];
  destruct (defer_lever_cases c) as [->|(l2 & -> & K2 & P2 & _)];
  destruct (loan_lever_cases c) as [->|(l4 & -> & K4 & P4 & _)];
  destruct (credit_lever_cases available (deficit_amount c) Hd)
    as [[Hno _]|(l3 & -> & _ & K3 & P3 & E3 & _ & _ & C3)];
  try (exfalso; lra);
  (split;
   [ apply Qle_bool_iff; rewrite total_potential_sum; simpl;
     kind_fields;
     repeat match goal with
            | H : success_probability _ = _ |- _ => rewrite H; clear H
            end;
     rewrite E3 in *; lra
   | exists l3; split;
     [ simpl; repeat (apply elem_of_cons; first [left; reflexivity | right])
     | kind_fields; by repeat split ] ]).
Qed.

(** X8. In a success report a collision that the credit line can cover
    ([credit_can_cover]) can be mitigated ([can_be_mitigated]), and the lever
    "draw_credit_line" is among its levers, for the whole available
    credit. *)
Theorem credit_cover_is_mitigable `{RT : PyRuntime} (w : World)
    (state0 state : State) agent org report :
  run w state0 = Ok state ->
  output state = Some (Success agent org report) ->
  forall c, c ∈ collisions_91d report ->
    credit_can_cover c = true ->
    can_be_mitigated c = Some true
    /\ exists levers l,
         mitigation_levers c = Some levers
         /\ l ∈ levers
         /\ lever l = "draw_credit_line"
         /\ credit_amount l = Some (position_available_credit report).
Proof.
  intros Hrun Hout c Hc Hcover.
  destruct (run_collision_origin w state0 state agent org report Hrun Hout c Hc)
    as (cm & Hcm & Hmit).
  destruct (found_deficit _ _ _ _ _ _ _ Hcm) as (d & Hd & Hdef & Hcov).
  destruct (mitigate_levers _ _ _ _ _ Hmit)
    as (a & _ & Hlev & _ & Hcan & _ & Hcc & _).
  simpl in Hcc. rewrite Hcc, Hcov in Hcover. apply Qle_bool_iff in Hcover.
  assert (Habs : (Qabs d == d)%Q) by (apply Qabs_pos; lra).
  assert (Hpos : (0 < deficit_amount (assess cm))%Q)
    by (simpl; rewrite Hdef, Habs; exact Hd).
  assert (Hle : (deficit_amount (assess cm)
                 <= default 0%Q (available_credit (fetch w state0)))%Q)
    by (simpl; rewrite Hdef, Habs; exact Hcover).
  destruct (credit_cover_mitigable a (assess cm) _ Hpos Hle)
    as (Hok & l & Hl & Hname & _ & Hamount).
  split; [by rewrite Hcan, Hok|].
  eexists; exists l. split; [exact Hlev|]. split; [exact Hl|]. split; [exact Hname|].
  rewrite Hamount. f_equal.
  destruct (run_success w state0 state agent org report Hrun Hout)
    as (Herr & s' & Hgen & Hnone & Hprep & _).
  destruct (prepare_output_inv w s' state Hnone Hprep)
    as (report' & Hout' & H).
  rewrite Hout in Hout'. injection Hout' as _ _ <-.
  destruct H as (_ & _ & _ & _ & _ & _ & _ & _ & _ & _ & Hav & _).
  destruct (analyzed w (fetch w state0) Herr) as (Herr' & _ & _ & _ & _ & Hav4).
  destruct (generate_mitigation_kept w _ s' Herr' Hgen) as (_ & _ & _ & _ & Hav' & _).
  by rewrite Hav, Hav', Hav4.
Qed.

Lemma credit_cover_is_mitigable_witness :
  credit_can_cover Examples.calm_first = true
  /\ can_be_mitigated Examples.calm_first = Some true.
Proof.
  destruct calm_run as (report & Hrun & Hout & Hlist).
  assert (Hcover : credit_can_cover Examples.calm_first = true) by by_evaluation.
  destruct (credit_cover_is_mitigable (RT := RefRuntime.runtime)
              Examples.calm_world (initial (PNum 1)) Examples.calm_final
              agent_id (PNum 1) report Hrun Hout Examples.calm_first
              (calm_first_reported report Hlist) Hcover) as (H & _).
  exact (conj Hcover H).
Defined.

(** X9. In a success report only the lever "defer_payables" targets
    bills, and it targets exactly the bills of the collision whose category
    is none of payroll, salary, statutory, tax and gst; its potential amount
    is the sum of the amounts of these bills. *)
Theorem deferral_spares_protected_bills `{RT : PyRuntime} (w : World)
    (state0 state : State) agent org report :
  run w state0 = Ok state ->
  output state = Some (Success agent org report) ->
  forall c levers l bs,
    c ∈ collisions_91d report ->
    mitigation_levers c = Some levers ->
    l ∈ levers ->
    target_bills l = Some bs ->
    lever l = "defer_payables"
    /\ bs = List.filter deferrable (bills c)
    /\ Forall (fun b => b ∈ bills c
                 /\ lower (Item.category b)
                    ∉ ["payroll"; "salary"; "statutory"; "tax"; "gst"]) bs
    /\ potential_amount l = fold_left Qplus (map Item.amount bs) 0%Q.
Proof.
  intros Hrun Hout c levers l bs Hc Hlev Hl Hbs.
  destruct (run_collision_origin w state0 state agent org report Hrun Hout c Hc)
    as (cm & Hcm & Hmit).
  destruct (found_deficit _ _ _ _ _ _ _ Hcm) as (d & Hd & Hdef & _).
  destruct (mitigate_levers _ _ _ _ _ Hmit) as (a & _ & Hlev' & _ & _ & Hbills & _).
  assert (Hnn : (0 <= deficit_amount cm)%Q).
  { rewrite Hdef. apply Qabs_nonneg. }
  rewrite Hlev in Hlev'. injection Hlev' as ->. rewrite Hbills.
  assert (Hdefer : exists k, kind_of l = ("defer_payables", 2, k)
            /\ target_bills l = Some (List.filter deferrable (bills (assess cm)))
            /\ potential_amount l
               = fold_left Qplus
                   (map Item.amount (List.filter deferrable (bills (assess cm)))) 0%Q).
  { destruct (accelerate_lever_cases a) as [E1|(l1 & E1 & _ & _ & _ & B1 & _)];
    destruct (defer_lever_cases (assess cm)) as [E2|(l2 & E2 & K2 & _ & P2 & B2 & _)];
    destruct (credit_lever_cases (default 0%Q (available_credit (fetch w state0)))
                (deficit_amount cm) Hnn)
      as [[_ E3]|(l3 & E3 & _ & _ & _ & _ & B3 & _)];
    destruct (loan_lever_cases (assess cm)) as [E4|(l4 & E4 & _ & _ & _ & _ & B4 & _)];
    rewrite E1, E2, E3, E4 in Hl; simpl in Hl;
    repeat (apply elem_of_cons in Hl as [->|Hl]; [try congruence; eauto|]);
    inversion Hl. }
  destruct Hdefer as (k & K & B & P).
  unfold kind_of in K. injection K as Hname _ _.
  rewrite B in Hbs. injection Hbs as <-.
  split; [exact Hname|]. split; [reflexivity|]. split; [|exact P].
  apply Forall_forall. intros b Hb.
  apply list_elem_of_In, filter_In in Hb as [Hin Hdf].
  split; [by apply list_elem_of_In|].
  unfold deferrable in Hdf. apply negb_true_iff in Hdf.
  intros Hmem. apply mem_elem_of in Hmem. congruence.
Qed.

Lemma deferral_spares_protected_bills_witness :
  exists l bs,
    Examples.busy_levers !! 1%nat = Some l
    /\ target_bills l = Some bs
    /\ lever l = "defer_payables"
    /\ bs = List.filter deferrable (bills Examples.busy_second)
    /\ potential_amount l = fold_left Qplus (map Item.amount bs) 0%Q.
Proof.
  destruct busy_run as (report & Hrun & Hout & Hlist).
  destruct (Examples.busy_levers !! 1%nat) as [l|] eqn:El;
    [|vm_compute in El; discriminate El].
  destruct (target_bills l) as [bs|] eqn:Ebs;
    [|vm_compute in El; injection El as <-; discriminate Ebs].
  destruct (deferral_spares_protected_bills (RT := RefRuntime.runtime)
              Examples.busy_world (initial (PNum 1)) Examples.busy_final
              agent_id (PNum 1) report Hrun Hout Examples.busy_second
              Examples.busy_levers l bs (busy_second_reported report Hlist))
    as (H1 & H2 & _ & H3).
  - by_evaluation.
  - by eapply list_elem_of_lookup_2.
  - exact Ebs.
  - exists l, bs. split; [reflexivity|]. split; [exact Ebs|].
    exact (conj H1 (conj H2 H3)).
Defined.


Section Collecting.
Context {RT : PyRuntime}.
Variable cs : list Customer.t.
Variable d : string.



End Collecting.



Lemma round2_Z (n : Z) : (round2 (inject_Z n) == inject_Z n)%Q.
Proof.
  rewrite (round2_proper (inject_Z n) (Qmake (n * 100) 100)).
  - rewrite round2_cents. unfold Qeq, inject_Z. simpl. lia.
  - unfold Qeq, inject_Z. simpl. lia.
Qed.

Lemma label_inv (s : Q) :
  label s ∈ ["critical"; "high"; "medium"; "low"]
  /\ (label s = "critical" -> (80 <= s)%Q)
  /\ (label s = "high" -> (60 <= s)%Q /\ (s < 80)%Q)
  /\ (label s = "medium" -> (40 <= s)%Q /\ (s < 60)%Q)
  /\ (label s = "low" -> (s < 40)%Q).
Proof.
  unfold label.
  destruct (Qle_bool 80 s) eqn:E80; [apply Qle_bool_iff in E80|];
  [|destruct (Qle_bool 60 s) eqn:E60; [apply Qle_bool_iff in E60|];
    [|destruct (Qle_bool 40 s) eqn:E40; [apply Qle_bool_iff in E40|]]];
  repeat match goal with
         | H : Qle_bool ?a ?b = false |- _ =>
             assert ((b < a)%Q)
               by (apply Qnot_le_lt; intros Hle; apply Qle_bool_iff in Hle;
                   congruence);
             clear H
         end;
  (split; [repeat (apply elem_of_cons; first [left; reflexivity | right])|]);
  (split; [|split; [|split]]); intros Heq; try discriminate Heq;
  try split; try assumption; lra.
Qed.

(** X11. In a success report the stored severity score of a collision is
    within 0.005 of the weighted sum, and the label fits the stored score up
    to the boundaries: "critical" has a score of at least 80, "high" a score
    in [60, 80], "medium" one in [40, 60] and "low" one of at most 40. A
    collision that does not lie in the past scores within [0, 87.5], and
    [days_to_resolve] is at least 1. *)
Theorem reported_score_matches_label `{RT : PyRuntime} (w : World)
    (state0 state : State) agent org report :
  run w state0 = Ok state ->
  output state = Some (Success agent org report) ->
  forall c, c ∈ collisions_91d report ->
    exists (s : Q) (l : string) (d : Z),
      severity_score c = Some s
      /\ severity c = Some l
      /\ days_to_resolve c = Some d
      /\ (Qabs (s - raw_score c) <= 1 # 200)%Q
      /\ l ∈ ["critical"; "high"; "medium"; "low"]
      /\ (l = "critical" -> (80 <= s)%Q)
      /\ (l = "high" -> (60 <= s <= 80)%Q)
      /\ (l = "medium" -> (40 <= s <= 60)%Q)
      /\ (l = "low" -> (s <= 40)%Q)
      /\ (0 <= days_from_now c -> (0 <= s <= 875 # 10)%Q)
      /\ 1 <= d.
Proof.
  intros Hrun Hout c Hc.
  destruct (run_report_shape w state0 state agent org report Hrun Hout)
    as (Hall & _).
  destruct (Hall c Hc) as (cm & Hcm & Hk).
  destruct (found_deficit _ _ _ _ _ _ _ Hcm) as (df & _ & Hdef & _).
  unfold kept in Hk. simpl in Hk.
  injection Hk as _ _ _ _ Hdeficit Hcover Hdays Hscore Hlabel Hresolve.
  assert (Hraw : raw_score c = raw_score cm)
    by (unfold raw_score; by rewrite Hdeficit, Hcover, Hdays).
  rewrite Hraw, Hdays.
  set (x := raw_score cm) in *.
  destruct (round2_close x) as [Hup Hdown].
  destruct (label_inv x) as (Hin & Hcrit & Hhigh & Hmed & Hlow).
  pose proof (round2_Z 80) as R80. pose proof (round2_Z 60) as R60.
  pose proof (round2_Z 40) as R40. pose proof (round2_Z 0) as R0.
  change (inject_Z 80) with 80%Q in R80. change (inject_Z 60) with 60%Q in R60.
  change (inject_Z 40) with 40%Q in R40. change (inject_Z 0) with 0%Q in R0.
  exists (round2 x), (label x), (Z.max 1 (days_from_now cm - 2)).
  split; [exact Hscore|]. split; [exact Hlabel|]. split; [exact Hresolve|].
  split; [apply Qabs_Qle_condition; split; lra|].
  split; [exact Hin|].
  split; [intros E; rewrite <- R80; apply round2_mono; auto|].
  split; [intros E; destruct (Hhigh E); split;
          [rewrite <- R60|rewrite <- R80]; apply round2_mono; lra|].
  split; [intros E; destruct (Hmed E); split;
          [rewrite <- R40|rewrite <- R60]; apply round2_mono; lra|].
  split; [intros E; rewrite <- R40; apply round2_mono; specialize (Hlow E); lra|].
  split; [|lia].
  intros Hd.
  assert (Hnn : (0 <= deficit_amount cm)%Q) by (rewrite Hdef; apply Qabs_nonneg).
  destruct (raw_score_bounds cm Hd Hnn) as [Hlo Hhi]. fold x in Hlo, Hhi.
  split; [rewrite <- R0; by apply round2_mono|].
  assert (R : (round2 (875 # 10) == 875 # 10)%Q).
  { rewrite (round2_proper (875 # 10) (Qmake 8750 100)) by reflexivity.
    rewrite round2_cents. reflexivity. }
  rewrite <- R. by apply round2_mono.
Qed.

Lemma reported_score_matches_label_witness :
  exists (s : Q) (l : string),
    severity_score Examples.busy_second = Some s
    /\ severity Examples.busy_second = Some l
    /\ (Qabs (s - raw_score Examples.busy_second) <= 1 # 200)%Q
    /\ (l = "medium" -> (40 <= s <= 60)%Q).
Proof.
  destruct busy_run as (report & Hrun & Hout & Hlist).
  destruct (reported_score_matches_label (RT := RefRuntime.runtime)
              Examples.busy_world (initial (PNum 1)) Examples.busy_final
              agent_id (PNum 1) report Hrun Hout Examples.busy_second
              (busy_second_reported report Hlist))
    as (s & l & d & H1 & H2 & _ & H3 & _ & _ & _ & H4 & _).
  exists s, l. exact (conj H1 (conj H2 (conj H3 H4))).
Defined.

Lemma flows_sums `{RT : PyRuntime} (ps : list Forecast.Payment) :
  Forall (fun p => exists tag, Forecast.payment_ptype p = Ok tag) ps ->
  forall acc,
    flows acc ps
    = Ok (fold_left Qplus
            (map balance_amt (List.filter (fun p => negb (is_outflow p)) ps))
            (fst acc),
          fold_left Qplus (map balance_amt (List.filter is_outflow ps)) (snd acc)).
Proof.
  induction 1 as [|p ps [tag Htag] _ IH]; intros [i o]; [done|].
  assert (Hout : is_outflow p = String.eqb tag "outflow")
    by (unfold is_outflow, tag_of; by rewrite Htag).
  cbn [flows List.filter]. rewrite Htag, Hout. cbn [bind fst snd].
  destruct (String.eqb tag "inflow") eqn:Ein.
  - apply String.eqb_eq in Ein. subst tag. rewrite IH. reflexivity.
  - destruct (String.eqb tag "outflow"); rewrite IH; reflexivity.
Qed.

(** X12. When the summary and the payments are fetched, the opening and the
    minimum balance of the summary are numbers and every payment has a text
    type tag, [get_current_balance] sets the current balance to the opening
    balance plus the inflows minus the outflows, the outflows being the
    payments tagged "outflow" and the inflows all the others, and the
    balance gap to the current balance minus the minimum balance; it leaves
    the error as it was. *)
Theorem current_balance_position `{RT : PyRuntime} (w : World) (state : State)
    (org_data : Summary.t) (opening minimum : Q) (ps : list Forecast.Payment) :
  summary w = Ok org_data ->
  py_float (match Summary.opening_balance org_data with
            | Some v => v
            | None => get_default (Summary.current_balance org_data) (PNum 0)
            end) = Ok opening ->
  py_float (get_default (Summary.minimum_balance_required org_data)
                        (PNum 500000)) = Ok minimum ->
  payments w = Ok ps ->
  Forall (fun p => exists tag, Forecast.payment_ptype p = Ok tag) ps ->
  let inflows :=
    fold_left Qplus
      (map balance_amt (List.filter (fun p => negb (is_outflow p)) ps)) 0%Q in
  let outflows :=
    fold_left Qplus (map balance_amt (List.filter is_outflow ps)) 0%Q in
  let state' := get_current_balance w state in
  error state' = error state
  /\ opening_balance state' = Some opening
  /\ minimum_balance state' = Some minimum
  /\ recent_inflows state' = Some inflows
  /\ recent_outflows state' = Some outflows
  /\ current_balance state' = Some (opening + inflows - outflows)%Q
  /\ balance_gap state' = Some (opening + inflows - outflows - minimum)%Q.
Proof.
  intros Hsum Hopen Hmin Hpay Htags inflows outflows state'.
  subst state'. unfold get_current_balance.
  rewrite Hsum. cbn [bind]. rewrite Hopen. cbn [bind]. rewrite Hmin. cbn [bind].
  rewrite Hpay. cbn [bind]. rewrite (flows_sums ps Htags). cbn [bind].
  simpl. by repeat split.
Qed.

Lemma current_balance_position_witness :
  let state' := get_current_balance (RT := RefRuntime.runtime)
                  Examples.calm_world (initial (PNum 1)) in
  recent_inflows state' = Some (0 + 700)%Q
  /\ recent_outflows state' = Some (0 + 200)%Q
  /\ current_balance state' = Some (400 + (0 + 700) - (0 + 200))%Q.
Proof.
  destruct (current_balance_position (RT := RefRuntime.runtime)
              Examples.calm_world (initial (PNum 1))
              {| Summary.opening_balance := Some (PNum 400);
                 Summary.current_balance := None;
                 Summary.minimum_balance_required := Some (PNum 1000);
                 Summary.credit_line_limit := Some (PNum 500);
                 Summary.credit_line_utilized := Some (PNum 100) |}
              400 1000
              (match payments Examples.calm_world with
               | Ok ps => ps
               | Raise _ => []
               end))
    as (_ & _ & _ & H1 & H2 & H3 & _).
  - reflexivity.
  - reflexivity.
  - reflexivity.
  - reflexivity.
  - repeat constructor; eexists; by_evaluation.
  - exact (conj H1 (conj H2 H3)).
Defined.

End CollisionStages.

(** ** Forecast agent: the history, the features and the forecast *)

Module ForecastStagesProps.
Import Py Forecast ForecastStages ForecastInvariants.
Import ForecastProps RoundingProps.

(** An option that evaluates to [Some] has a value. *)
Lemma evaluates_to_Some {A} (o : option A) :
  (if o is Some _ then true else false) = true -> exists a, o = Some a.
Proof.
  destruct o; [eauto|discriminate].
Qed.


Section History.
Context {RT : PyRuntime}.

Lemma aggregate_one_entry (m : gmap Z Q) (p : Payment) :
  aggregate_one m p
  = match entry p with
    | Ok None => Ok m
    | Ok (Some (d, a)) => Ok (add_to m d a)
    | Raise e => Raise e
    end.
Proof.
  unfold aggregate_one, entry.
  destruct (payment_day p) as [d|]; [|done].
  destruct (payment_ptype p) as [t|]; cbn [bind]; [|done].
  case_conditions; reflexivity.
Qed.







Lemma aggregate_cons (m : gmap Z Q) (p : Payment) (ps : list Payment) :
  aggregate m (p :: ps)
  = match entry p with
    | Ok None => aggregate m ps
    | Ok (Some (d, a)) => aggregate (add_to m d a) ps
    | Raise e => Raise e
    end.
Proof.
  simpl. rewrite aggregate_one_entry.
  by destruct (entry p) as [[[d a]|]|].
Qed.



End History.

Lemma elem_of_sorted_dates (m : gmap Z Q) (d : Z) :
  d ∈ sorted_dates m <-> is_Some (m !! d).
Proof.
  unfold sorted_dates. rewrite merge_sort_Permutation.
  change (map fst (map_to_list m)) with ((map_to_list m).*1).
  rewrite list_elem_of_fmap. split.
  - intros ([k v] & -> & H). apply elem_of_map_to_list in H. simpl. eauto.
  - intros [v H]. exists (d, v). split; [done|]. by apply elem_of_map_to_list.
Qed.

Lemma StronglySorted_strict (l : list Z) :
  StronglySorted Z.le l -> NoDup l -> StronglySorted Z.lt l.
Proof.
  induction 1 as [|x l Hl IH Hx]; intros Hnd; constructor.
  - apply IH. by apply NoDup_cons in Hnd as [_ ?].
  - apply NoDup_cons in Hnd as [Hnot _].
    apply Forall_forall. intros y Hy. rewrite Forall_forall in Hx.
    specialize (Hx y Hy). assert (x <> y) by (intros ->; done). lia.
Qed.

Lemma sorted_dates_sorted (m : gmap Z Q) : StronglySorted Z.lt (sorted_dates m).
Proof.
  apply StronglySorted_strict.
  - unfold sorted_dates. apply StronglySorted_merge_sort; apply _.
  - unfold sorted_dates. rewrite merge_sort_Permutation.
    apply (NoDup_fst_map_to_list m).
Qed.


Section Days.
Context {RT : PyRuntime}.

Lemma entry_day (p : Payment) (o : option (Z * Q)) :
  entry p = Ok o -> payment_day p = fst <$> o.
Proof.
  unfold entry. destruct (payment_day p) as [d|]; [|by intros [= <-]].
  destruct (payment_ptype p) as [t|]; cbn [bind]; [|discriminate].
  case_conditions; by intros [= <-].
Qed.

Lemma aggregate_days (ps : list Payment) : forall m m',
  aggregate m ps = Ok m' ->
  forall d, is_Some (m' !! d) <->
            is_Some (m !! d) \/ exists p, p ∈ ps /\ payment_day p = Some d.
Proof.
  induction ps as [|p ps IH]; intros m m' H d.
  - injection H as <-. split; [by left|].
    intros [?|(p & Hp & _)]; [done|inversion Hp].
  - rewrite aggregate_cons in H.
    destruct (entry p) as [[[k a]|]|] eqn:E; [| |discriminate].
    + apply entry_day in E. simpl in E.
      rewrite (IH _ _ H d). unfold add_to. split.
      * intros [Hs|(q & Hq & Hd)].
        -- destruct (decide (d = k)) as [->|Hne].
           ++ right. exists p. split; [apply elem_of_cons; by left|done].
           ++ left. by rewrite lookup_insert_ne in Hs.
        -- right. exists q. split; [apply elem_of_cons; by right|done].
      * intros [Hs|(q & Hq & Hd)].
        -- left. destruct (decide (d = k)) as [->|Hne].
           ++ rewrite lookup_insert_eq. eauto.
           ++ by rewrite lookup_insert_ne.
        -- apply elem_of_cons in Hq as [->|Hq].
           ++ left. assert (d = k) by congruence. subst.
              rewrite lookup_insert_eq. eauto.
           ++ right. eauto.
    + apply entry_day in E. simpl in E.
      rewrite (IH _ _ H d). split.
      * intros [?|(q & Hq & Hd)]; [by left|].
        right. exists q. split; [apply elem_of_cons; by right|done].
      * intros [?|(q & Hq & Hd)]; [by left|].
        apply elem_of_cons in Hq as [->|Hq]; [congruence|]. right. eauto.
Qed.

End Days.

(** X13. When [load_historical_data] ends with step "data_loaded", the
    history has one entry for every day on which some payment record is
    dated, in strictly ascending order of date; there are as many net
    changes as dates, [record_count] counts the days, [start_date] and
    [end_date] are the first and the last day, and the history has at least
    [MIN_HISTORICAL_DAYS] days unless partial histories are allowed, in
    which case [partial_history] is set. *)
Theorem loaded_history_wellformed `{RT : PyRuntime} (cfg : Config)
    (ps : list Payment) (state state' : State) :
  load_historical_data cfg (inr ps) state = Ok state' ->
  current_step state' = "data_loaded" ->
  exists hd,
    historical_data state' = Some hd
    /\ error state' = error state
    /\ StronglySorted Z.lt (dates hd)
    /\ (forall d, d ∈ dates hd <-> exists p, p ∈ ps /\ payment_day p = Some d)
    /\ length (net_changes hd) = length (dates hd)
    /\ record_count hd = length (dates hd)
    /\ start_date hd = head (dates hd)
    /\ end_date hd = last (dates hd)
    /\ (MIN_DAYS cfg <= Z.of_nat (record_count hd)
        \/ (ALLOW_PARTIAL cfg = true /\ partial_history state' = Some true)).
Proof.
  unfold load_historical_data.
  destruct (negb (truthy (org_id state))); [intros [= <-]; discriminate|].
  destruct ps as [|p ps]; [intros [= <-]; discriminate|].
  destruct (aggregate ∅ (p :: ps)) as [m|] eqn:Eagg; cbn [bind]; [|discriminate].
  destruct (Z.of_nat (length (sorted_dates m)) <? MIN_DAYS cfg) eqn:Eshort;
    destruct (ALLOW_PARTIAL cfg) eqn:Eallow; simpl;
    intros [= <-]; try discriminate; intros _;
    (eexists; split; [reflexivity|]; simpl;
     split; [reflexivity|];
     split; [apply sorted_dates_sorted|];
     split; [intros d; rewrite elem_of_sorted_dates, (aggregate_days _ _ _ Eagg d);
             rewrite lookup_empty; split;
             [intros [[? [=]]|?]; done | by right]|];
     split; [by rewrite length_map|];
     repeat split; try done).
  - by right.
  - left. apply Z.ltb_ge in Eshort. exact Eshort.
  - left. apply Z.ltb_ge in Eshort. exact Eshort.
Qed.

Lemma loaded_history_wellformed_witness :
  exists hd,
    historical_data ForecastExamples.two_loaded = Some hd
    /\ dates hd = [739252; 739253]
    /\ StronglySorted Z.lt (dates hd)
    /\ record_count hd = length (dates hd).
Proof.
  destruct (loaded_history_wellformed (RT := RefRuntime.runtime)
              ForecastExamples.two_days
              [ForecastExamples.good; ForecastExamples.bad_amount]
              (initial (PNum 1)) ForecastExamples.two_loaded)
    as (hd & Hhd & _ & Hsorted & _ & _ & Hcount & _).
  - by_evaluation.
  - by_evaluation.
  - exists hd. split; [exact Hhd|]. split; [|exact (conj Hsorted Hcount)].
    assert (H : dates <$> historical_data ForecastExamples.two_loaded
                = Some [739252; 739253]) by by_evaluation.
    rewrite Hhd in H. by injection H.
Defined.





Lemma rows_snd (nc : list Q) (days : list (pydate * Q)) : forall i,
  snd (rows nc i days) = days.*2.
Proof.
  induction days as [|[d c] days IH]; intros i; simpl; [done|].
  specialize (IH (S i)). destruct (rows nc (S i) days). simpl in *. by f_equal.
Qed.

Lemma rows_lookup (nc : list Q) (days : list (pydate * Q)) : forall i k,
  fst (rows nc i days) !! k
  = (fun day => features nc (i + k) (fst day)) <$> days !! k.
Proof.
  induction days as [|[d c] days IH]; intros i k; simpl; [done|].
  specialize (IH (S i)). destruct (rows nc (S i) days) as [X y]. simpl in *.
  destruct k as [|k]; simpl.
  - by rewrite Nat.add_0_r.
  - rewrite IH. by rewrite <- plus_n_Sm.
Qed.

Lemma rows_length (nc : list Q) (days : list (pydate * Q)) (i : nat) :
  length (fst (rows nc i days)) = length days
  /\ length (snd (rows nc i days)) = length days.
Proof.
  split; [|by rewrite rows_snd, length_fmap].
  revert i. induction days as [|[d c] days IH]; intros i; simpl; [done|].
  specialize (IH (S i)). destruct (rows nc (S i) days). simpl in *. by f_equal.
Qed.

Lemma rows_width (nc : list Q) (days : list (pydate * Q)) (i : nat) :
  Forall (fun row => length row = 10%nat) (fst (rows nc i days)).
Proof.
  apply Forall_lookup. intros k row Hk. rewrite rows_lookup in Hk.
  destruct (days !! k); simpl in Hk; [|discriminate].
  by injection Hk as <-.
Qed.

Lemma split_index_spec (n : nat) :
  Z.of_nat (split_index n) = Z.of_nat n * 8 / 10
  /\ (split_index n <= n)%nat
  /\ ((0 < n)%nat -> (split_index n < n)%nat).
Proof.
  assert (H : Z.of_nat (split_index n) = Z.of_nat n * 8 / 10).
  { unfold split_index, Qfloor, Qmult, inject_Z. simpl.
    rewrite Z2Nat.id; [reflexivity|]. apply Z.div_pos; lia. }
  split; [exact H|].
  assert (Z.of_nat n * 8 / 10 <= Z.of_nat n)
    by (apply Z.div_le_upper_bound; lia).
  split; [lia|]. intros Hn.
  assert (Z.of_nat n * 8 / 10 < Z.of_nat n)
    by (apply Z.div_lt_upper_bound; lia).
  lia.
Qed.

Lemma features_past (nc nc' : list Q) (i : nat) (d : pydate) :
  take i nc = take i nc' -> features nc i d = features nc' i d.
Proof.
  intros H.
  assert (Hlag : forall k, (0 < k)%nat -> lag k i nc = lag k i nc').
  { intros k Hk. unfold lag. destruct (Nat.leb k i) eqn:E; [|done].
    apply Nat.leb_le in E. rewrite !nth_lookup.
    rewrite <- (lookup_take_lt nc i (i - k)) by lia.
    rewrite <- (lookup_take_lt nc' i (i - k)) by lia.
    by rewrite H. }
  assert (Hroll : forall k, rolling k i nc = rolling k i nc').
  { intros k. unfold rolling. by rewrite H. }
  unfold features. rewrite !Hlag by lia. by rewrite !Hroll.
Qed.

(** X15. [prepare_features] splits the feature rows in the order of time:
    the training rows followed by the validation rows are the rows of all
    days, each of ten features; the first [int(0.8 * n)] days are the
    training set, the validation set is what remains and is not empty when
    there is a day, and it has as many targets as rows, so that the
    residuals of [generate_forecast] can be computed. *)
Theorem prepare_features_split
    (seasonality : option Seasonality) (state state' : State)
    (training : option Training) :
  has_error state = false ->
  prepare_features seasonality state = Ok (state', training) ->
  exists hd tr Xv yv,
    historical_data state = Some hd
    /\ training = Some tr
    /\ X_val state' = Some Xv
    /\ y_val state' = Some yv
    /\ let days := zip (dates hd) (net_changes hd) in
       let n := length days in
       (X_train tr ++ Xv)%list = fst (rows (net_changes hd) 0 days)
       /\ (y_train tr ++ yv)%list = days.*2
       /\ (length (dates hd) = length (net_changes hd) ->
           (y_train tr ++ yv)%list = net_changes hd)
       /\ Forall (fun row => length row = 10%nat) (X_train tr ++ Xv)
       /\ length (X_train tr) = split_index n
       /\ length (y_train tr) = split_index n
       /\ length Xv = (n - split_index n)%nat
       /\ length yv = (n - split_index n)%nat
       /\ Z.of_nat (split_index n) = Z.of_nat n * 8 / 10
       /\ ((0 < n)%nat -> Xv <> [])
       /\ residuals_defined state'.
Proof.
  intros Herr. unfold prepare_features. rewrite Herr.
  destruct (historical_data state) as [hd|]; cbn [bind or_raise]; [|discriminate].
  destruct seasonality as [season|]; cbn [bind or_raise]; [|discriminate].
  set (days := zip (dates hd) (net_changes hd)).
  pose proof (rows_snd (net_changes hd) days 0%nat) as Hsnd.
  pose proof (rows_length (net_changes hd) days 0%nat) as [HlenX Hleny].
  pose proof (rows_width (net_changes hd) days 0%nat) as Hwidth.
  destruct (rows (net_changes hd) 0 days) as [X y] eqn:Erows. simpl in *.
  intros [= <- <-].
  destruct (split_index_spec (length X)) as (Hidx & Hle & Hlt).
  exists hd. do 3 eexists.
  split; [reflexivity|]. split; [reflexivity|].
  split; [reflexivity|]. split; [reflexivity|].
  cbv zeta. fold days. rewrite Erows. simpl. rewrite <- HlenX.
  split; [apply take_drop|].
  split; [rewrite take_drop; exact Hsnd|].
  split.
  { intros Hsame. rewrite take_drop, Hsnd. subst days.
    apply snd_zip. lia. }
  split; [by rewrite take_drop|].
  split; [rewrite length_take; lia|].
  split; [rewrite length_take; lia|].
  split; [by rewrite length_drop|].
  split; [rewrite length_drop; lia|].
  split; [exact Hidx|].
  split.
  { intros Hn Hnil. apply (f_equal length) in Hnil.
    rewrite length_drop in Hnil. simpl in Hnil. specialize (Hlt Hn). lia. }
  unfold residuals_defined. simpl.
  destruct (drop (split_index (length X)) X) eqn:E; [done|].
  apply (f_equal length) in E. rewrite length_drop in E. rewrite length_drop.
  simpl in E |- *. lia.
Qed.

Lemma prepare_features_split_witness :
  exists tr Xv yv,
    snd ForecastExamples.two_featured = Some tr
    /\ X_val (fst ForecastExamples.two_featured) = Some Xv
    /\ y_val (fst ForecastExamples.two_featured) = Some yv
    /\ length (X_train tr) = 1%nat
    /\ length Xv = 1%nat
    /\ residuals_defined (fst ForecastExamples.two_featured).
Proof.
  destruct (prepare_features_split (Some ForecastExamples.flat)
              ForecastExamples.two_loaded (fst ForecastExamples.two_featured)
              (snd ForecastExamples.two_featured))
    as (hd & tr & Xv & yv & Hhd & Htr & HXv & Hyv & H).
  - by_evaluation.
  - by_evaluation.
  - cbv zeta in H.
    destruct H as (_ & _ & _ & _ & Htrain & _ & Hval & _ & _ & _ & Hres).
    assert (Hn : length (zip (dates hd) (net_changes hd)) = 2%nat).
    { assert (H : (fun h => length (zip (dates h) (net_changes h)))
                  <$> historical_data ForecastExamples.two_loaded = Some 2%nat)
        by by_evaluation.
      rewrite Hhd in H. by injection H. }
    rewrite Hn in Htrain, Hval.
    exists tr, Xv, yv.
    exact (conj Htr (conj HXv (conj Hyv (conj Htrain (conj Hval Hres))))).
Defined.

(** X16. The feature row of a day depends on the date of that day and on
    the net changes of the days before it only: two histories that agree on
    the date of day [i] and on the net changes before day [i] have the same
    row [i]. *)
Theorem features_use_only_the_past (dates dates' : list pydate)
    (net_changes net_changes' : list Q) (i : nat) :
  take i net_changes = take i net_changes' ->
  dates !! i = dates' !! i ->
  (i < length net_changes)%nat -> (i < length net_changes')%nat ->
  fst (rows net_changes 0 (zip dates net_changes)) !! i
  = fst (rows net_changes' 0 (zip dates' net_changes')) !! i.
Proof.
  intros Hpast Hdate Hi Hi'. rewrite !rows_lookup, !lookup_zip_with, <- Hdate.
  destruct (dates !! i) as [d|]; simpl; [|done].
  destruct (lookup_lt_is_Some_2 net_changes i Hi) as [c ->].
  destruct (lookup_lt_is_Some_2 net_changes' i Hi') as [c' ->].
  simpl. f_equal. by apply features_past.
Qed.

Lemma features_use_only_the_past_witness :
  fst (rows [1; 2; 3]%Q 0 (zip [739252; 739253; 739254] [1; 2; 3]%Q)) !! 1%nat
  = fst (rows [1; 7; 9]%Q 0 (zip [739252; 739253; 739254] [1; 7; 9]%Q)) !! 1%nat.
Proof.
  apply (features_use_only_the_past [739252; 739253; 739254]
           [739252; 739253; 739254] [1; 2; 3]%Q [1; 7; 9]%Q 1%nat).
  - reflexivity.
  - reflexivity.
  - simpl. lia.
  - simpl. lia.
Defined.

Section Series.
Context {RT : PyRuntime}.
Variable model : list Q -> Q.
Variable state : State.
Variable net_changes : list Q.
Variable last_date : Z.

Lemma forecast_day_inv (acc acc' : Loop) (off : Z) :
  forecast_day model state net_changes last_date acc off = Ok acc' ->
  exists date change sd,
    residual_std model state net_changes = Ok sd
    /\ acc' = {| current_balance := (current_balance acc + change)%Q;
                 changes := changes acc ++ [change];
                 results := results acc
                   ++ [entry_of date (current_balance acc + change) change sd] |}.
Proof.
  unfold forecast_day.
  destruct (date_add last_date (off + 1)) as [fd|]; cbn [bind]; [|discriminate].
  fold (residual_std model state net_changes).
  destruct (residual_std model state net_changes) as [sd|]; cbn [bind];
    [|discriminate].
  intros [= <-]. by do 3 eexists.
Qed.

Lemma Qabs_le (x e : Q) : (- e <= x)%Q -> (x <= e)%Q -> (Qabs x <= e)%Q.
Proof. intros. by apply Qabs_Qle_condition. Qed.

Lemma coherent_step (sd : Q) (acc acc' : Loop) (off : Z) :
  residual_std model state net_changes = Ok sd ->
  coherent sd acc ->
  forecast_day model state net_changes last_date acc off = Ok acc' ->
  coherent sd acc'.
Proof.
  intros Hsd (Hlen & Hall & Hlast & Hadj) Hday.
  destruct (forecast_day_inv _ _ _ Hday) as (date & change & sd' & Hsd' & ->).
  assert (sd' = sd) by congruence. subst sd'. clear Hsd'.
  set (b := (current_balance acc + change)%Q).
  destruct (round2_close b) as [Hb1 Hb2].
  destruct (round2_close change) as [Hc1 Hc2].
  unfold coherent. cbn [changes results current_balance].
  split; [|split; [|split]].
  - rewrite !length_app. simpl. lia.
  - intros i d Hi.
    destruct (decide (i < length (results acc))%nat) as [Hlt|Hge].
    + rewrite lookup_app_l in Hi by done.
      destruct (Hall i d Hi) as (dt & bl & ch & Hch & Hd).
      exists dt, bl, ch. split; [|exact Hd].
      rewrite lookup_app_l; [exact Hch|]. by apply lookup_lt_Some in Hch.
    + rewrite lookup_app_r in Hi by lia.
      destruct (i - length (results acc))%nat as [|k] eqn:Ek; simpl in Hi;
        [|by destruct k].
      injection Hi as <-. exists date, b, change. split; [|done].
      rewrite lookup_app_r by lia.
      replace (i - length (changes acc))%nat with 0%nat by lia. done.
  - intros a Ha. rewrite last_snoc in Ha. injection Ha as <-.
    cbn [entry_of predicted_balance]. apply Qabs_le; lra.
  - intros i a c Ha Hc.
    destruct (decide (S i < length (results acc))%nat) as [Hlt|Hge].
    + rewrite lookup_app_l in Ha by lia. rewrite lookup_app_l in Hc by lia.
      by eapply Hadj.
    + rewrite lookup_app_r in Hc by lia.
      destruct (S i - length (results acc))%nat as [|k] eqn:Ek; simpl in Hc;
        [|by destruct k].
      injection Hc as <-. cbn [entry_of predicted_balance daily_change].
      rewrite lookup_app_l in Ha by lia.
      assert (Hla : last (results acc) = Some a).
      { rewrite last_lookup. rewrite <- Ha. f_equal. lia. }
      specialize (Hlast a Hla). apply Qabs_Qle_condition in Hlast as [H1 H2].
      subst b. apply Qabs_le; lra.
Qed.

Lemma coherent_loop (sd : Q) (offsets : list Z) : forall acc out,
  (offsets <> [] -> residual_std model state net_changes = Ok sd) ->
  coherent sd acc ->
  forecast_loop model state net_changes last_date acc offsets = Ok out ->
  coherent sd out
  /\ length (results out) = (length (results acc) + length offsets)%nat.
Proof.
  induction offsets as [|off offsets IH]; intros acc out Hsd Hacc; simpl.
  - intros [= <-]. split; [exact Hacc|lia].
  - destruct (forecast_day model state net_changes last_date acc off)
      as [acc'|] eqn:Eday; cbn [bind]; [|discriminate].
    intros Hloop.
    assert (Hs : residual_std model state net_changes = Ok sd) by by apply Hsd.
    destruct (IH acc' out (fun _ => Hs) (coherent_step sd _ _ _ Hs Hacc Eday) Hloop)
      as [Hout Hlen].
    split; [exact Hout|].
    destruct (forecast_day_inv _ _ _ Eday) as (? & ? & ? & _ & ->).
    simpl in Hlen. rewrite length_app in Hlen. simpl in Hlen. lia.
Qed.

End Series.

Lemma generate_forecast_coherent `{RT : PyRuntime} (model : list Q -> Q)
    (payments_all : option (list Payment)) (state state' : State) :
  has_error state = false ->
  generate_forecast model payments_all state = Ok state' ->
  exists hd out sd,
    historical_data state = Some hd
    /\ residual_std model state (net_changes hd) = Ok sd
    /\ forecast_results state' = Some (results out)
    /\ predicted_daily_changes state' = Some (changes out)
    /\ length (results out) = 91%nat
    /\ coherent sd out.
Proof.
  intros Herr. unfold generate_forecast. rewrite Herr.
  destruct (historical_data state) as [hd|]; cbn [bind or_raise]; [|discriminate].
  destruct (last (dates hd)) as [last_date|]; cbn [bind or_raise]; [|discriminate].
  destruct (py_float _) as [opening|]; cbn [bind]; [|discriminate].
  destruct (balance_at _ _ _) as [balance|]; cbn [bind]; [|discriminate].
  destruct (forecast_loop _ _ _ _ _ _) as [out|] eqn:Eloop; cbn [bind];
    [|discriminate].
  intros [= <-].
  assert (Hsd : exists sd, residual_std model state (net_changes hd) = Ok sd).
  { change (range 91) with (0 :: map Z.of_nat (seq 1 90)) in Eloop.
    simpl in Eloop.
    destruct (forecast_day _ _ _ _ _ 0) as [acc1|] eqn:E1; cbn [bind] in Eloop;
      [|discriminate Eloop].
    destruct (forecast_day_inv _ _ _ _ _ _ _ E1) as (? & ? & sd & Hsd & _).
    eauto. }
  destruct Hsd as [sd Hsd].
  assert (Hinit : coherent sd {| current_balance := balance; changes := [];
                                 results := [] |}).
  { unfold coherent. simpl. repeat split; intros; discriminate. }
  destruct (coherent_loop model state (net_changes hd) last_date sd (range 91)
              _ out (fun _ => Hsd) Hinit Eloop) as [Hout Hlen].
  exists hd, out, sd. cbn [forecast_results predicted_daily_changes].
  split; [done|]. split; [done|]. split; [done|]. split; [done|].
  split; [exact Hlen|exact Hout].
Qed.

(** X17. Whenever [generate_forecast] returns without error, the forecast
    has 91 days and 91 predicted changes, the daily change of a day is its
    predicted change rounded to two decimals, and the predicted balances of
    two days in a row differ by the daily change of the second up to 0.015
    of rounding. *)
Theorem forecast_series_consistent `{RT : PyRuntime} (model : list Q -> Q)
    (payments_all : option (list Payment)) (state state' : State) :
  has_error state = false ->
  generate_forecast model payments_all state = Ok state' ->
  exists rs chs,
    forecast_results state' = Some rs
    /\ predicted_daily_changes state' = Some chs
    /\ length rs = 91%nat
    /\ length chs = 91%nat
    /\ (forall i d, rs !! i = Some d ->
          exists change, chs !! i = Some change /\ daily_change d = round2 change)
    /\ (forall i a b, rs !! i = Some a -> rs !! S i = Some b ->
          (Qabs (predicted_balance b - predicted_balance a - daily_change b)
           <= 3 # 200)%Q).
Proof.
  intros Herr Hgen.
  destruct (generate_forecast_coherent model payments_all state state' Herr Hgen)
    as (hd & out & sd & _ & _ & Hrs & Hchs & Hlen & Hlc & Hall & _ & Hadj).
  exists (results out), (changes out).
  split; [exact Hrs|]. split; [exact Hchs|]. split; [exact Hlen|].
  split; [by rewrite Hlc|]. split; [|exact Hadj].
  intros i d Hi. destruct (Hall i d Hi) as (dt & bl & ch & Hch & ->).
  exists ch. by split.
Qed.

Lemma forecast_series_consistent_witness :
  exists rs a b,
    forecast_results ForecastExamples.drizzled = Some rs
    /\ length rs = 91%nat
    /\ rs !! 0%nat = Some a
    /\ rs !! 1%nat = Some b
    /\ (Qabs (predicted_balance b - predicted_balance a - daily_change b)
        <= 3 # 200)%Q.
Proof.
  destruct (forecast_series_consistent (RT := RefRuntime.runtime)
              ForecastExamples.drizzle (Some [ForecastExamples.good])
              ForecastExamples.loaded ForecastExamples.drizzled)
    as (rs & chs & Hrs & _ & Hlen & _ & _ & Hadj).
  - by_evaluation.
  - by_evaluation.
  - destruct (lookup_lt_is_Some_2 rs 0%nat) as [a Ha]; [lia|].
    destruct (lookup_lt_is_Some_2 rs 1%nat) as [b Hb]; [lia|].
    exists rs, a, b.
    exact (conj Hrs (conj Hlen (conj Ha (conj Hb (Hadj 0%nat a b Ha Hb))))).
Defined.




Lemma fold_py_min (rest : list Q) : forall x,
  let lo := fold_left py_min rest x in
  lo ∈ x :: rest /\ (lo <= x)%Q /\ Forall (fun y => (lo <= y)%Q) rest.
Proof.
  induction rest as [|y rest IH]; intros x; simpl.
  - split; [apply elem_of_cons; by left|]. split; [lra|constructor].
  - destruct (IH (py_min x y)) as (Hin & Hle & Hall).
    destruct (Qlt_le_dec y x) as [Hlt|Hge].
    + rewrite (proj1 (CollisionProps.py_min_spec x y) Hlt) in *.
      split; [apply elem_of_cons; by right|]. split; [lra|].
      constructor; [exact Hle|exact Hall].
    + rewrite (proj2 (CollisionProps.py_min_spec x y) Hge) in *.
      split.
      * apply elem_of_cons in Hin as [->|Hin]; [apply elem_of_cons; by left|].
        apply elem_of_cons. right. apply elem_of_cons. by right.
      * split; [exact Hle|]. constructor; [lra|exact Hall].
Qed.

Lemma py_max_spec (a b : Q) :
  ((a < b)%Q -> py_max a b = b) /\ ((b <= a)%Q -> py_max a b = a).
Proof.
  unfold py_max. split; intros H.
  - apply CollisionProps.Qlt_bool_iff in H. by rewrite H.
  - apply CollisionProps.Qlt_bool_false in H. by rewrite H.
Qed.

Lemma fold_py_max (rest : list Q) : forall x,
  let hi := fold_left py_max rest x in
  hi ∈ x :: rest /\ (x <= hi)%Q /\ Forall (fun y => (y <= hi)%Q) rest.
Proof.
  induction rest as [|y rest IH]; intros x; simpl.
  - split; [apply elem_of_cons; by left|]. split; [lra|constructor].
  - destruct (IH (py_max x y)) as (Hin & Hle & Hall).
    destruct (Qlt_le_dec x y) as [Hlt|Hge].
    + rewrite (proj1 (py_max_spec x y) Hlt) in *.
      split; [apply elem_of_cons; by right|]. split; [lra|].
      constructor; [exact Hle|exact Hall].
    + rewrite (proj2 (py_max_spec x y) Hge) in *.
      split.
      * apply elem_of_cons in Hin as [->|Hin]; [apply elem_of_cons; by left|].
        apply elem_of_cons. right. apply elem_of_cons. by right.
      * split; [exact Hle|]. constructor; [lra|exact Hall].
Qed.

(** X19. The summary of the output of the forecast agent: the forecast
    starts and ends on the dates of the first and the last forecast day,
    [current_balance] is the predicted balance of the first forecast day,
    [ending_balance] that of the last one, and [min_balance] and
    [max_balance] are predicted balances of the forecast between which all
    others lie. Without forecast days all of these are [None]. *)
Theorem forecast_summary_bounds {Drivers : Type}
    (now : string) (drivers : option Drivers) (model_info : option ModelInfo)
    (state state' : State) (out : Output Drivers) :
  prepare_output now drivers model_info state = (state', Some out) ->
  has_error state = false
  /\ forecast out = default [] (forecast_results state)
  /\ match forecast out with
     | [] =>
         Summary.forecast_start (summary out) = None
         /\ Summary.forecast_end (summary out) = None
         /\ Summary.current_balance (summary out) = None
         /\ Summary.ending_balance (summary out) = None
         /\ Summary.min_balance (summary out) = None
         /\ Summary.max_balance (summary out) = None
     | first :: _ =>
         exists final lo hi,
           last (forecast out) = Some final
           /\ Summary.forecast_start (summary out) = Some (date first)
           /\ Summary.forecast_end (summary out) = Some (date final)
           /\ Summary.current_balance (summary out) = Some (predicted_balance first)
           /\ Summary.ending_balance (summary out) = Some (predicted_balance final)
           /\ Summary.min_balance (summary out) = Some lo
           /\ Summary.max_balance (summary out) = Some hi
           /\ (forall d, d ∈ forecast out ->
                 (lo <= predicted_balance d)%Q /\ (predicted_balance d <= hi)%Q)
           /\ (exists d, d ∈ forecast out /\ predicted_balance d = lo)
           /\ (exists d, d ∈ forecast out /\ predicted_balance d = hi)
     end.
Proof.
  unfold prepare_output.
  destruct (has_error state); [discriminate|].
  intros [= <- <-]. split; [reflexivity|]. split; [reflexivity|].
  cbn [forecast summary].
  destruct (default [] (forecast_results state)) as [|first rest] eqn:E;
    [by repeat split|].
  destruct (last (first :: rest)) as [final|] eqn:Elast;
    [|by rewrite last_cons in Elast; destruct (last rest)].
  cbn [Summary.forecast_start Summary.forecast_end Summary.current_balance
       Summary.ending_balance Summary.min_balance Summary.max_balance].
  set (balances := map predicted_balance (first :: rest)).
  destruct (fold_py_min (map predicted_balance rest) (predicted_balance first))
    as (Hlo_in & Hlo_first & Hlo_all).
  destruct (fold_py_max (map predicted_balance rest) (predicted_balance first))
    as (Hhi_in & Hhi_first & Hhi_all).
  exists final, (fold_left py_min (map predicted_balance rest) (predicted_balance first)),
         (fold_left py_max (map predicted_balance rest) (predicted_balance first)).
  split; [reflexivity|]. split; [reflexivity|].
  split; [reflexivity|]. split; [reflexivity|].
  split.
  { subst balances. change (map predicted_balance (first :: rest))
      with (predicted_balance <$> first :: rest).
    by rewrite fmap_last, Elast. }
  split; [reflexivity|]. split; [reflexivity|].
  split.
  { intros d Hd. apply elem_of_cons in Hd as [->|Hd]; [split; assumption|].
    rewrite Forall_forall in Hlo_all, Hhi_all.
    assert (Hin : predicted_balance d ∈ map predicted_balance rest)
      by (by apply (list_elem_of_fmap_2 predicted_balance)).
    split; [by apply Hlo_all|by apply Hhi_all]. }
  split.
  - change (predicted_balance first :: map predicted_balance rest)
      with (predicted_balance <$> first :: rest) in Hlo_in.
    apply list_elem_of_fmap in Hlo_in as (d & Hd & Hin). eauto.
  - change (predicted_balance first :: map predicted_balance rest)
      with (predicted_balance <$> first :: rest) in Hhi_in.
    apply list_elem_of_fmap in Hhi_in as (d & Hd & Hin). eauto.
Qed.

Lemma forecast_summary_bounds_witness :
  exists out first,
    snd ForecastExamples.drizzled_output = Some out
    /\ head (forecast out) = Some first
    /\ Summary.current_balance (summary out) = Some (predicted_balance first)
    /\ Summary.forecast_start (summary out) = Some (date first).
Proof.
  destruct (evaluates_to_Some (snd ForecastExamples.drizzled_output))
    as [out Hout]; [by_evaluation|].
  assert (Heq : prepare_output "2025-01-02T09:00:00" None None
                  ForecastExamples.drizzled
                = (fst ForecastExamples.drizzled_output, Some out)).
  { rewrite <- Hout. unfold ForecastExamples.drizzled_output.
    by destruct (prepare_output _ _ _ _). }
  destruct (forecast_summary_bounds _ _ _ _ _ _ Heq) as (_ & Hlist & H).
  destruct (forecast out) as [|first rest] eqn:Ef.
  - exfalso. assert (Hlen : length (default [] (forecast_results
                                       ForecastExamples.drizzled)) = 91%nat)
      by by_evaluation.
    rewrite <- Hlist in Hlen. discriminate Hlen.
  - destruct H as (final & lo & hi & _ & Hstart & _ & Hcur & _).
    exists out, first. split; [exact Hout|]. split; [by rewrite Ef|].
    exact (conj Hcur Hstart).
Defined.

End ForecastStagesProps.

(** ** The forecast agent and the collision agent together *)

Module HandoverProps.
Import Py.
Import CollisionStages ForecastStagesProps.

(** X20. A failure of the forecast agent does not reach the collision
    report. With the error set (no payments, say), [prepare_features],
    [generate_forecast] and [prepare_output] hand the state on and no
    output is set; on the [{}] that [run_forecasting_agent] returns for a
    state without output, the collision agent, once it has the balance,
    reports success without collisions and with [immediate_action]
    "MONITOR". *)
Theorem forecast_failure_is_silent `{RT : PyRuntime} {Drivers : Type}
    (seasonality : option ForecastStages.Seasonality) (model : list Q -> Q)
    (payments_all : option (list Forecast.Payment)) (now : string)
    (drivers : option Drivers) (model_info : option ForecastStages.ModelInfo)
    (failed : Forecast.State) :
  Forecast.has_error failed = true ->
  ForecastStages.prepare_features seasonality failed = Ok (failed, None)
  /\ Forecast.generate_forecast model payments_all failed = Ok failed
  /\ ForecastStages.prepare_output now drivers model_info failed = (failed, None)
  /\ forall (w : Collision.World) (state0 : Collision.State)
            (fo : Collision.ForecastOutput.t),
       Handover.answers
         (snd (ForecastStages.prepare_output now drivers model_info failed)) fo ->
       Collision.forecasting_agent w = Ok fo ->
       Collision.in_error (Collision.get_current_balance w state0) = false ->
       exists state report,
         Collision.run w state0 = Ok state
         /\ Collision.output state
            = Some (Collision.Success Collision.agent_id
                      (Collision.org_id state0) report)
         /\ Collision.collisions_91d report = []
         /\ Collision.total_collisions_detected report = 0%nat
         /\ Collision.immediate_action report = "MONITOR".
Proof.
  intros Herr.
  assert (Hout : ForecastStages.prepare_output now drivers model_info failed
                 = (failed, None))
    by (unfold ForecastStages.prepare_output; by rewrite Herr).
  split; [unfold ForecastStages.prepare_features; by rewrite Herr|].
  split; [unfold Forecast.generate_forecast; by rewrite Herr|].
  split; [exact Hout|].
  intros w state0 fo Hans Hfo Hbal. rewrite Hout in Hans. simpl in Hans. subst fo.
  destruct (fetch_empty_forecast w state0 Handover.empty Hbal Hfo eq_refl)
    as (E4 & F4 & O4).
  destruct (quiet_run w (Collision.fetch w state0) E4 F4)
    as (state & report & Hrun & Hrep & H1 & H2 & _ & _ & H3 & _).
  exists state, report. rewrite run_unfold, <- O4. done.
Qed.

Lemma forecast_failure_is_silent_witness :
  Forecast.error ForecastExamples.no_history = Some "no_payments"
  /\ ForecastStages.prepare_output (Drivers := unit) "2025-01-01T09:00:00"
       None None ForecastExamples.no_history
     = (ForecastExamples.no_history, None)
  /\ exists state report,
       Collision.run (RT := RefRuntime.runtime) Examples.silent_world
         (Collision.initial (PNum 1)) = Ok state
       /\ Collision.output state
          = Some (Collision.Success Collision.agent_id (PNum 1) report)
       /\ Collision.immediate_action report = "MONITOR".
Proof.
  destruct (forecast_failure_is_silent (RT := RefRuntime.runtime)
              (Drivers := unit) None ForecastExamples.drizzle None
              "2025-01-01T09:00:00" None None ForecastExamples.no_history)
    as (_ & _ & Hout & Hsilent).
  - by_evaluation.
  - split; [by_evaluation|]. split; [exact Hout|].
    destruct (Hsilent Examples.silent_world (Collision.initial (PNum 1))
                Handover.empty)
      as (state & report & Hrun & Hrep & _ & _ & Hact).
    + rewrite Hout. reflexivity.
    + reflexivity.
    + by_evaluation.
    + exists state, report. exact (conj Hrun (conj Hrep Hact)).
Defined.

Lemma generate_forecast_error `{RT : PyRuntime} (model : list Q -> Q)
    (payments_all : option (list Forecast.Payment))
    (state state' : Forecast.State) :
  Forecast.generate_forecast model payments_all state = Ok state' ->
  Forecast.error state' = Forecast.error state.
Proof.
  unfold Forecast.generate_forecast.
  destruct (Forecast.has_error state); [by intros [= <-]|].
  destruct (Forecast.historical_data state) as [hd|]; cbn [bind or_raise];
    [|discriminate].
  destruct (last (Forecast.dates hd)); cbn [bind or_raise]; [|discriminate].
  destruct (py_float _); cbn [bind]; [|discriminate].
  destruct (Forecast.balance_at _ _ _); cbn [bind]; [|discriminate].
  destruct (Forecast.forecast_loop _ _ _ _ _ _); cbn [bind]; [|discriminate].
  by intros [= <-].
Qed.

(** X21. After [generate_forecast], [prepare_output] sets an output whose
    forecast is the list of the 91 forecast days, as many as the summary
    says, and [get_forecast] of the collision agent takes exactly this list
    from the returned dictionary, without error. *)
Theorem collision_agent_examines_the_forecast `{RT : PyRuntime} {Drivers : Type}
    (model : list Q -> Q) (payments_all : option (list Forecast.Payment))
    (now : string) (drivers : option Drivers)
    (model_info : option ForecastStages.ModelInfo)
    (loaded generated : Forecast.State) :
  Forecast.has_error loaded = false ->
  Forecast.generate_forecast model payments_all loaded = Ok generated ->
  exists final out,
    ForecastStages.prepare_output now drivers model_info generated
    = (final, Some out)
    /\ Forecast.forecast_results generated = Some (ForecastStages.forecast out)
    /\ length (ForecastStages.forecast out) = 91%nat
    /\ ForecastStages.Summary.forecast_days (ForecastStages.summary out)
       = Z.of_nat (length (ForecastStages.forecast out))
    /\ forall (w : Collision.World) (state : Collision.State)
              (fo : Collision.ForecastOutput.t),
         Handover.answers (Some out) fo ->
         Collision.forecasting_agent w = Ok fo ->
         Collision.in_error state = false ->
         Collision.forecast (Collision.get_forecast w state)
         = Some (ForecastStages.forecast out)
         /\ Collision.in_error (Collision.get_forecast w state) = false.
Proof.
  intros Herr Hgen.
  destruct (generate_forecast_coherent model payments_all loaded generated
              Herr Hgen) as (hd & loop & sd & _ & _ & Hrs & _ & Hlen & _).
  assert (Herr' : Forecast.has_error generated = false).
  { unfold Forecast.has_error in *.
    by rewrite (generate_forecast_error _ _ _ _ Hgen). }
  unfold ForecastStages.prepare_output. rewrite Herr', Hrs.
  do 2 eexists. split; [reflexivity|]. cbn [ForecastStages.forecast default].
  split; [reflexivity|]. split; [exact Hlen|].
  split; [simpl; by rewrite Hlen|].
  intros w state fo (Hf & Hfr & _) Hfo Hstate.
  cbn [ForecastStages.forecast] in Hf.
  unfold Collision.get_forecast. rewrite Hstate, Hfo, Hf, Hfr.
  destruct (Forecast.results loop) as [|d rest]; [discriminate Hlen|].
  split; [reflexivity|exact Hstate].
Qed.

Lemma collision_agent_examines_the_forecast_witness :
  exists final out,
    ForecastStages.prepare_output (Drivers := unit) "2025-01-02T09:00:00"
      None None ForecastExamples.drizzled = (final, Some out)
    /\ length (ForecastStages.forecast out) = 91%nat
    /\ forall w : Collision.World,
         Collision.forecasting_agent w
         = Ok {| Collision.ForecastOutput.forecast :=
                   Some (ForecastStages.forecast out);
                 Collision.ForecastOutput.forecast_results := None;
                 Collision.ForecastOutput.model_info := Some PNone |} ->
         Collision.forecast (Collision.get_forecast w (Collision.initial (PNum 1)))
         = Some (ForecastStages.forecast out).
Proof.
  destruct (collision_agent_examines_the_forecast (RT := RefRuntime.runtime)
              (Drivers := unit) ForecastExamples.drizzle
              (Some [ForecastExamples.good]) "2025-01-02T09:00:00" None None
              ForecastExamples.loaded ForecastExamples.drizzled)
    as (final & out & Hout & _ & Hlen & _ & Hseen).
  - by_evaluation.
  - by_evaluation.
  - exists final, out. split; [exact Hout|]. split; [exact Hlen|].
    intros w Hw.
    refine (proj1 (Hseen w (Collision.initial (PNum 1)) _ _ Hw eq_refl)).
    split; [reflexivity|]. split; [reflexivity|]. by eexists.
Defined.

End HandoverProps.
